(** * Market-data cache and normaliser: a shallow embedding

    The development follows the Python sources
      - [_shared/yf_cache.py]        (class [YFinanceCacheManager]),
      - [_shared/yf_normalizer.py]   (class [YFinanceNormalizer]),
      - [get_multiple_stocks/index.py], [get_stock/index.py],
        [get_indices/index.py] and [get_crypto/index.py]
                                     (the request handlers).

    Conventions of the embedding.
      - Python [str] is [string]; the model covers ASCII text, on which
        [str.upper] only moves the letters a-z.
      - Instants ([datetime] values in UTC) are integers counting
        microseconds; [timedelta(seconds=n)] is [n * 1000000].  The
        [expires_at] column holds an instant: the ISO text written by
        [isoformat] and read back by [fromisoformat] stands for it.
      - Code that raises runs in a state-and-exception monad; a
        [try ... except Exception] block is [try_except].  The [print]
        of an [except] block is left out.
      - The Supabase client is an interface of five calls over a state
        of its own, each of which may raise; [mem_table] is the table
        that never fails.
      - Values of [info] records and of payloads are [pyval]; floating
        point, [int(str)], [isoformat] and [str(e)] come from the
        runtime through the class [PyRuntime].
      - A world records the clock readings taken and the calls issued
        to the table and to the provider, so that "before any access"
        can be stated.
      - Request bodies are typed records: one symbol is text or
        absent; a list of symbols is absent, text, a list of texts, a
        JSON object, which Python reads by its keys, or a nonzero
        number.  Bodies of another shape are not modelled: on a symbol
        that is not text the code raises inside the handler's [try]
        block. *)

From Stdlib Require Import ZArith QArith String Ascii List Bool Lia.
From stdpp Require Import base gmap strings list.

Local Open Scope string_scope.
Local Open Scope list_scope.
Local Open Scope Z_scope.

(* ================================================================= *)
(** * Part I: definitions *)
(* ================================================================= *)

(* ----------------------------------------------------------------- *)
(** ** Text *)

Definition is_ascii_lower (c : ascii) : bool :=
  let n := nat_of_ascii c in (97 <=? n)%nat && (n <=? 122)%nat.

Definition is_ascii_upper (c : ascii) : bool :=
  let n := nat_of_ascii c in (65 <=? n)%nat && (n <=? 90)%nat.

Definition is_ascii_digit (c : ascii) : bool :=
  let n := nat_of_ascii c in (48 <=? n)%nat && (n <=? 57)%nat.

(** [c.upper()] on one character. *)
Definition upper_char (c : ascii) : ascii :=
  if is_ascii_lower c then ascii_of_nat (nat_of_ascii c - 32) else c.

(** [s.upper()]. *)
Fixpoint upper (s : string) : string :=
  match s with
  | EmptyString => EmptyString
  | String c s' => String (upper_char c) (upper s')
  end.

(** [c in s] for a character [c] and the characters of [s]. *)
Fixpoint char_in (c : ascii) (s : string) : bool :=
  match s with
  | EmptyString => false
  | String d s' => Ascii.eqb c d || char_in c s'
  end.

(** [all(p(c) for c in s)]. *)
Fixpoint all_chars (p : ascii -> bool) (s : string) : bool :=
  match s with
  | EmptyString => true
  | String c s' => p c && all_chars p s'
  end.

(* ----------------------------------------------------------------- *)
(** ** [YFinanceNormalizer.validate_ticker_symbol] *)

Definition allowed_chars : string :=
  "ABCDEFGHIJKLMNOPQRSTUVWXYZ0123456789-._^".

Definition validate_ticker_symbol (ticker : string) : bool :=
  if String.eqb ticker "" || (10 <? String.length ticker)%nat then false
  else all_chars (fun c => char_in c allowed_chars) (upper ticker).

(** The symbol rule in the words of the specification: length 1 to 10,
    only uppercase letters, digits, hyphen, period and caret. *)
Definition spec_symbol_char (c : ascii) : bool :=
  is_ascii_upper c || is_ascii_digit c
  || Ascii.eqb c "-" || Ascii.eqb c "." || Ascii.eqb c "^".

Definition spec_valid_symbol (s : string) : bool :=
  (1 <=? String.length s)%nat && (String.length s <=? 10)%nat
  && all_chars spec_symbol_char s.

(** The rule the code applies to a symbol without underscore: letters
    of either case, digits, hyphen, period and caret. *)
Definition symbol_char_any_case (c : ascii) : bool :=
  is_ascii_upper c || is_ascii_lower c || is_ascii_digit c
  || Ascii.eqb c "-" || Ascii.eqb c "." || Ascii.eqb c "^".

(* ----------------------------------------------------------------- *)
(** ** [YFinanceCacheManager]: keys and durations *)

Definition CACHE_DURATION_HIGH_VOLUME : Z := 300.
Definition CACHE_DURATION_NORMAL : Z := 600.

Definition HIGH_VOLUME_TICKERS : gset string :=
  {[ "AAPL"; "MSFT"; "GOOGL"; "AMZN"; "META"; "TSLA"; "NVDA";
     "BTC-USD"; "ETH-USD"; "^GSPC"; "^IXIC"; "^DJI" ]}.

(** The allow-list written out as a list: seven equities, two crypto
    pairs, three indices. *)
Definition high_volume_list : list string :=
  [ "AAPL"; "MSFT"; "GOOGL"; "AMZN"; "META"; "TSLA"; "NVDA";
    "BTC-USD"; "ETH-USD"; "^GSPC"; "^IXIC"; "^DJI" ].

(** [f"yf:{ticker.upper()}:{range_period}:{interval}"] *)
Definition get_cache_key (ticker range_period interval : string) : string :=
  "yf:" +:+ upper ticker +:+ ":" +:+ range_period +:+ ":" +:+ interval.

Definition get_cache_duration (ticker : string) : Z :=
  if bool_decide (upper ticker ∈ HIGH_VOLUME_TICKERS)
  then CACHE_DURATION_HIGH_VOLUME
  else CACHE_DURATION_NORMAL.

(* ----------------------------------------------------------------- *)
(** ** Exceptions, and the monad the stateful code runs in *)

(** The exceptions the modelled code can meet; all of them are
    subclasses of Python's [Exception]. *)
Inductive exn : Type :=
| TypeError
| ValueError
| ZeroDivisionError
| OverflowError
| AttributeError
| StorageError (msg : string)   (* raised by the Supabase client *)
| ProviderError (msg : string). (* raised by yfinance *)

(** A computation over a world [W] that returns a value or raises;
    what it did to the world before raising stays done. *)
Definition M (W A : Type) : Type := W -> (exn + A) * W.

Definition ret {W A} (a : A) : M W A := fun w => (inr a, w).

Definition raise {W A} (e : exn) : M W A := fun w => (inl e, w).

Definition bind {W A B} (m : M W A) (k : A -> M W B) : M W B :=
  fun w =>
    match m w with
    | (inr a, w') => k a w'
    | (inl e, w') => (inl e, w')
    end.

(** [try: body except Exception as e: handler(e)] *)
Definition try_except {W A} (body : M W A) (handler : exn -> M W A) : M W A :=
  fun w =>
    match body w with
    | (inr a, w') => (inr a, w')
    | (inl e, w') => handler e w'
    end.

Notation "'let!' x ':=' m 'in' k" := (bind m (fun x => k))
  (at level 10, x name, m at level 100, k at level 200).

(* ----------------------------------------------------------------- *)
(** ** The [market_cache] table *)

(** One row of [market_cache] without its [id]: the columns [data]
    and [expires_at]. *)
Record Row (P : Type) : Type := mkRow { data : P; expires_at : Z }.
Arguments mkRow {P} _ _.
Arguments data {P} _.
Arguments expires_at {P} _.

(** What the cache manager asks of the Supabase client.  Each
    operation runs on the client's own state [S] and may raise. *)
Record Storage (P S : Type) : Type := mkStorage {
  (* .select("data, expires_at").eq("id", k).maybe_single().execute() *)
  sto_select : string -> S -> (exn + option (Row P)) * S;
  (* .upsert({"id": k, "data": d, "expires_at": t}).execute() *)
  sto_upsert : string -> Row P -> S -> (exn + unit) * S;
  (* .delete().eq("id", k).execute() *)
  sto_delete_eq : string -> S -> (exn + unit) * S;
  (* .delete().like("id", pattern).execute(), giving [result.data] *)
  sto_delete_like : string -> S -> (exn + list (string * Row P)) * S;
  (* .delete().lt("expires_at", t).execute(), giving [result.data] *)
  sto_delete_lt : Z -> S -> (exn + list (string * Row P)) * S
}.
Arguments sto_select {P S} _ _ _.
Arguments sto_upsert {P S} _ _ _ _.
Arguments sto_delete_eq {P S} _ _ _.
Arguments sto_delete_like {P S} _ _ _.
Arguments sto_delete_lt {P S} _ _ _.

(** Calls that leave the process, in the order they were issued. *)
Inductive event (P : Type) : Type :=
| EvSelect (key : string)
| EvUpsert (key : string) (row : Row P)
| EvDeleteEq (key : string)
| EvDeleteLike (pattern : string)
| EvDeleteLt (t : Z)
| EvTicker (symbol : string).   (* yf.Ticker(symbol) *)
Arguments EvSelect {P} _.
Arguments EvUpsert {P} _ _.
Arguments EvDeleteEq {P} _.
Arguments EvDeleteLike {P} _.
Arguments EvDeleteLt {P} _.
Arguments EvTicker {P} _.

(** The world of one run: the client's state, the readings the system
    clock gives to successive [datetime.now] calls and how many were
    taken, and the calls issued so far. *)
Record world (P S : Type) : Type := mkWorld {
  w_store : S;
  w_clock : nat -> Z;
  w_reads : nat;
  w_trace : list (event P)
}.
Arguments mkWorld {P S} _ _ _ _.
Arguments w_store {P S} _.
Arguments w_clock {P S} _ _.
Arguments w_reads {P S} _.
Arguments w_trace {P S} _.

(** [datetime.now(timezone.utc)] *)
Definition datetime_now {P S} : M (world P S) Z :=
  fun w => (inr (w_clock w (w_reads w)),
            mkWorld (w_store w) (w_clock w) (Datatypes.S (w_reads w)) (w_trace w)).

(** A call to the client: it is recorded, then run on the store. *)
Definition storage_call {P S A} (ev : event P) (op : S -> (exn + A) * S)
  : M (world P S) A :=
  fun w =>
    let '(r, s') := op (w_store w) in
    (r, mkWorld s' (w_clock w) (w_reads w) (w_trace w ++ [ev])).

Definition MICROSECONDS : Z := 1000000.

(** The world after [n] more clock readings and the calls [evs], with
    the store now [s]. *)
Definition advance {P S} (w : world P S) (s : S) (n : nat)
    (evs : list (event P)) : world P S :=
  mkWorld s (w_clock w) (w_reads w + n) (w_trace w ++ evs).

(** The client's call [op] raises in state [s]. *)
Definition faults {S A} (op : S -> (exn + A) * S) (s : S) : Prop :=
  exists e s', op s = (inl e, s').

(* ----------------------------------------------------------------- *)
(** ** [YFinanceCacheManager]: the operations on the table *)

Section CacheManager.
Context {P S : Type} (supabase : Storage P S).

Definition delete_cache (cache_key : string) : M (world P S) bool :=
  try_except
    (let! _ := storage_call (EvDeleteEq cache_key)
                 (sto_delete_eq supabase cache_key) in
     ret true)
    (fun _ => ret false).

Definition get_cached_data (ticker range_period interval : string)
  : M (world P S) (option P) :=
  try_except
    (let cache_key := get_cache_key ticker range_period interval in
     let! result := storage_call (EvSelect cache_key)
                      (sto_select supabase cache_key) in
     match result with
     | None => ret None
     | Some row =>
         let! now := datetime_now in
         if expires_at row <? now then
           let! _ := delete_cache cache_key in
           ret None
         else ret (Some (data row))
     end)
    (fun _ => ret None).

Definition set_cached_data (ticker : string) (payload : P)
    (range_period interval : string) : M (world P S) bool :=
  try_except
    (let cache_key := get_cache_key ticker range_period interval in
     let cache_duration := get_cache_duration ticker in
     let! now := datetime_now in
     let expires := now + cache_duration * MICROSECONDS in
     let! _ := storage_call (EvUpsert cache_key (mkRow payload expires))
                 (sto_upsert supabase cache_key (mkRow payload expires)) in
     ret true)
    (fun _ => ret false).

(** [len(result.data) if result.data else 0] *)
Definition deleted_count (rows : list (string * Row P)) : Z :=
  match rows with
  | [] => 0
  | _ => Z.of_nat (length rows)
  end.

Definition invalidate_ticker_cache (ticker : string) : M (world P S) Z :=
  try_except
    (let pattern := "yf:" +:+ upper ticker +:+ ":%" in
     let! rows := storage_call (EvDeleteLike pattern)
                    (sto_delete_like supabase pattern) in
     ret (deleted_count rows))
    (fun _ => ret 0).

Definition cleanup_expired_cache : M (world P S) Z :=
  try_except
    (let! now := datetime_now in
     let! rows := storage_call (EvDeleteLt now)
                    (sto_delete_lt supabase now) in
     ret (deleted_count rows))
    (fun _ => ret 0).
End CacheManager.

(* ----------------------------------------------------------------- *)
(** ** A table held in memory *)

(** SQL [LIKE]: [%] stands for any run of characters, [_] for any one
    character, and a backslash makes the next character literal. *)
Fixpoint like_match (pattern : string) : string -> bool :=
  match pattern with
  | EmptyString => fun s => String.eqb s ""
  | String c pattern' =>
      if Ascii.eqb c "%" then
        fix star (s : string) : bool :=
          like_match pattern' s
          || match s with
             | EmptyString => false
             | String _ s' => star s'
             end
      else if Ascii.eqb c "_" then
        fun s => match s with
                 | EmptyString => false
                 | String _ s' => like_match pattern' s'
                 end
      else
        match pattern' with
        | String e pattern'' =>
            if Ascii.eqb c "\" then
              fun s => match s with
                       | EmptyString => false
                       | String d s' => Ascii.eqb e d && like_match pattern'' s'
                       end
            else
              fun s => match s with
                       | EmptyString => false
                       | String d s' => Ascii.eqb c d && like_match pattern' s'
                       end
        | EmptyString =>
            fun s => match s with
                     | EmptyString => false
                     | String d s' => Ascii.eqb c d && like_match pattern' s'
                     end
        end
  end.

Section MemTable.
Context {P : Type}.

(** A table that never fails: rows by [id]. *)
Definition mem_select (k : string) (t : gmap string (Row P))
  : (exn + option (Row P)) * gmap string (Row P) :=
  (inr (t !! k), t).

Definition mem_upsert (k : string) (r : Row P) (t : gmap string (Row P))
  : (exn + unit) * gmap string (Row P) :=
  (inr tt, <[k := r]> t).

Definition mem_delete_eq (k : string) (t : gmap string (Row P))
  : (exn + unit) * gmap string (Row P) :=
  (inr tt, delete k t).

Definition mem_delete_where (p : string -> Row P -> bool)
    (t : gmap string (Row P))
  : (exn + list (string * Row P)) * gmap string (Row P) :=
  (inr (map_to_list (filter (fun kr => p kr.1 kr.2 = true) t)),
   filter (fun kr => p kr.1 kr.2 = false) t).

Definition mem_table : Storage P (gmap string (Row P)) :=
  mkStorage P (gmap string (Row P))
    mem_select mem_upsert mem_delete_eq
    (fun pattern => mem_delete_where (fun k _ => like_match pattern k))
    (fun now => mem_delete_where (fun _ r => expires_at r <? now)).

(** The row a reader finds under [k] at the instant [now]: a row past
    its expiry counts as absent. *)
Definition live_at (now : Z) (t : gmap string (Row P)) (k : string)
  : option (Row P) :=
  match t !! k with
  | Some row => if expires_at row <? now then None else Some row
  | None => None
  end.

(** A client whose every call raises. *)
Definition down_table (e : exn) : Storage P unit :=
  mkStorage P unit
    (fun _ s => (inl e, s)) (fun _ _ s => (inl e, s))
    (fun _ s => (inl e, s)) (fun _ s => (inl e, s))
    (fun _ s => (inl e, s)).

(** A client that can read the table but whose every write raises. *)
Definition readonly_table (e : exn) : Storage P (gmap string (Row P)) :=
  mkStorage P (gmap string (Row P))
    mem_select (fun _ _ s => (inl e, s))
    (fun _ s => (inl e, s)) (fun _ s => (inl e, s))
    (fun _ s => (inl e, s)).
End MemTable.

(* ----------------------------------------------------------------- *)
(** ** Python values *)

(** What the model takes from the Python runtime without looking
    inside: binary floating point, [int(str)], the text of a UTC
    [datetime] and the text of an exception.  The two laws are facts of
    IEEE arithmetic: a nonzero integer does not convert to zero, and a
    float above zero is not zero. *)
Class PyRuntime (F : Type) : Type := {
  f_of_int : Z -> option F;        (* float(n); None: OverflowError *)
  f_int_div : Z -> Z -> option F;  (* n / d on integers, d nonzero;
                                      None: OverflowError *)
  f_is_zero : F -> bool;           (* x == 0.0 *)
  f_gt0 : F -> bool;               (* x > 0 *)
  f_sub : F -> F -> F;
  f_mul : F -> F -> F;
  f_div : F -> F -> F;             (* x / y, y not zero *)
  f_round2 : F -> F;               (* round(x, 2) *)
  f_is_nan : F -> bool;            (* x != x *)
  f_to_int : F -> option Z;        (* int(x); None: x is not finite *)
  str_to_int : string -> option Z; (* int(s); None: ValueError *)
  isoformat : Z -> string;         (* t.isoformat(), t in UTC *)
  str_of_exn : exn -> string;      (* str(e) *)
  f_of_int_nonzero :
    forall n x, n <> 0 -> f_of_int n = Some x -> f_is_zero x = false;
  f_gt0_nonzero :
    forall x, f_gt0 x = true -> f_is_zero x = false
}.

#[local] Set Warnings "-register-all".
Inductive pyval (F : Type) : Type :=
| PNone
| PBool (b : bool)
| PInt (n : Z)
| PFloat (x : F)
| PStr (s : string)
| PList (l : list (pyval F))
| PDict (d : list (string * pyval F)).
Arguments PNone {F}.
Arguments PBool {F} _.
Arguments PInt {F} _.
Arguments PFloat {F} _.
Arguments PStr {F} _.
Arguments PList {F} _.
Arguments PDict {F} _.

(** A [dict] with string keys, in insertion order. *)
Abbreviation pydict F := (list (string * pyval F)).

(** [not tickers], [s.strip()], [s.split(",")], [s * n] on text. *)
Definition is_space (c : ascii) : bool :=
  let n := nat_of_ascii c in
  ((9 <=? n)%nat && (n <=? 13)%nat) || ((28 <=? n)%nat && (n <=? 32)%nat).

Fixpoint lstrip (s : string) : string :=
  match s with
  | EmptyString => EmptyString
  | String c s' => if is_space c then lstrip s' else s
  end.

Fixpoint rstrip (s : string) : string :=
  match s with
  | EmptyString => EmptyString
  | String c s' =>
      match rstrip s' with
      | EmptyString => if is_space c then EmptyString else String c EmptyString
      | rest => String c rest
      end
  end.

Definition strip (s : string) : string := rstrip (lstrip s).

Fixpoint split_commas (s : string) : list string :=
  match s with
  | EmptyString => [EmptyString]
  | String c s' =>
      if Ascii.eqb c "," then EmptyString :: split_commas s'
      else match split_commas s' with
           | piece :: pieces => String c piece :: pieces
           | [] => [String c EmptyString]
           end
  end.

Fixpoint string_repeat (s : string) (n : nat) : string :=
  match n with
  | O => EmptyString
  | Datatypes.S n' => s +:+ string_repeat s n'
  end.

Section PythonValues.
Context {F : Type} {RT : PyRuntime F}.

(** [d.get(k)], [d.get(k, default)], [k in d], [d[k] = v]. *)
Fixpoint dict_get (k : string) (d : pydict F) : option (pyval F) :=
  match d with
  | [] => None
  | (k', v) :: d' => if String.eqb k k' then Some v else dict_get k d'
  end.

Definition dict_get_or (k : string) (default : pyval F) (d : pydict F)
  : pyval F :=
  match dict_get k d with
  | Some v => v
  | None => default
  end.

Definition dict_has (k : string) (d : pydict F) : bool :=
  match dict_get k d with
  | Some _ => true
  | None => false
  end.

Fixpoint dict_set (k : string) (v : pyval F) (d : pydict F) : pydict F :=
  match d with
  | [] => [(k, v)]
  | (k', v') :: d' =>
      if String.eqb k k' then (k', v) :: d' else (k', v') :: dict_set k v d'
  end.

(** Truth value of an object. *)
Definition truthy (v : pyval F) : bool :=
  match v with
  | PNone => false
  | PBool b => b
  | PInt n => negb (n =? 0)
  | PFloat x => negb (f_is_zero x)
  | PStr s => negb (String.eqb s "")
  | PList l => match l with [] => false | _ => true end
  | PDict d => match d with [] => false | _ => true end
  end.

(** [a or b] *)
Definition py_or (a b : pyval F) : pyval F := if truthy a then a else b.

(** The numbers: [bool] and [int] as integers, [float]. *)
Inductive num : Type :=
| NInt (n : Z)
| NFloat (x : F).

Definition as_num (v : pyval F) : option num :=
  match v with
  | PBool b => Some (NInt (Z.b2z b))
  | PInt n => Some (NInt n)
  | PFloat x => Some (NFloat x)
  | _ => None
  end.

Definition to_float (n : Z) : exn + F :=
  match f_of_int n with
  | Some x => inr x
  | None => inl OverflowError
  end.

Definition ebind {A B} (r : exn + A) (k : A -> exn + B) : exn + B :=
  match r with
  | inl e => inl e
  | inr a => k a
  end.

(** [v > 0] *)
Definition py_gt0 (v : pyval F) : exn + bool :=
  match as_num v with
  | Some (NInt n) => inr (0 <? n)
  | Some (NFloat x) => inr (f_gt0 x)
  | None => inl TypeError
  end.

(** [a - b] *)
Definition py_sub (a b : pyval F) : exn + pyval F :=
  match as_num a, as_num b with
  | Some (NInt m), Some (NInt n) => inr (PInt (m - n))
  | Some (NInt m), Some (NFloat y) =>
      ebind (to_float m) (fun x => inr (PFloat (f_sub x y)))
  | Some (NFloat x), Some (NInt n) =>
      ebind (to_float n) (fun y => inr (PFloat (f_sub x y)))
  | Some (NFloat x), Some (NFloat y) => inr (PFloat (f_sub x y))
  | _, _ => inl TypeError
  end.

Definition float_div (x y : F) : exn + pyval F :=
  if f_is_zero y then inl ZeroDivisionError else inr (PFloat (f_div x y)).

(** [a / b] *)
Definition py_truediv (a b : pyval F) : exn + pyval F :=
  match as_num a, as_num b with
  | Some (NInt m), Some (NInt n) =>
      if n =? 0 then inl ZeroDivisionError
      else match f_int_div m n with
           | Some q => inr (PFloat q)
           | None => inl OverflowError
           end
  | Some (NInt m), Some (NFloat y) =>
      ebind (to_float m) (fun x => float_div x y)
  | Some (NFloat x), Some (NInt n) =>
      ebind (to_float n) (fun y => float_div x y)
  | Some (NFloat x), Some (NFloat y) => float_div x y
  | _, _ => inl TypeError
  end.

(** [a * b], with the repetition of text and lists. *)
Definition py_mul (a b : pyval F) : exn + pyval F :=
  match as_num a, as_num b with
  | Some (NInt m), Some (NInt n) => inr (PInt (m * n))
  | Some (NInt m), Some (NFloat y) =>
      ebind (to_float m) (fun x => inr (PFloat (f_mul x y)))
  | Some (NFloat x), Some (NInt n) =>
      ebind (to_float n) (fun y => inr (PFloat (f_mul x y)))
  | Some (NFloat x), Some (NFloat y) => inr (PFloat (f_mul x y))
  | Some (NInt n), None | None, Some (NInt n) =>
      match a, b with
      | PStr s, _ | _, PStr s => inr (PStr (string_repeat s (Z.to_nat n)))
      | PList l, _ | _, PList l =>
          inr (PList (concat (repeat l (Z.to_nat n))))
      | _, _ => inl TypeError
      end
  | _, _ => inl TypeError
  end.

(** [round(v, 2)] *)
Definition py_round2 (v : pyval F) : exn + pyval F :=
  match as_num v with
  | Some (NInt n) => inr (PInt n)
  | Some (NFloat x) => inr (PFloat (f_round2 x))
  | None => inl TypeError
  end.

(** [int(v)] *)
Definition py_int (v : pyval F) : exn + pyval F :=
  match v with
  | PBool b => inr (PInt (Z.b2z b))
  | PInt n => inr (PInt n)
  | PFloat x => match f_to_int x with
                | Some n => inr (PInt n)
                | None => inl (if f_is_nan x then ValueError
                               else OverflowError)
                end
  | PStr s => match str_to_int s with
              | Some n => inr (PInt n)
              | None => inl ValueError
              end
  | _ => inl TypeError
  end.
End PythonValues.

(* ----------------------------------------------------------------- *)
(** ** [YFinanceNormalizer] *)

(** One period of [ticker_obj.history(...)]: the index rendered by
    [timestamp.isoformat()], the four prices, and the volume, absent
    where [pd.notna] is false. *)
Record hist_row (F : Type) : Type := mkHistRow {
  h_timestamp : string;
  h_close : F;
  h_open : F;
  h_high : F;
  h_low : F;
  h_volume : option Z
}.
Arguments mkHistRow {F} _ _ _ _ _ _.
Arguments h_timestamp {F} _.
Arguments h_close {F} _.
Arguments h_open {F} _.
Arguments h_high {F} _.
Arguments h_low {F} _.
Arguments h_volume {F} _.

(** A [yfinance.Ticker]: the [ticker] attribute if it has one, what
    reading [info] gives and what [history(period=...)] gives; [inl msg]
    is an exception raised by the provider. *)
Record ticker_obj (F : Type) : Type := mkTicker {
  t_ticker : option string;
  t_info : string + pydict F;
  t_history : string -> string + list (hist_row F)
}.
Arguments mkTicker {F} _ _ _.
Arguments t_ticker {F} _.
Arguments t_info {F} _.
Arguments t_history {F} _ _.

Definition lift {W A} (r : exn + A) : M W A := fun w => (r, w).

Definition provider_result {A} (r : string + A) : exn + A :=
  match r with
  | inl msg => inl (ProviderError msg)
  | inr a => inr a
  end.

Section Normalizer.
Context {F : Type} {RT : PyRuntime F} {P S : Type}.

Definition _normalize_history (history_df : list (hist_row F))
  : list (pyval F) :=
  map (fun row =>
         PDict [ ("timestamp", PStr (h_timestamp row));
                 ("price", PFloat (f_round2 (h_close row)));
                 ("open", PFloat (f_round2 (h_open row)));
                 ("high", PFloat (f_round2 (h_high row)));
                 ("low", PFloat (f_round2 (h_low row)));
                 ("volume", match h_volume row with
                            | Some n => PInt n
                            | None => PInt 0
                            end) ])
      history_df.

Definition _error_response (ticker error : string) : M (world P S) (pydict F) :=
  let! now := datetime_now in
  ret [ ("ticker", PStr ticker);
        ("error", PStr error);
        ("price", PInt 0);
        ("change_percent", PInt 0);
        ("timestamp", PStr (isoformat now)) ].

(** [info.get("regularMarketPrice") or info.get("currentPrice", 0)] *)
Definition current_price_of (info : pydict F) : pyval F :=
  py_or (dict_get_or "regularMarketPrice" PNone info)
        (dict_get_or "currentPrice" (PInt 0) info).

(** [info.get("previousClose", current_price)] *)
Definition previous_close_of (info : pydict F) : pyval F :=
  dict_get_or "previousClose" (current_price_of info) info.

(** [((current_price - previous_close) / previous_close) * 100] *)
Definition percent_change (current_price previous_close : pyval F)
  : exn + pyval F :=
  ebind (py_sub current_price previous_close) (fun difference =>
  ebind (py_truediv difference previous_close) (fun ratio =>
  py_mul ratio (PInt 100))).

(** [round(v, 2) if v else 0] *)
Definition round2_or_zero (v : pyval F) : exn + pyval F :=
  if truthy v then py_round2 v else inr (PInt 0).

(** [change_percent = 0], then the guarded assignment. *)
Definition change_percent_of (current_price previous_close : pyval F)
  : exn + pyval F :=
  if truthy previous_close then
    ebind (py_gt0 previous_close) (fun positive : bool =>
      if positive then percent_change current_price previous_close
      else inr (PInt 0))
  else inr (PInt 0).

(** [ticker_obj.history(period=range_period) if include_history else None] *)
Definition history_of (ticker : ticker_obj F) (include_history : bool)
    (range_period : string) : exn + option (list (hist_row F)) :=
  if include_history
  then ebind (provider_result (t_history ticker range_period))
         (fun h => inr (Some h))
  else inr None.

(** [info.get("regularMarketOpen") or info.get("open", 0)] and the
    like for the day's high, low and volume. *)
Definition open_price_of (info : pydict F) : pyval F :=
  py_or (dict_get_or "regularMarketOpen" PNone info)
        (dict_get_or "open" (PInt 0) info).

Definition high_price_of (info : pydict F) : pyval F :=
  py_or (dict_get_or "dayHigh" PNone info)
        (dict_get_or "regularMarketDayHigh" (PInt 0) info).

Definition low_price_of (info : pydict F) : pyval F :=
  py_or (dict_get_or "dayLow" PNone info)
        (dict_get_or "regularMarketDayLow" (PInt 0) info).

Definition volume_of (info : pydict F) : pyval F :=
  py_or (dict_get_or "volume" PNone info)
        (dict_get_or "regularMarketVolume" (PInt 0) info).

(** [int(v) if v else 0] *)
Definition int_or_zero (v : pyval F) : exn + pyval F :=
  if truthy v then py_int v else inr (PInt 0).

(** The body of the [try] block of [normalize_ticker_data]. *)
Definition normalize_body (ticker : ticker_obj F) (include_history : bool)
    (range_period : string) : M (world P S) (pydict F) :=
  let! info := lift (provider_result (t_info ticker)) in
  let! history := lift (history_of ticker include_history range_period) in
  let current_price := current_price_of info in
  let previous_close := previous_close_of info in
  let! change_percent :=
    lift (change_percent_of current_price previous_close) in
  let open_price := open_price_of info in
  let high_price := high_price_of info in
  let low_price := low_price_of info in
  let volume := volume_of info in
  let! price_r := lift (round2_or_zero current_price) in
  let! change_r := lift (py_round2 change_percent) in
  let! open_r := lift (round2_or_zero open_price) in
  let! close_r := lift (round2_or_zero previous_close) in
  let! high_r := lift (round2_or_zero high_price) in
  let! low_r := lift (round2_or_zero low_price) in
  let! volume_r := lift (int_or_zero volume) in
  let! now := datetime_now in
  let normalized :=
    [ ("ticker", dict_get_or "symbol" (PStr "UNKNOWN") info);
      ("name", py_or (dict_get_or "longName" PNone info)
                     (dict_get_or "shortName" (PStr "") info));
      ("price", price_r);
      ("change_percent", change_r);
      ("open", open_r);
      ("close", close_r);
      ("high", high_r);
      ("low", low_r);
      ("volume", volume_r);
      ("currency", dict_get_or "currency" (PStr "USD") info);
      ("market_cap", dict_get_or "marketCap" PNone info);
      ("timestamp", PStr (isoformat now)) ] in
  match history with
  | Some (row :: rows) =>
      ret (dict_set "history" (PList (_normalize_history (row :: rows)))
             normalized)
  | _ => ret normalized
  end.

Definition normalize_ticker_data (ticker : ticker_obj F)
    (include_history : bool) (range_period : string)
  : M (world P S) (pydict F) :=
  try_except
    (normalize_body ticker include_history range_period)
    (fun e =>
       _error_response
         (match t_ticker ticker with
          | Some name => name
          | None => "UNKNOWN"
          end)
         (str_of_exn e)).



End Normalizer.

(* ----------------------------------------------------------------- *)
(** ** Requests and responses *)

(** The value under ["tickers"], ["indices"] or ["index"] in a request
    body: missing or null, text, a list of texts, a JSON object with
    its keys in order, or a nonzero number. *)
Inductive tickers_arg : Type :=
| TickersAbsent
| TickersStr (s : string)
| TickersList (l : list string)
| TickersObject (keys : list string)
| TickersOther.

Definition tickers_truthy (t : tickers_arg) : bool :=
  match t with
  | TickersAbsent => false
  | TickersStr s => negb (String.eqb s "")
  | TickersList l => match l with [] => false | _ => true end
  | TickersObject keys => match keys with [] => false | _ => true end
  | TickersOther => true
  end.

(** The parsed JSON body of a request. *)
Record request_body : Type := mkBody {
  rq_ticker : option string;
  rq_tickers : tickers_arg;
  rq_indices : tickers_arg;
  rq_index : tickers_arg;
  rq_range : option string;
  rq_interval : option string;
  rq_include_history : bool
}.

Definition empty_body : request_body :=
  mkBody None TickersAbsent TickersAbsent TickersAbsent None None false.

Definition get_or (o : option string) (default : string) : string :=
  match o with
  | Some s => s
  | None => default
  end.

Record response (F : Type) : Type := mkResponse {
  statusCode : Z;
  body : pyval F;   (* the object handed to [json.dumps] *)
  headers : list (string * string)
}.
Arguments mkResponse {F} _ _ _.
Arguments statusCode {F} _.
Arguments body {F} _.
Arguments headers {F} _.

Definition json_headers : list (string * string) :=
  [("Content-Type", "application/json")].

Definition error_body {F} (message : string) : pyval F :=
  PDict [("error", PStr message)].

Section Provider.
Context {F : Type} {RT : PyRuntime F} {S : Type}.
Context (yf_Ticker : string -> string + ticker_obj F).

(** [yf.Ticker(symbol)] *)
Definition call_Ticker (symbol : string)
  : M (world (pydict F) S) (ticker_obj F) :=
  fun w =>
    (provider_result (yf_Ticker symbol),
     mkWorld (w_store w) (w_clock w) (w_reads w)
       (w_trace w ++ [EvTicker symbol])).
End Provider.

(** The quote [normalize_ticker_data] returns when the clock reads
    [now]. *)
Definition quote_at {F} {RT : PyRuntime F} (ticker : ticker_obj F)
    (include_history : bool) (range_period : string) (now : Z) : pydict F :=
  match fst (normalize_ticker_data (P := unit) (S := unit)
               ticker include_history range_period
               (mkWorld tt (fun _ => now) 0 [])) with
  | inr quote => quote
  | inl _ => []
  end.

(** Whether the quote is the error variant; the clock reading only
    shows in the quote's timestamp. *)
Definition fails_to_normalize {F} {RT : PyRuntime F} (ticker : ticker_obj F)
    (include_history : bool) (range_period : string) : bool :=
  dict_has "error" (quote_at ticker include_history range_period 0).

(** Whether fetching [symbol] fails: [yf.Ticker] raises, or the
    normaliser returns the error variant. *)
Definition provider_failed {F} {RT : PyRuntime F}
    (yf_Ticker : string -> string + ticker_obj F) (include_history : bool)
    (range_period : string) (symbol : string) : bool :=
  match yf_Ticker symbol with
  | inl _ => true
  | inr ticker => fails_to_normalize ticker include_history range_period
  end.

(** Whether an entry of a response's [data] list carries an ["error"]. *)
Definition has_error {F} (entry : pyval F) : bool :=
  match entry with
  | PDict d => dict_has "error" d
  | _ => false
  end.

(** What the table holds for [ticker] once its quote was written. *)
Definition holds_quote {F} {RT : PyRuntime F}
    (yf_Ticker : string -> string + ticker_obj F)
    (range_period interval : string) (include_history : bool)
    (store : gmap string (Row (pydict F))) (ticker : string) : Prop :=
  forall ticker_obj, yf_Ticker ticker = inr ticker_obj ->
    exists now expires,
      store !! get_cache_key ticker range_period interval
      = Some (mkRow (dict_set "cached" (PBool false)
                       (quote_at ticker_obj include_history range_period now))
                expires).

(* ----------------------------------------------------------------- *)
(** ** [get_multiple_stocks/index.py] *)

Module get_multiple_stocks.
Section Endpoint.
Context {F : Type} {RT : PyRuntime F} {S : Type}.
Context (supabase : Storage (pydict F) S).
Context (yf_Ticker : string -> string + ticker_obj F).

(** The [ticker_list] of [validate_request]. *)
Definition ticker_list_of (tickers : tickers_arg) : option (list string) :=
  match tickers with
  | TickersStr s => Some (map strip (split_commas s))
  | TickersList l => Some l
  | _ => None
  end.

Fixpoint first_invalid (ticker_list : list string) : option string :=
  match ticker_list with
  | [] => None
  | ticker :: rest =>
      if negb (validate_ticker_symbol ticker) then Some ticker
      else first_invalid rest
  end.

Definition validate_request (request_data : request_body) : bool * string :=
  let tickers := rq_tickers request_data in
  if negb (tickers_truthy tickers)
  then (false, "Missing required parameter: tickers")
  else
    match ticker_list_of tickers with
    | None => (false, "tickers must be a comma-separated string or list")
    | Some ticker_list =>
        if (50 <? length ticker_list)%nat
        then (false, "Maximum 50 tickers per request")
        else match first_invalid ticker_list with
             | Some ticker => (false, "Invalid ticker symbol: " +:+ ticker)
             | None => (true, "")
             end
    end.

(** The loop over [ticker_list] that reads the cache. *)
Fixpoint check_cache (range_period interval : string)
    (ticker_list : list string) (results : list (pyval F))
    (tickers_to_fetch : list string)
  : M (world (pydict F) S) (list (pyval F) * list string) :=
  match ticker_list with
  | [] => ret (results, tickers_to_fetch)
  | ticker :: rest =>
      let! cached_data :=
        get_cached_data supabase ticker range_period interval in
      match cached_data with
      | Some (item :: items) =>
          check_cache range_period interval rest
            (results
             ++ [PDict (dict_set "cached" (PBool true) (item :: items))])
            tickers_to_fetch
      | _ =>
          check_cache range_period interval rest results
            (tickers_to_fetch ++ [ticker])
      end
  end.

Definition failed_entry (ticker : string) (e : exn) : pyval F :=
  PDict [ ("ticker", PStr ticker);
          ("error", PStr ("Failed to fetch: " +:+ str_of_exn e));
          ("price", PInt 0);
          ("change_percent", PInt 0) ].

(** One turn of the loop over [tickers_to_fetch]: the entry it
    appends to [results]. *)
Definition fetch_one (range_period interval : string)
    (include_history : bool) (ticker : string)
  : M (world (pydict F) S) (pyval F) :=
  try_except
    (let! ticker_obj := call_Ticker yf_Ticker ticker in
     let! normalized_data :=
       normalize_ticker_data ticker_obj include_history range_period in
     let normalized_data := dict_set "cached" (PBool false) normalized_data in
     let! _ := set_cached_data supabase ticker normalized_data
                 range_period interval in
     ret (PDict normalized_data))
    (fun e => ret (failed_entry ticker e)).

(** The entry [fetch_one] appends when the normaliser reads the
    clock at [now]. *)
Definition entry_of (range_period : string) (include_history : bool)
    (ticker : string) (now : Z) : pyval F :=
  match yf_Ticker ticker with
  | inl msg => failed_entry ticker (ProviderError msg)
  | inr ticker_obj =>
      PDict (dict_set "cached" (PBool false)
               (quote_at ticker_obj include_history range_period now))
  end.

Fixpoint fetch_all (range_period interval : string) (include_history : bool)
    (tickers_to_fetch : list string) (results : list (pyval F))
  : M (world (pydict F) S) (list (pyval F)) :=
  match tickers_to_fetch with
  | [] => ret results
  | ticker :: rest =>
      let! entry := fetch_one range_period interval include_history ticker in
      fetch_all range_period interval include_history rest
        (results ++ [entry])
  end.

Definition batch_body (results : list (pyval F))
    (tickers_to_fetch : list string) : pyval F :=
  PDict [ ("data", PList results);
          ("total", PInt (Z.of_nat (length results)));
          ("cached", PInt (Z.of_nat (length results)
                           - Z.of_nat (length tickers_to_fetch)));
          ("fetched", PInt (Z.of_nat (length tickers_to_fetch))) ].

(** The [ticker_list] of [handler]. *)
Definition upper_ticker_list (tickers : tickers_arg) : list string :=
  match tickers with
  | TickersStr s => map (fun t => upper (strip t)) (split_commas s)
  | TickersList l => map upper l
  | _ => []
  end.

Definition handler (request : request_body)
  : M (world (pydict F) S) (response F) :=
  try_except
    (let '(is_valid, error_msg) := validate_request request in
     if negb is_valid
     then ret (mkResponse 400 (error_body error_msg) json_headers)
     else
       let ticker_list := upper_ticker_list (rq_tickers request) in
       let range_period := get_or (rq_range request) "1d" in
       let interval := get_or (rq_interval request) "1d" in
       let include_history := rq_include_history request in
       let! checked :=
         check_cache range_period interval ticker_list [] [] in
       let results := fst checked in
       let tickers_to_fetch := snd checked in
       let! results :=
         fetch_all range_period interval include_history
           tickers_to_fetch results in
       ret (mkResponse 200 (batch_body results tickers_to_fetch)
              json_headers))
    (fun e =>
       ret (mkResponse 500
              (error_body ("Internal server error: " +:+ str_of_exn e))
              json_headers)).
End Endpoint.
End get_multiple_stocks.

(* ----------------------------------------------------------------- *)
(** ** [get_stock/index.py] *)

Module get_stock.
Section Endpoint.
Context {F : Type} {RT : PyRuntime F} {S : Type}.
Context (supabase : Storage (pydict F) S).
Context (yf_Ticker : string -> string + ticker_obj F).

Definition validate_request (request_data : request_body) : bool * string :=
  match rq_ticker request_data with
  | None => (false, "Missing required parameter: ticker")
  | Some ticker =>
      if String.eqb ticker ""
      then (false, "Missing required parameter: ticker")
      else if negb (validate_ticker_symbol ticker)
      then (false, "Invalid ticker symbol: " +:+ ticker)
      else (true, "")
  end.

Definition handler (request : request_body)
  : M (world (pydict F) S) (response F) :=
  try_except
    (let '(is_valid, error_msg) := validate_request request in
     if negb is_valid
     then ret (mkResponse 400 (error_body error_msg) json_headers)
     else
       let ticker := upper (get_or (rq_ticker request) "") in
       let range_period := get_or (rq_range request) "1mo" in
       let interval := get_or (rq_interval request) "1d" in
       let include_history := rq_include_history request in
       let! cached_data :=
         get_cached_data supabase ticker range_period interval in
       match cached_data with
       | Some (item :: items) =>
           ret (mkResponse 200
                  (PDict (dict_set "cached" (PBool true) (item :: items)))
                  json_headers)
       | _ =>
           let! ticker_obj := call_Ticker yf_Ticker ticker in
           let! normalized_data :=
             normalize_ticker_data ticker_obj include_history range_period in
           if dict_has "error" normalized_data
           then ret (mkResponse 404 (PDict normalized_data) json_headers)
           else
             let normalized_data :=
               dict_set "cached" (PBool false) normalized_data in
             let! _ := set_cached_data supabase ticker normalized_data
                         range_period interval in
             ret (mkResponse 200 (PDict normalized_data) json_headers)
       end)
    (fun e =>
       ret (mkResponse 500
              (error_body ("Internal server error: " +:+ str_of_exn e))
              json_headers)).
End Endpoint.
End get_stock.

(* ----------------------------------------------------------------- *)
(** ** [get_indices/index.py] *)

Module get_indices.
Definition MAJOR_INDICES : list (string * string) :=
  [ ("SP500", "^GSPC"); ("NASDAQ", "^IXIC"); ("DOW", "^DJI");
    ("FTSE", "^FTSE"); ("DAX", "^GDAXI"); ("NIKKEI", "^N225");
    ("HANGSENG", "^HSI"); ("CAC40", "^FCHI"); ("SENSEX", "^BSESN");
    ("ASX200", "^AXJO") ].

Fixpoint major_index (name : string) (table : list (string * string))
  : option string :=
  match table with
  | [] => None
  | (k, v) :: rest => if String.eqb name k then Some v else major_index name rest
  end.

Definition startswith_caret (s : string) : bool :=
  match s with
  | String c _ => Ascii.eqb c "^"
  | EmptyString => false
  end.

(** The loop of [validate_request]: the tickers, or the index that
    is not known. *)
Fixpoint to_tickers (indices : list string) (ticker_list : list string)
  : string + list string :=
  match indices with
  | [] => inr ticker_list
  | index :: rest =>
      let index_upper := upper index in
      match major_index index_upper MAJOR_INDICES with
      | Some ticker => to_tickers rest (ticker_list ++ [ticker])
      | None =>
          if startswith_caret index
          then to_tickers rest (ticker_list ++ [upper index])
          else inl ("Unknown index: " +:+ index)
      end
  end.

(** [validate_request]: [inl message] for [(False, message)],
    [inr ticker_list] for [(True, ticker_list)].  The loop
    [for index in indices] runs over a list, over the keys of an
    object, and raises on a number. *)
Definition validate_request (request_data : request_body)
  : exn + (string + list string) :=
  let indices :=
    if tickers_truthy (rq_indices request_data)
    then rq_indices request_data else rq_index request_data in
  if negb (tickers_truthy indices) then inr (inr (map snd MAJOR_INDICES))
  else
    match indices with
    | TickersStr s => inr (to_tickers [s] [])
    | TickersList l => inr (to_tickers l [])
    | TickersObject keys => inr (to_tickers keys [])
    | _ => inl TypeError
    end.

Section Endpoint.
Context {F : Type} {RT : PyRuntime F} {S : Type}.
Context (supabase : Storage (pydict F) S).
Context (yf_Ticker : string -> string + ticker_obj F).

Fixpoint check_cache (range_period interval : string)
    (ticker_list : list string) (results : list (pyval F))
    (tickers_to_fetch : list string)
  : M (world (pydict F) S) (list (pyval F) * list string) :=
  match ticker_list with
  | [] => ret (results, tickers_to_fetch)
  | ticker :: rest =>
      let! cached_data :=
        get_cached_data supabase ticker range_period interval in
      match cached_data with
      | Some (item :: items) =>
          check_cache range_period interval rest
            (results
             ++ [PDict (dict_set "asset_type" (PStr "index")
                          (dict_set "cached" (PBool true) (item :: items)))])
            tickers_to_fetch
      | _ =>
          check_cache range_period interval rest results
            (tickers_to_fetch ++ [ticker])
      end
  end.

Definition failed_entry (ticker : string) (e : exn) : pyval F :=
  PDict [ ("ticker", PStr ticker);
          ("error", PStr ("Failed to fetch: " +:+ str_of_exn e));
          ("price", PInt 0);
          ("change_percent", PInt 0);
          ("asset_type", PStr "index") ].

Definition fetch_one (range_period interval : string)
    (include_history : bool) (ticker : string)
  : M (world (pydict F) S) (pyval F) :=
  try_except
    (let! ticker_obj := call_Ticker yf_Ticker ticker in
     let! normalized_data :=
       normalize_ticker_data ticker_obj include_history range_period in
     let normalized_data := dict_set "cached" (PBool false) normalized_data in
     let normalized_data :=
       dict_set "asset_type" (PStr "index") normalized_data in
     let! _ := set_cached_data supabase ticker normalized_data
                 range_period interval in
     ret (PDict normalized_data))
    (fun e => ret (failed_entry ticker e)).

Definition entry_of (range_period : string) (include_history : bool)
    (ticker : string) (now : Z) : pyval F :=
  match yf_Ticker ticker with
  | inl msg => failed_entry ticker (ProviderError msg)
  | inr ticker_obj =>
      PDict (dict_set "asset_type" (PStr "index")
               (dict_set "cached" (PBool false)
                  (quote_at ticker_obj include_history range_period now)))
  end.

Fixpoint fetch_all (range_period interval : string) (include_history : bool)
    (tickers_to_fetch : list string) (results : list (pyval F))
  : M (world (pydict F) S) (list (pyval F)) :=
  match tickers_to_fetch with
  | [] => ret results
  | ticker :: rest =>
      let! entry := fetch_one range_period interval include_history ticker in
      fetch_all range_period interval include_history rest
        (results ++ [entry])
  end.

Definition handler (method : string) (posted : request_body)
  : M (world (pydict F) S) (response F) :=
  try_except
    (let body := if String.eqb method "POST" then posted else empty_body in
     let! validated := lift (validate_request body) in
     match validated with
     | inl message =>
         ret (mkResponse 400 (error_body message) json_headers)
     | inr ticker_list =>
         let range_period := get_or (rq_range body) "1d" in
         let interval := get_or (rq_interval body) "1d" in
         let include_history := rq_include_history body in
         let! checked :=
           check_cache range_period interval ticker_list [] [] in
         let results := fst checked in
         let tickers_to_fetch := snd checked in
         let! results :=
           fetch_all range_period interval include_history
             tickers_to_fetch results in
         ret (mkResponse 200
                (get_multiple_stocks.batch_body results tickers_to_fetch)
                json_headers)
     end)
    (fun e =>
       ret (mkResponse 500
              (error_body ("Internal server error: " +:+ str_of_exn e))
              json_headers)).
End Endpoint.
End get_indices.

(* ----------------------------------------------------------------- *)
(** ** A runtime over exact rationals *)

(** The civil date of a day count since 1970-01-01. *)
Definition civil_from_days (days : Z) : Z * Z * Z :=
  let z := days + 719468 in
  let era := z / 146097 in
  let doe := z - era * 146097 in
  let yoe := (doe - doe / 1460 + doe / 36524 - doe / 146096) / 365 in
  let doy := doe - (365 * yoe + yoe / 4 - yoe / 100) in
  let mp := (5 * doy + 2) / 153 in
  let d := doy - (153 * mp + 2) / 5 + 1 in
  let m := if mp <? 10 then mp + 3 else mp - 9 in
  let y := yoe + era * 400 + (if m <=? 2 then 1 else 0) in
  (y, m, d).

Definition digit_char (n : Z) : ascii := ascii_of_nat (48 + Z.to_nat (n mod 10)).

(** The last [width] decimal digits of [n], zero-padded. *)
Fixpoint pad_digits (width : nat) (n : Z) (acc : string) : string :=
  match width with
  | O => acc
  | Datatypes.S width' => pad_digits width' (n / 10) (String (digit_char n) acc)
  end.

(** [t.isoformat()] for an instant [t] in microseconds, in UTC. *)
Definition isoformat_utc (t : Z) : string :=
  let micro := t mod 1000000 in
  let seconds := t / 1000000 in
  let '(y, m, d) := civil_from_days (seconds / 86400) in
  let sod := seconds mod 86400 in
  pad_digits 4 y "-" +:+ pad_digits 2 m "-" +:+ pad_digits 2 d "T"
  +:+ pad_digits 2 (sod / 3600) ":" +:+ pad_digits 2 (sod mod 3600 / 60) ":"
  +:+ pad_digits 2 (sod mod 60) ""
  +:+ (if micro =? 0 then "" else String "." (pad_digits 6 micro ""))
  +:+ "+00:00".

(** [int(s)] on an optional sign followed by decimal digits, with
    blanks around; digit grouping with underscores is not read. *)
Fixpoint digits_value (s : string) (acc : Z) : option Z :=
  match s with
  | EmptyString => Some acc
  | String c s' =>
      if is_ascii_digit c
      then digits_value s' (10 * acc + Z.of_nat (nat_of_ascii c - 48))
      else None
  end.

Definition decimal_to_int (s : string) : option Z :=
  match strip s with
  | EmptyString => None
  | String c rest =>
      if Ascii.eqb c "-" then
        match rest with
        | EmptyString => None
        | _ => option_map Z.opp (digits_value rest 0)
        end
      else if Ascii.eqb c "+" then
        match rest with
        | EmptyString => None
        | _ => digits_value rest 0
        end
      else digits_value (String c rest) 0
  end.

(** Rounding to the nearest integer, ties to even. *)
Definition round_half_even (q : Q) : Z :=
  let n := Qnum q in
  let d := Zpos (Qden q) in
  let low := n / d in
  let twice := 2 * (n mod d) in
  if twice <? d then low
  else if d <? twice then low + 1
  else if Z.even low then low else low + 1.

Definition q_round2 (q : Q) : Q :=
  Qred (Qmake (round_half_even (Qmult q (inject_Z 100))) 100).

Definition q_message (e : exn) : string :=
  match e with
  | TypeError => "unsupported operand type"
  | ValueError => "invalid literal"
  | ZeroDivisionError => "division by zero"
  | OverflowError => "int too large to convert to float"
  | AttributeError => "object has no attribute"
  | StorageError msg => msg
  | ProviderError msg => msg
  end.

(** Exact rational arithmetic in place of binary floating point. *)
#[export] Instance q_runtime : PyRuntime Q.
Proof.
  refine {| f_of_int := fun n => Some (inject_Z n);
            f_int_div := fun n d => Some (Qred (Qdiv (inject_Z n) (inject_Z d)));
            f_is_zero := fun x => Qnum x =? 0;
            f_gt0 := fun x => 0 <? Qnum x;
            f_sub := fun x y => Qred (Qminus x y);
            f_mul := fun x y => Qred (Qmult x y);
            f_div := fun x y => Qred (Qdiv x y);
            f_round2 := q_round2;
            f_is_nan := fun _ => false;
            f_to_int := fun x => Some (Z.quot (Qnum x) (Zpos (Qden x)));
            str_to_int := decimal_to_int;
            isoformat := isoformat_utc;
            str_of_exn := q_message |}.
  - intros n x Hn Hx. injection Hx as <-. cbn. now apply Z.eqb_neq.
  - intros x Hx. apply Z.ltb_lt in Hx. apply Z.eqb_neq. lia.
Defined.

(* ----------------------------------------------------------------- *)
(** ** Sample worlds *)

(** A table with one row for AAPL that expires at instant 100, read by
    a clock that stands at [now]. *)
Definition sample_world (now : Z) : world string (gmap string (Row string)) :=
  mkWorld {[ "yf:AAPL:1d:1d" := mkRow "quote" 100 ]} (fun _ => now) 0 [].

Definition empty_world (now : Z) : world string (gmap string (Row string)) :=
  mkWorld ∅ (fun _ => now) 0 [].

(** A world whose client is down. *)
Definition down_world : world string unit :=
  mkWorld tt (fun _ => 0) 0 [].

(** Two tickers as the provider may give them, and a world to
    normalise them in. *)
Definition rising_ticker : ticker_obj Q :=
  mkTicker (Some "AAPL")
    (inr [ ("symbol", PStr "AAPL");
           ("regularMarketPrice", PFloat (110 # 1));
           ("previousClose", PFloat (100 # 1)) ])
    (fun _ => inr []).

Definition unpriced_ticker : ticker_obj Q :=
  mkTicker (Some "NEWCO")
    (inr [ ("symbol", PStr "NEWCO");
           ("currentPrice", PFloat (150456 # 1000));
           ("previousClose", PInt 0) ])
    (fun _ => inr []).

Definition quiet_world : world (pydict Q) (gmap string (Row (pydict Q))) :=
  mkWorld ∅ (fun _ => 1700000000000000) 0 [].

Definition delisted_ticker : ticker_obj Q :=
  mkTicker (Some "GONE") (inl "No data found, symbol may be delisted")
    (fun _ => inr []).

Definition sp500_ticker : ticker_obj Q :=
  mkTicker (Some "^GSPC")
    (inr [ ("symbol", PStr "^GSPC");
           ("regularMarketPrice", PFloat (4500 # 1));
           ("previousClose", PFloat (4000 # 1)) ])
    (fun _ => inr []).

(** A provider that knows four symbols and is unreachable for the
    rest. *)
Definition sample_provider (symbol : string) : string + ticker_obj Q :=
  if String.eqb symbol "AAPL" then inr rising_ticker
  else if String.eqb symbol "^GSPC" then inr sp500_ticker
  else if String.eqb symbol "NEWCO" then inr unpriced_ticker
  else if String.eqb symbol "GONE" then inr delisted_ticker
  else inl "connection reset".

Definition no_history_ticker : ticker_obj Q :=
  mkTicker (Some "SLOW")
    (inr [ ("symbol", PStr "SLOW"); ("regularMarketPrice", PFloat (5 # 1)) ])
    (fun _ => inl "timed out").

Definition batch_of (tickers : list string) : request_body :=
  mkBody None (TickersList tickers) TickersAbsent TickersAbsent None None false.

Definition stock_of (ticker : string) : request_body :=
  mkBody (Some ticker) TickersAbsent TickersAbsent TickersAbsent
    None None false.

Definition indices_of (indices : list string) : request_body :=
  mkBody None TickersAbsent (TickersList indices) TickersAbsent
    None None false.

(* ----------------------------------------------------------------- *)
(** ** [YFinanceNormalizer.normalize_multiple_tickers] *)

Section NormalizerMany.
Context {F : Type} {RT : PyRuntime F} {P S : Type}.

(** The loop of [normalize_multiple_tickers] over
    [ticker_data.items()]: the dict as the list of its items in
    insertion order. *)
Fixpoint normalize_each (items : list (string * ticker_obj F))
    (include_history : bool) (results : list (pydict F))
  : M (world P S) (list (pydict F)) :=
  match items with
  | [] => ret results
  | (symbol, ticker_obj) :: rest =>
      let! normalized :=
        normalize_ticker_data ticker_obj include_history "1mo" in
      normalize_each rest include_history (results ++ [normalized])
  end.

Definition normalize_multiple_tickers
    (ticker_data : list (string * ticker_obj F)) (include_history : bool)
  : M (world P S) (list (pydict F)) :=
  normalize_each ticker_data include_history [].
End NormalizerMany.

(** The ticker a quote of the error variant is filed under:
    [getattr(ticker_obj, "ticker", "UNKNOWN")]. *)
Definition ticker_attr {F} (ticker : ticker_obj F) : string :=
  match t_ticker ticker with
  | Some name => name
  | None => "UNKNOWN"
  end.

(* ----------------------------------------------------------------- *)
(** ** [get_crypto/index.py] *)

(** The parsed JSON body of a request for a crypto pair. *)
Record crypto_body : Type := mkCryptoBody {
  cq_symbol : option string;
  cq_range : option string;
  cq_interval : option string;
  cq_include_history : bool
}.

Module get_crypto.
Definition SUPPORTED_CRYPTO : gset string :=
  {[ "BTC"; "ETH"; "BNB"; "XRP"; "ADA"; "SOL"; "DOGE"; "MATIC"; "DOT";
     "AVAX"; "SHIB"; "LTC"; "UNI"; "LINK"; "XLM"; "ALGO"; "ATOM"; "NEAR";
     "FTM"; "APE" ]}.

(** The set written out as a list. *)
Definition supported_list : list string :=
  [ "BTC"; "ETH"; "BNB"; "XRP"; "ADA"; "SOL"; "DOGE"; "MATIC"; "DOT";
    "AVAX"; "SHIB"; "LTC"; "UNI"; "LINK"; "XLM"; "ALGO"; "ATOM"; "NEAR";
    "FTM"; "APE" ].

(** The last check of [validate_request], on the symbol as it stands
    then. *)
Definition check_format (symbol : string) : bool * string :=
  if negb (validate_ticker_symbol symbol)
  then (false, "Invalid crypto symbol format: " +:+ symbol)
  else (true, upper symbol).

Definition validate_request (request_data : crypto_body) : bool * string :=
  match cq_symbol request_data with
  | None => (false, "Missing required parameter: symbol")
  | Some symbol =>
      if String.eqb symbol ""
      then (false, "Missing required parameter: symbol")
      else if negb (char_in "-" symbol)
      then
        let base_symbol := upper symbol in
        if negb (bool_decide (base_symbol ∈ SUPPORTED_CRYPTO))
        then (false, "Unsupported crypto symbol: " +:+ symbol
                     +:+ ". Use format like BTC-USD")
        else check_format (base_symbol +:+ "-USD")
      else check_format symbol
  end.

Section Endpoint.
Context {F : Type} {RT : PyRuntime F} {S : Type}.
Context (supabase : Storage (pydict F) S).
Context (yf_Ticker : string -> string + ticker_obj F).

Definition handler (request : crypto_body)
  : M (world (pydict F) S) (response F) :=
  try_except
    (let '(is_valid, result) := validate_request request in
     if negb is_valid
     then ret (mkResponse 400 (error_body result) json_headers)
     else
       let symbol := result in
       let range_period := get_or (cq_range request) "1mo" in
       let interval := get_or (cq_interval request) "1d" in
       let include_history := cq_include_history request in
       let! cached_data :=
         get_cached_data supabase symbol range_period interval in
       match cached_data with
       | Some (item :: items) =>
           ret (mkResponse 200
                  (PDict (dict_set "asset_type" (PStr "crypto")
                            (dict_set "cached" (PBool true) (item :: items))))
                  json_headers)
       | _ =>
           let! ticker_obj := call_Ticker yf_Ticker symbol in
           let! normalized_data :=
             normalize_ticker_data ticker_obj include_history range_period in
           if dict_has "error" normalized_data
           then ret (mkResponse 404 (PDict normalized_data) json_headers)
           else
             let normalized_data :=
               dict_set "cached" (PBool false) normalized_data in
             let normalized_data :=
               dict_set "asset_type" (PStr "crypto") normalized_data in
             let! _ := set_cached_data supabase symbol normalized_data
                         range_period interval in
             ret (mkResponse 200 (PDict normalized_data) json_headers)
       end)
    (fun e =>
       ret (mkResponse 500
              (error_body ("Internal server error: " +:+ str_of_exn e))
              json_headers)).
End Endpoint.
End get_crypto.

Definition crypto_of (symbol : string) : crypto_body :=
  mkCryptoBody (Some symbol) None None false.

(* ----------------------------------------------------------------- *)
(** ** What the further properties speak of *)

(** [s.startswith(prefix)] *)
Fixpoint starts_with (prefix s : string) : bool :=
  match prefix with
  | EmptyString => true
  | String c prefix' =>
      match s with
      | EmptyString => false
      | String d s' => Ascii.eqb c d && starts_with prefix' s'
      end
  end.

(** A character that stands for itself in a LIKE pattern. *)
Definition like_plain_char (c : ascii) : bool :=
  negb (Ascii.eqb c "%" || Ascii.eqb c "_" || Ascii.eqb c "\").

(** The characters that never occur in a validated symbol. *)
Definition separator_char (c : ascii) : bool :=
  Ascii.eqb c ":" || Ascii.eqb c "," || Ascii.eqb c "%" || Ascii.eqb c "\"
  || is_space c.

(** The symbols [yf.Ticker] was called with, in order. *)
Fixpoint ticker_calls {P} (trace : list (event P)) : list string :=
  match trace with
  | [] => []
  | EvTicker symbol :: rest => symbol :: ticker_calls rest
  | _ :: rest => ticker_calls rest
  end.

(** The ticker the loop of [get_indices.validate_request] appends for
    an index it accepts. *)
Definition index_ticker (index : string) : string :=
  match get_indices.major_index (upper index) get_indices.MAJOR_INDICES with
  | Some ticker => ticker
  | None => upper index
  end.

(** The ["asset_type"] of an entry of a response's [data] list. *)
Definition asset_type_of {F} (entry : pyval F) : option (pyval F) :=
  match entry with
  | PDict d => dict_get "asset_type" d
  | _ => None
  end.

(** Text within ASCII: on it [upper] is [str.upper], which leaves the
    length as it is. *)
Definition ascii_text (s : string) : bool :=
  all_chars (fun c => (nat_of_ascii c <? 128)%nat) s.

Definition ascii_tickers (tickers : tickers_arg) : bool :=
  match tickers with
  | TickersStr s => ascii_text s
  | TickersList l => forallb ascii_text l
  | _ => true
  end.

(* ----------------------------------------------------------------- *)
(** ** Further samples *)

(** A table that holds a quote of AAPL for the range "1mo" until
    instant 100, read when the clock stands at 50. *)
Definition cached_world : world (pydict Q) (gmap string (Row (pydict Q))) :=
  mkWorld {[ "yf:AAPL:1mo:1d" :=
               mkRow [ ("ticker", PStr "AAPL"); ("price", PFloat (110 # 1));
                       ("cached", PBool false) ] 100 ]}
    (fun _ => 50) 0 [].

(** A world whose client is down, for quotes. *)
Definition down_quotes_world : world (pydict Q) unit :=
  mkWorld tt (fun _ => 1700000000000000) 0 [].

(** A ticker with two periods of history, the second without a
    volume. *)
Definition trending_ticker : ticker_obj Q :=
  mkTicker (Some "MSFT")
    (inr [ ("symbol", PStr "MSFT");
           ("regularMarketPrice", PFloat (300 # 1));
           ("previousClose", PFloat (250 # 1)) ])
    (fun _ =>
       inr [ mkHistRow "2024-01-02T00:00:00-05:00"
               (2991 # 10) (2950 # 10) (3000 # 10) (2940 # 10) (Some 1000);
             mkHistRow "2024-01-03T00:00:00-05:00"
               (3000 # 1) (2991 # 10) (3010 # 10) (2980 # 10) None ]).

(** A table that holds a pair of BTC for the range "1mo" until
    instant 100, read when the clock stands at 50. *)
Definition crypto_cached_world
  : world (pydict Q) (gmap string (Row (pydict Q))) :=
  mkWorld {[ "yf:BTC-USD:1mo:1d" :=
               mkRow [ ("ticker", PStr "BTC-USD");
                       ("price", PFloat (60000 # 1));
                       ("cached", PBool false);
                       ("asset_type", PStr "crypto") ] 100 ]}
    (fun _ => 50) 0 [].

(** A provider that is down, and one that answers every symbol with
    the same object. *)
Definition down_provider (symbol : string) : string + ticker_obj Q :=
  inl "connection reset".

Definition steady_provider (symbol : string) : string + ticker_obj Q :=
  inr rising_ticker.

(* ================================================================= *)
(** * Part II: properties *)
(* ================================================================= *)

(* ----------------------------------------------------------------- *)
(** ** Upper-casing *)

Lemma upper_char_idem c : upper_char (upper_char c) = upper_char c.
Proof.
  destruct c as [[] [] [] [] [] [] [] []]; reflexivity.
Qed.

Lemma upper_idem s : upper (upper s) = upper s.
Proof.
  induction s as [|c s IH]; simpl; [reflexivity|].
  now rewrite upper_char_idem, IH.
Qed.

Example upper_aapl : upper "aapl" = "AAPL".
Proof. reflexivity. Qed.

Lemma all_chars_upper p s :
  all_chars p (upper s) = all_chars (fun c => p (upper_char c)) s.
Proof. induction s as [|c s IH]; simpl; [reflexivity|]. now rewrite IH. Qed.

Lemma all_chars_ext p q s :
  (forall c, char_in c s = true -> p c = q c) ->
  all_chars p s = all_chars q s.
Proof.
  induction s as [|c s IH]; simpl; intros Hpq; [reflexivity|].
  rewrite (Hpq c) by (rewrite Ascii.eqb_refl; reflexivity).
  rewrite IH; [reflexivity|].
  intros d Hd. apply Hpq. rewrite Hd. apply orb_true_r.
Qed.

(* ----------------------------------------------------------------- *)
(** ** Symbol validation *)

(** What the membership test in [allowed_chars] accepts, character by
    character, once the symbol has been upper-cased. *)
Lemma allowed_after_upper c :
  char_in (upper_char c) allowed_chars
  = symbol_char_any_case c || Ascii.eqb c "_".
Proof.
  destruct c as [[] [] [] [] [] [] [] []]; vm_compute; reflexivity.
Qed.

Lemma validate_ticker_symbol_unfold s :
  validate_ticker_symbol s
  = (1 <=? String.length s)%nat && (String.length s <=? 10)%nat
    && all_chars (fun c => symbol_char_any_case c || Ascii.eqb c "_") s.
Proof.
  unfold validate_ticker_symbol.
  rewrite all_chars_upper.
  rewrite (all_chars_ext _ (fun c => symbol_char_any_case c || Ascii.eqb c "_"))
    by (intros c _; apply allowed_after_upper).
  destruct s as [|c s]; [reflexivity|].
  cbn [String.eqb orb String.length].
  change (1 <=? S (String.length s))%nat with true.
  cbn [andb].
  destruct (Nat.ltb_spec 10 (S (String.length s))) as [H|H];
    destruct (Nat.leb_spec (S (String.length s)) 10) as [H'|H']; try lia;
    reflexivity.
Qed.

(** C4, as the specification words it, fails: a lower-case symbol is
    accepted although it is not made of uppercase letters. *)
Lemma C4_lowercase_accepted :
  validate_ticker_symbol "aapl" = true /\ spec_valid_symbol "aapl" = false.
Proof. split; reflexivity. Qed.

(** C4 (amended): on a symbol without underscore, [validate_ticker_symbol]
    answers true exactly when the length is between 1 and 10 and every
    character is a letter of either case, a digit, a hyphen, a period or
    a caret; "BRK.B" is accepted, the empty symbol and
    "TOOLONGTICKER123" are rejected. *)
Theorem C4_validate_ticker_symbol :
  (forall s : string,
      char_in "_" s = false ->
      validate_ticker_symbol s = true <->
      (1 <= String.length s <= 10)%nat
      /\ all_chars symbol_char_any_case s = true)
  /\ validate_ticker_symbol "BRK.B" = true
  /\ validate_ticker_symbol "" = false
  /\ validate_ticker_symbol "TOOLONGTICKER123" = false.
Proof.
  split; [|repeat split; reflexivity].
  intros s Hus.
  rewrite validate_ticker_symbol_unfold.
  rewrite (all_chars_ext _ symbol_char_any_case).
  - rewrite !andb_true_iff, !Nat.leb_le. tauto.
  - intros c Hc.
    destruct (Ascii.eqb_spec c "_") as [->|_]; [congruence|].
    apply orb_false_r.
Qed.

Lemma C4_validate_ticker_symbol_witness :
  validate_ticker_symbol "brk.b" = true.
Proof.
  destruct C4_validate_ticker_symbol as (Hrule & _).
  apply (Hrule "brk.b"); [reflexivity|].
  split; [simpl; lia | reflexivity].
Defined.

(* ----------------------------------------------------------------- *)
(** ** Cache keys and durations *)

Lemma high_volume_tickers_elem s :
  s ∈ HIGH_VOLUME_TICKERS <-> In s high_volume_list.
Proof.
  unfold HIGH_VOLUME_TICKERS, high_volume_list. rewrite !elem_of_union, !elem_of_singleton.
  simpl. intuition congruence.
Qed.

(** C5: a symbol whose upper-cased form is one of the twelve
    high-volume tickers (seven equities, two crypto pairs, three
    indices) gets 300 seconds, every other symbol 600 seconds. *)
Theorem C5_get_cache_duration :
  forall ticker : string,
    (In (upper ticker) high_volume_list -> get_cache_duration ticker = 300)
    /\ (~ In (upper ticker) high_volume_list ->
        get_cache_duration ticker = 600)
    /\ length high_volume_list = 12%nat
    /\ get_cache_duration "AAPL" = 300
    /\ get_cache_duration "BTC-USD" = 300.
Proof.
  intros ticker. unfold get_cache_duration.
  split; [|split; [|split; [reflexivity|]]]; [| |split].
  - intros Hin. rewrite bool_decide_eq_true_2; [reflexivity|].
    now apply high_volume_tickers_elem.
  - intros Hnot. rewrite bool_decide_eq_false_2; [reflexivity|].
    intros Hin. apply Hnot. now apply high_volume_tickers_elem.
  - rewrite bool_decide_eq_true_2; [reflexivity|].
    apply high_volume_tickers_elem. simpl. tauto.
  - rewrite bool_decide_eq_true_2; [reflexivity|].
    apply high_volume_tickers_elem. simpl. tauto.
Qed.

Lemma C5_get_cache_duration_witness :
  get_cache_duration "eth-usd" = 300 /\ get_cache_duration "IBM" = 600.
Proof.
  split.
  - destruct (C5_get_cache_duration "eth-usd") as (Hhigh & _).
    apply Hhigh. simpl. tauto.
  - destruct (C5_get_cache_duration "IBM") as (_ & Hother & _).
    apply Hother. simpl.
    intros H. repeat (destruct H as [H|H]; [discriminate H|]). exact H.
Defined.

(** C6: the key is "yf:" followed by the upper-cased symbol, the range
    and the interval, joined by ":"; symbols that agree after
    upper-casing (so symbols that differ only in case) get the same
    key, as "aapl" and "AAPL" do. *)
Theorem C6_get_cache_key :
  forall ticker ticker' range_period interval : string,
    get_cache_key ticker range_period interval
    = "yf:" +:+ upper ticker +:+ ":" +:+ range_period +:+ ":" +:+ interval
    /\ get_cache_key (upper ticker) range_period interval
       = get_cache_key ticker range_period interval
    /\ (upper ticker = upper ticker' ->
        get_cache_key ticker range_period interval
        = get_cache_key ticker' range_period interval)
    /\ get_cache_key "aapl" "1d" "1d" = get_cache_key "AAPL" "1d" "1d"
    /\ get_cache_key "aapl" "1d" "1d" = "yf:AAPL:1d:1d".
Proof.
  intros ticker ticker' range_period interval. unfold get_cache_key.
  split; [reflexivity|]. split; [now rewrite upper_idem|].
  split; [intros ->; reflexivity|]. split; reflexivity.
Qed.

Lemma C6_get_cache_key_witness :
  get_cache_key "Brk.b" "1mo" "1d" = get_cache_key "bRK.B" "1mo" "1d".
Proof.
  destruct (C6_get_cache_key "Brk.b" "bRK.B" "1mo" "1d") as (_ & _ & Hcase & _).
  apply Hcase. reflexivity.
Defined.

(* ----------------------------------------------------------------- *)
(** ** The cache manager on the table *)

Ltac run_cache :=
  unfold get_cached_data, set_cached_data, delete_cache,
    invalidate_ticker_cache, cleanup_expired_cache,
    try_except, bind, storage_call, datetime_now, ret, raise, advance;
  cbn [w_store w_clock w_reads w_trace fst snd sto_select sto_upsert
       sto_delete_eq sto_delete_like sto_delete_lt mem_table down_table
       readonly_table
       mem_select mem_upsert mem_delete_eq data expires_at].

Section CacheManagerFacts.
Context {P : Type}.
Implicit Types (w : world P (gmap string (Row P))) (row : Row P).

Lemma get_cached_data_miss ticker range_period interval w :
  w_store w !! get_cache_key ticker range_period interval = None ->
  get_cached_data mem_table ticker range_period interval w
  = (inr None,
     advance w (w_store w) 0
       [EvSelect (get_cache_key ticker range_period interval)]).
Proof.
  intros Hk. run_cache. rewrite Hk. now rewrite Nat.add_0_r.
Qed.

Lemma get_cached_data_expired ticker range_period interval w row :
  w_store w !! get_cache_key ticker range_period interval = Some row ->
  expires_at row < w_clock w (w_reads w) ->
  get_cached_data mem_table ticker range_period interval w
  = (inr None,
     advance w
       (delete (get_cache_key ticker range_period interval) (w_store w)) 1
       [EvSelect (get_cache_key ticker range_period interval);
        EvDeleteEq (get_cache_key ticker range_period interval)]).
Proof.
  intros Hk Hexp. run_cache. rewrite Hk. cbn.
  destruct (Z.ltb_spec (expires_at row) (w_clock w (w_reads w))); [|lia].
  cbn. now rewrite Nat.add_1_r, <- app_assoc.
Qed.

Lemma get_cached_data_hit ticker range_period interval w row :
  w_store w !! get_cache_key ticker range_period interval = Some row ->
  w_clock w (w_reads w) <= expires_at row ->
  get_cached_data mem_table ticker range_period interval w
  = (inr (Some (data row)),
     advance w (w_store w) 1
       [EvSelect (get_cache_key ticker range_period interval)]).
Proof.
  intros Hk Hlive. run_cache. rewrite Hk. cbn.
  destruct (Z.ltb_spec (expires_at row) (w_clock w (w_reads w))); [lia|].
  cbn. now rewrite Nat.add_1_r.
Qed.

Lemma set_cached_data_mem ticker payload range_period interval w :
  set_cached_data mem_table ticker payload range_period interval w
  = (inr true,
     advance w
       (<[get_cache_key ticker range_period interval :=
            mkRow payload (w_clock w (w_reads w)
                           + get_cache_duration ticker * MICROSECONDS)]>
          (w_store w)) 1
       [EvUpsert (get_cache_key ticker range_period interval)
          (mkRow payload (w_clock w (w_reads w)
                          + get_cache_duration ticker * MICROSECONDS))]).
Proof. run_cache. now rewrite Nat.add_1_r. Qed.
End CacheManagerFacts.

(** C1: on the table, [get_cached_data] looks up the derived key.
    With no row under the key it returns [None]; with a row whose
    [expires_at] is before the clock reading it deletes that row and
    returns [None], so the key is then free; otherwise it returns the
    row's payload as stored and leaves the table as it was, having
    issued the one select and nothing else. *)
Theorem C1_get_cached_data :
  forall (P : Type) (ticker range_period interval : string)
         (w : world P (gmap string (Row P))),
    (w_store w !! get_cache_key ticker range_period interval = None ->
     get_cached_data mem_table ticker range_period interval w
     = (inr None,
        advance w (w_store w) 0
          [EvSelect (get_cache_key ticker range_period interval)]))
    /\ (forall row : Row P,
          w_store w !! get_cache_key ticker range_period interval = Some row ->
          expires_at row < w_clock w (w_reads w) ->
          get_cached_data mem_table ticker range_period interval w
          = (inr None,
             advance w
               (delete (get_cache_key ticker range_period interval)
                  (w_store w)) 1
               [EvSelect (get_cache_key ticker range_period interval);
                EvDeleteEq (get_cache_key ticker range_period interval)])
          /\ w_store
               (snd (get_cached_data mem_table ticker range_period interval w))
             !! get_cache_key ticker range_period interval = None)
    /\ (forall row : Row P,
          w_store w !! get_cache_key ticker range_period interval = Some row ->
          w_clock w (w_reads w) <= expires_at row ->
          get_cached_data mem_table ticker range_period interval w
          = (inr (Some (data row)),
             advance w (w_store w) 1
               [EvSelect (get_cache_key ticker range_period interval)])).
Proof.
  intros P ticker range_period interval w. split; [|split].
  - apply get_cached_data_miss.
  - intros row Hk Hexp.
    rewrite (get_cached_data_expired _ _ _ _ _ Hk Hexp).
    split; [reflexivity|]. cbn. apply lookup_delete_eq.
  - intros row Hk Hlive. now apply get_cached_data_hit.
Qed.

(** C3: on the table, [set_cached_data] succeeds, and a
    [get_cached_data] for the same symbol, range and interval that
    reads the clock no later than the expiry just computed returns the
    payload that was stored. *)
Theorem C3_set_then_get :
  forall (P : Type) (ticker : string) (payload : P)
         (range_period interval : string)
         (w : world P (gmap string (Row P))),
    w_clock w (Datatypes.S (w_reads w))
    <= w_clock w (w_reads w) + get_cache_duration ticker * MICROSECONDS ->
    exists w1 w2,
      set_cached_data mem_table ticker payload range_period interval w
      = (inr true, w1)
      /\ get_cached_data mem_table ticker range_period interval w1
         = (inr (Some payload), w2)
      /\ w_store w2 = w_store w1.
Proof.
  intros P ticker payload range_period interval w Hlive.
  rewrite set_cached_data_mem.
  set (key := get_cache_key ticker range_period interval).
  set (row := mkRow payload
                (w_clock w (w_reads w)
                 + get_cache_duration ticker * MICROSECONDS)).
  set (w1 := advance w (<[key := row]> (w_store w)) 1 [EvUpsert key row]).
  exists w1, (advance w1 (w_store w1) 1 [EvSelect key]).
  split; [reflexivity|]. split; [|reflexivity].
  apply (get_cached_data_hit ticker range_period interval w1 row).
  - apply lookup_insert_eq.
  - cbn. rewrite Nat.add_1_r. exact Hlive.
Qed.

Lemma C1_get_cached_data_witness :
  fst (get_cached_data mem_table "msft" "1d" "1d" (sample_world 50)) = inr None
  /\ (fst (get_cached_data mem_table "aapl" "1d" "1d" (sample_world 101))
      = inr None
      /\ w_store (snd (get_cached_data mem_table "aapl" "1d" "1d"
                         (sample_world 101))) !! "yf:AAPL:1d:1d" = None)
  /\ get_cached_data mem_table "aapl" "1d" "1d" (sample_world 100)
     = (inr (Some "quote"),
        advance (sample_world 100) (w_store (sample_world 100)) 1
          [EvSelect "yf:AAPL:1d:1d"]).
Proof.
  split; [|split].
  - destruct (C1_get_cached_data string "msft" "1d" "1d" (sample_world 50))
      as (Hmiss & _).
    rewrite Hmiss; [reflexivity|]. vm_compute. reflexivity.
  - destruct (C1_get_cached_data string "aapl" "1d" "1d" (sample_world 101))
      as (_ & Hexpired & _).
    destruct (Hexpired (mkRow "quote" 100)) as (Hget & Hgone).
    + vm_compute. reflexivity.
    + cbn. lia.
    + split; [rewrite Hget; reflexivity | exact Hgone].
  - destruct (C1_get_cached_data string "aapl" "1d" "1d" (sample_world 100))
      as (_ & _ & Hhit).
    apply (Hhit (mkRow "quote" 100)).
    + vm_compute. reflexivity.
    + cbn. lia.
Defined.

Lemma C3_set_then_get_witness :
  exists w1 w2,
    set_cached_data mem_table "aapl" "quote" "1d" "1d" (empty_world 7)
    = (inr true, w1)
    /\ get_cached_data mem_table "aapl" "1d" "1d" w1 = (inr (Some "quote"), w2)
    /\ w_store w2 = w_store w1.
Proof.
  apply (C3_set_then_get string "aapl" "quote" "1d" "1d" (empty_world 7)).
  vm_compute. discriminate.
Defined.

(** C2: whatever the client does, no operation of the cache manager
    raises, and when the client's call raises the operation returns its
    sentinel: [None] for [get_cached_data] (also when the deletion of an
    expired row raises), [False] for [set_cached_data] and
    [delete_cache], 0 for [invalidate_ticker_cache] and
    [cleanup_expired_cache]. *)
Theorem C2_faults_absorbed :
  forall (P S : Type) (supabase : Storage P S) (w : world P S)
         (ticker range_period interval cache_key : string) (payload : P),
    ((exists v w', get_cached_data supabase ticker range_period interval w
                   = (inr v, w'))
     /\ (exists v w', set_cached_data supabase ticker payload range_period
                        interval w = (inr v, w'))
     /\ (exists v w', delete_cache supabase cache_key w = (inr v, w'))
     /\ (exists v w', invalidate_ticker_cache supabase ticker w = (inr v, w'))
     /\ (exists v w', cleanup_expired_cache supabase w = (inr v, w')))
    /\ (faults (sto_select supabase
                  (get_cache_key ticker range_period interval)) (w_store w) ->
        fst (get_cached_data supabase ticker range_period interval w)
        = inr None)
    /\ (forall (row : Row P) (s1 : S),
          sto_select supabase (get_cache_key ticker range_period interval)
            (w_store w) = (inr (Some row), s1) ->
          expires_at row < w_clock w (w_reads w) ->
          faults (sto_delete_eq supabase
                    (get_cache_key ticker range_period interval)) s1 ->
          fst (get_cached_data supabase ticker range_period interval w)
          = inr None)
    /\ (faults (sto_upsert supabase
                  (get_cache_key ticker range_period interval)
                  (mkRow payload
                     (w_clock w (w_reads w)
                      + get_cache_duration ticker * MICROSECONDS)))
          (w_store w) ->
        fst (set_cached_data supabase ticker payload range_period interval w)
        = inr false)
    /\ (faults (sto_delete_eq supabase cache_key) (w_store w) ->
        fst (delete_cache supabase cache_key w) = inr false)
    /\ (faults (sto_delete_like supabase ("yf:" +:+ upper ticker +:+ ":%"))
          (w_store w) ->
        fst (invalidate_ticker_cache supabase ticker w) = inr 0)
    /\ (faults (sto_delete_lt supabase (w_clock w (w_reads w))) (w_store w) ->
        fst (cleanup_expired_cache supabase w) = inr 0).
Proof.
  intros P S supabase w ticker range_period interval cache_key payload.
  repeat split.
  - run_cache.
    destruct (sto_select supabase _ (w_store w)) as [[e|[row|]] s1]; cbn;
      [eauto | | eauto].
    destruct (expires_at row <? w_clock w (w_reads w)); cbn; [|eauto].
    destruct (sto_delete_eq supabase _ s1) as [[e|[]] s2]; cbn; eauto.
  - run_cache.
    destruct (sto_upsert supabase _ _ (w_store w)) as [[e|[]] s1]; cbn; eauto.
  - run_cache.
    destruct (sto_delete_eq supabase _ (w_store w)) as [[e|[]] s1]; cbn; eauto.
  - run_cache.
    destruct (sto_delete_like supabase _ (w_store w)) as [[e|rows] s1]; cbn;
      eauto.
  - run_cache.
    destruct (sto_delete_lt supabase _ (w_store w)) as [[e|rows] s1]; cbn;
      eauto.
  - intros (e & s1 & Hf). run_cache. rewrite Hf. reflexivity.
  - intros row s1 Hsel Hexp (e & s2 & Hf). run_cache. rewrite Hsel. cbn.
    destruct (Z.ltb_spec (expires_at row) (w_clock w (w_reads w))); [|lia].
    cbn. rewrite Hf. reflexivity.
  - intros (e & s1 & Hf). run_cache. rewrite Hf. reflexivity.
  - intros (e & s1 & Hf). run_cache. rewrite Hf. reflexivity.
  - intros (e & s1 & Hf). run_cache. rewrite Hf. reflexivity.
  - intros (e & s1 & Hf). run_cache. rewrite Hf. reflexivity.
Qed.

Lemma C2_faults_absorbed_witness :
  fst (get_cached_data (down_table (StorageError "unreachable"))
         "aapl" "1d" "1d" down_world) = inr None
  /\ fst (get_cached_data (readonly_table (StorageError "read-only"))
            "aapl" "1d" "1d" (sample_world 101)) = inr None
  /\ fst (set_cached_data (readonly_table (StorageError "read-only"))
            "aapl" "quote" "1d" "1d" (sample_world 50)) = inr false
  /\ fst (delete_cache (readonly_table (StorageError "read-only"))
            "yf:AAPL:1d:1d" (sample_world 50)) = inr false
  /\ fst (invalidate_ticker_cache (readonly_table (StorageError "read-only"))
            "aapl" (sample_world 50)) = inr 0
  /\ fst (cleanup_expired_cache (readonly_table (StorageError "read-only"))
            (sample_world 101)) = inr 0.
Proof.
  assert (Hdown : forall (A : Type) (s : unit),
             faults (fun s' : unit =>
                       (@inl exn A (StorageError "unreachable"), s')) s)
    by (intros A s; eexists; eexists; reflexivity).
  assert (Hro : forall (A : Type) (s : gmap string (Row string)),
             faults (fun s' : gmap string (Row string) =>
                       (@inl exn A (StorageError "read-only"), s')) s)
    by (intros A s; eexists; eexists; reflexivity).
  split; [|split; [|split; [|split; [|split]]]].
  - destruct (C2_faults_absorbed string unit
                (down_table (StorageError "unreachable")) down_world
                "aapl" "1d" "1d" "yf:AAPL:1d:1d" "quote")
      as (_ & Hget & _).
    apply Hget. apply Hdown.
  - destruct (C2_faults_absorbed string _
                (readonly_table (StorageError "read-only")) (sample_world 101)
                "aapl" "1d" "1d" "yf:AAPL:1d:1d" "quote")
      as (_ & _ & Hlazy & _).
    apply (Hlazy (mkRow "quote" 100) (w_store (sample_world 101))).
    + vm_compute. reflexivity.
    + cbn. lia.
    + apply Hro.
  - destruct (C2_faults_absorbed string _
                (readonly_table (StorageError "read-only")) (sample_world 50)
                "aapl" "1d" "1d" "yf:AAPL:1d:1d" "quote")
      as (_ & _ & _ & Hset & _).
    apply Hset. apply Hro.
  - destruct (C2_faults_absorbed string _
                (readonly_table (StorageError "read-only")) (sample_world 50)
                "aapl" "1d" "1d" "yf:AAPL:1d:1d" "quote")
      as (_ & _ & _ & _ & Hdel & _).
    apply Hdel. apply Hro.
  - destruct (C2_faults_absorbed string _
                (readonly_table (StorageError "read-only")) (sample_world 50)
                "aapl" "1d" "1d" "yf:AAPL:1d:1d" "quote")
      as (_ & _ & _ & _ & _ & Hinv & _).
    apply Hinv. apply Hro.
  - destruct (C2_faults_absorbed string _
                (readonly_table (StorageError "read-only")) (sample_world 101)
                "aapl" "1d" "1d" "yf:AAPL:1d:1d" "quote")
      as (_ & _ & _ & _ & _ & _ & Hclean).
    apply Hclean. apply Hro.
Defined.

(* ----------------------------------------------------------------- *)
(** ** The normaliser *)

Section NormalizerFacts.
Context {F : Type} {RT : PyRuntime F} {P S : Type}.
Implicit Types (v c p : pyval F) (w : world P S) (tk : ticker_obj F).

Lemma gt0_truthy p : py_gt0 p = inr true -> truthy p = true.
Proof.
  destruct p as [ |[]|n|x| | | ]; cbn; try discriminate; try reflexivity.
  - intros [= H]. apply Z.ltb_lt in H.
    apply negb_true_iff, Z.eqb_neq. lia.
  - intros [= H]. now rewrite (f_gt0_nonzero _ H).
Qed.

Lemma float_div_no_zero_division x y :
  f_is_zero y = false -> float_div x y <> inl ZeroDivisionError.
Proof. unfold float_div. intros ->. discriminate. Qed.

Lemma to_float_positive n y :
  0 < n -> to_float n = inr y -> f_is_zero y = false.
Proof.
  unfold to_float. intros Hn.
  destruct (f_of_int n) as [x|] eqn:Hx; [|discriminate].
  intros [= <-]. apply (f_of_int_nonzero n x); [lia | exact Hx].
Qed.

Lemma to_float_error n e : to_float n = inl e -> e = OverflowError.
Proof. unfold to_float. destruct (f_of_int n); congruence. Qed.

Lemma py_mul_no_zero_division a b : py_mul a b <> inl ZeroDivisionError.
Proof.
  unfold py_mul, ebind, to_float.
  destruct (as_num a) as [[m|x]|], (as_num b) as [[n|y]|];
    repeat match goal with
           | |- context [f_of_int ?k] => destruct (f_of_int k)
           end;
    try discriminate; destruct a, b; discriminate.
Qed.

Lemma percent_change_no_zero_division c p :
  py_gt0 p = inr true -> percent_change c p <> inl ZeroDivisionError.
Proof.
  intros Hpos. unfold percent_change, ebind.
  destruct (py_sub c p) as [e|d] eqn:Hsub.
  - unfold py_sub, ebind, to_float in Hsub.
    destruct (as_num c) as [[m|x]|], (as_num p) as [[n|y]|];
      repeat match type of Hsub with
             | context [f_of_int ?k] => destruct (f_of_int k)
             end; congruence.
  - destruct (py_truediv d p) as [e|q] eqn:Hdiv.
    + intros [= ->]. revert Hdiv.
      unfold py_gt0 in Hpos. unfold py_truediv, ebind.
      destruct (as_num p) as [[n|y]|]; [| |discriminate].
      * injection Hpos as Hn. apply Z.ltb_lt in Hn.
        destruct (as_num d) as [[m|x]|]; [| |discriminate].
        -- destruct (Z.eqb_spec n 0); [lia|].
           destruct (f_int_div m n); discriminate.
        -- destruct (to_float n) as [e|y] eqn:Hy; [apply to_float_error in Hy; subst e; discriminate|].
           apply float_div_no_zero_division.
           now apply (to_float_positive n).
      * injection Hpos as Hy. apply f_gt0_nonzero in Hy.
        destruct (as_num d) as [[m|x]|]; [| |discriminate].
        -- destruct (to_float m) as [e|x] eqn:Hx; [apply to_float_error in Hx; subst e; discriminate|].
           now apply float_div_no_zero_division.
        -- now apply float_div_no_zero_division.
    + apply py_mul_no_zero_division.
Qed.


Lemma bind_lift_inr {W A B} (a : A) (k : A -> M W B) (w : W) :
  bind (lift (inr a)) k w = k a w.
Proof. reflexivity. Qed.

Lemma bind_lift_inl {W A B} (e : exn) (k : A -> M W B) (w : W) :
  bind (lift (inl e)) k w = (inl e, w).
Proof. reflexivity. Qed.

Lemma provider_result_error {A} (r : string + A) e :
  provider_result r = inl e -> e <> ZeroDivisionError.
Proof. destruct r; cbn; congruence. Qed.

Lemma history_of_error tk ih range e :
  history_of tk ih range = inl e -> e <> ZeroDivisionError.
Proof.
  unfold history_of, ebind. destruct ih; [|discriminate].
  destruct (t_history tk range); cbn; congruence.
Qed.

Lemma change_percent_of_positive c p :
  py_gt0 p = inr true -> change_percent_of c p = percent_change c p.
Proof.
  intros Hpos. unfold change_percent_of.
  now rewrite (gt0_truthy _ Hpos), Hpos.
Qed.

Lemma change_percent_of_otherwise c p :
  py_gt0 p <> inr true ->
  change_percent_of c p = inr (PInt 0)
  \/ change_percent_of c p = inl TypeError.
Proof.
  intros Hnot. unfold change_percent_of, ebind.
  destruct (truthy p); [|now left].
  destruct (py_gt0 p) as [e|[]] eqn:Hgt; [|congruence|now left].
  right. unfold py_gt0 in Hgt.
  destruct (as_num p) as [[n|y]|]; congruence.
Qed.

Lemma change_percent_of_error c p e :
  change_percent_of c p = inl e -> e <> ZeroDivisionError.
Proof.
  intros He ->.
  destruct (py_gt0 p) as [e|[]] eqn:Hgt.
  - destruct (change_percent_of_otherwise c p) as [H|H]; congruence.
  - rewrite change_percent_of_positive in He by assumption.
    now apply (percent_change_no_zero_division c p).
  - destruct (change_percent_of_otherwise c p) as [H|H]; congruence.
Qed.

Lemma py_round2_error v e : py_round2 v = inl e -> e = TypeError.
Proof. unfold py_round2. destruct (as_num v) as [[n|x]|]; congruence. Qed.

Lemma round2_or_zero_error v e : round2_or_zero v = inl e -> e = TypeError.
Proof.
  unfold round2_or_zero. destruct (truthy v); [apply py_round2_error|].
  discriminate.
Qed.

Lemma py_int_error v e : py_int v = inl e -> e <> ZeroDivisionError.
Proof.
  destruct v; cbn; try congruence.
  - destruct (f_to_int x); [discriminate|].
    destruct (f_is_nan x); congruence.
  - destruct (str_to_int s); congruence.
Qed.

Ltac step_lift H :=
  match goal with
  | |- context [bind (lift ?r) ?k ?w] =>
      destruct r eqn:H;
      [rewrite bind_lift_inl | rewrite bind_lift_inr; cbn beta]
  end.

Lemma normalize_body_outcome tk ih range w :
  (exists e, normalize_body tk ih range w = (inl e, w)
             /\ e <> ZeroDivisionError)
  \/ (exists d info v change,
        normalize_body tk ih range w
        = (inr d, advance w (w_store w) 1 [])
        /\ t_info tk = inr info
        /\ change_percent_of (current_price_of info) (previous_close_of info)
           = inr v
        /\ py_round2 v = inr change
        /\ dict_get "change_percent" d = Some change
        /\ dict_has "error" d = false).
Proof.
  unfold normalize_body.
  step_lift Hinfo; [left; eauto using provider_result_error|].
  step_lift Hhist; [left; eauto using history_of_error|].
  step_lift Hchg; [left; eauto using change_percent_of_error|].
  step_lift Hprice;
    [left; eexists; split; [reflexivity|];
     apply round2_or_zero_error in Hprice; congruence|].
  step_lift Hround;
    [left; eexists; split; [reflexivity|];
     apply py_round2_error in Hround; congruence|].
  step_lift Hopen;
    [left; eexists; split; [reflexivity|];
     apply round2_or_zero_error in Hopen; congruence|].
  step_lift Hclose;
    [left; eexists; split; [reflexivity|];
     apply round2_or_zero_error in Hclose; congruence|].
  step_lift Hhigh;
    [left; eexists; split; [reflexivity|];
     apply round2_or_zero_error in Hhigh; congruence|].
  step_lift Hlow;
    [left; eexists; split; [reflexivity|];
     apply round2_or_zero_error in Hlow; congruence|].
  step_lift Hvol.
  { left. eexists. split; [reflexivity|]. unfold int_or_zero in Hvol.
    destruct (truthy _); [now apply py_int_error in Hvol | discriminate]. }
  right.
  destruct (t_info tk) as [msg|info] eqn:Hti; [discriminate|].
  injection Hinfo as <-.
  unfold bind, datetime_now, ret, advance.
  rewrite Nat.add_1_r, app_nil_r.
  destruct o as [[|row rows]|]; eexists; exists info; eexists; eexists;
    (split; [reflexivity|]); repeat split; eauto.
Qed.

Lemma normalize_ticker_data_outcome tk ih range w :
  exists d,
    normalize_ticker_data tk ih range w
    = (inr d, advance w (w_store w) 1 [])
    /\ ((exists e,
           normalize_body tk ih range w = (inl e, w)
           /\ e <> ZeroDivisionError
           /\ d = [ ("ticker", PStr (match t_ticker tk with
                                     | Some name => name
                                     | None => "UNKNOWN"
                                     end));
                    ("error", PStr (str_of_exn e));
                    ("price", PInt 0);
                    ("change_percent", PInt 0);
                    ("timestamp", PStr (isoformat (w_clock w (w_reads w)))) ])
        \/ (exists info v change,
              normalize_body tk ih range w
              = (inr d, advance w (w_store w) 1 [])
              /\ t_info tk = inr info
              /\ change_percent_of (current_price_of info)
                   (previous_close_of info) = inr v
              /\ py_round2 v = inr change
              /\ dict_get "change_percent" d = Some change
              /\ dict_has "error" d = false)).
Proof.
  unfold normalize_ticker_data, try_except.
  destruct (normalize_body_outcome tk ih range w)
    as [(e & Hbody & He) | (d & info & v & change & Hbody & Hrest)];
    rewrite Hbody.
  - unfold _error_response, bind, datetime_now, ret, advance.
    rewrite Nat.add_1_r, app_nil_r.
    eexists. split; [reflexivity|]. left. exists e. auto.
  - exists d. split; [reflexivity|]. right. exists info, v, change. auto.
Qed.



End NormalizerFacts.



(* ----------------------------------------------------------------- *)
(** ** The request handlers *)

Section QuoteFacts.
Context {F : Type} {RT : PyRuntime F}.
Implicit Types (tk : ticker_obj F).

Ltac step_both :=
  match goal with
  | |- context [bind (lift ?r) ?k ?w] =>
      destruct r;
      [rewrite !bind_lift_inl | rewrite !bind_lift_inr; cbn beta]
  end.

Lemma normalize_ticker_data_clock {P1 S1 P2 S2 : Type}
    tk ih range (w1 : world P1 S1) (w2 : world P2 S2) :
  w_clock w1 (w_reads w1) = w_clock w2 (w_reads w2) ->
  fst (normalize_ticker_data tk ih range w1)
  = fst (normalize_ticker_data tk ih range w2).
Proof.
  intros Hclock.
  unfold normalize_ticker_data, try_except, normalize_body.
  assert (Herr : forall name msg,
             fst (@_error_response F RT P1 S1 name msg w1)
             = fst (@_error_response F RT P2 S2 name msg w2)).
  { intros name msg. unfold _error_response, bind, datetime_now, ret. cbn.
    now rewrite Hclock. }
  do 10 (step_both; [apply Herr|]).
  unfold bind, datetime_now, ret. rewrite Hclock.
  destruct o as [[|row rows]|]; reflexivity.
Qed.

Lemma normalize_ticker_data_run {P S : Type} tk ih range (w : world P S) :
  normalize_ticker_data tk ih range w
  = (inr (quote_at tk ih range (w_clock w (w_reads w))),
     advance w (w_store w) 1 []).
Proof.
  destruct (normalize_ticker_data_outcome tk ih range w) as (d & Hrun & _).
  rewrite Hrun. f_equal. f_equal. unfold quote_at.
  rewrite (normalize_ticker_data_clock tk ih range _ w) by reflexivity.
  now rewrite Hrun.
Qed.

Lemma error_flag_any_clock tk ih range now :
  dict_has "error" (quote_at tk ih range now)
  = fails_to_normalize tk ih range.
Proof.
  unfold fails_to_normalize, quote_at, normalize_ticker_data, try_except,
    normalize_body.
  assert (Herr : forall name msg (w1 w2 : world unit unit),
             dict_has "error"
               match fst (@_error_response F RT _ _ name msg w1) with
               | inr quote => quote
               | inl _ => []
               end
             = dict_has "error"
                 match fst (@_error_response F RT _ _ name msg w2) with
                 | inr quote => quote
                 | inl _ => []
                 end) by reflexivity.
  do 10 (step_both; [apply Herr|]).
  unfold bind, datetime_now, ret.
  destruct o as [[|row rows]|]; reflexivity.
Qed.

Lemma fails_when_info_raises tk ih range msg :
  t_info tk = inl msg -> fails_to_normalize tk ih range = true.
Proof.
  intros Hinfo.
  unfold fails_to_normalize, quote_at, normalize_ticker_data, try_except,
    normalize_body.
  rewrite Hinfo. reflexivity.
Qed.

Lemma fails_when_history_raises tk range info msg :
  t_info tk = inr info -> t_history tk range = inl msg ->
  fails_to_normalize tk true range = true.
Proof.
  intros Hinfo Hhist.
  unfold fails_to_normalize, quote_at, normalize_ticker_data, try_except,
    normalize_body, history_of.
  rewrite Hinfo, Hhist. reflexivity.
Qed.

Lemma normalizes_when_body_returns {P S : Type} tk ih range
    (w w' : world P S) d :
  normalize_body tk ih range w = (inr d, w') ->
  fails_to_normalize tk ih range = false.
Proof.
  intros Hbody.
  rewrite <- (error_flag_any_clock tk ih range (w_clock w (w_reads w))).
  pose proof (normalize_ticker_data_run tk ih range w) as Hrun.
  destruct (normalize_ticker_data_outcome tk ih range w)
    as (d' & Hrun' & [(e & He & _) | (info & v & c & Hb & _ & _ & _ & _ & Hok)]);
    [congruence|].
  rewrite Hrun in Hrun'. injection Hrun' as ->. exact Hok.
Qed.

Lemma dict_get_set_other k k' v (d : pydict F) :
  k <> k' -> dict_get k (dict_set k' v d) = dict_get k d.
Proof.
  intros Hne. induction d as [|[k0 v0] d IH]; cbn.
  - destruct (String.eqb_spec k k'); [congruence|reflexivity].
  - destruct (String.eqb_spec k' k0) as [->|Hk0]; cbn.
    + destruct (String.eqb_spec k k0); [congruence|reflexivity].
    + destruct (String.eqb_spec k k0); [reflexivity|exact IH].
Qed.

Lemma dict_has_set_other k k' v (d : pydict F) :
  k <> k' -> dict_has k (dict_set k' v d) = dict_has k d.
Proof. intros Hne. unfold dict_has. now rewrite dict_get_set_other. Qed.
End QuoteFacts.

Section CacheTotal.
Context {P S : Type} (supabase : Storage P S).
Implicit Types (w : world P S).

Lemma get_cached_data_returns ticker range interval w :
  exists v w', get_cached_data supabase ticker range interval w = (inr v, w').
Proof.
  run_cache.
  destruct (sto_select supabase _ (w_store w)) as [[e|[row|]] s1]; cbn;
    [eauto | | eauto].
  destruct (expires_at row <? w_clock w (w_reads w)); cbn; [|eauto].
  destruct (sto_delete_eq supabase _ s1) as [[e|[]] s2]; cbn; eauto.
Qed.

Lemma set_cached_data_returns ticker payload range interval w :
  exists v w',
    set_cached_data supabase ticker payload range interval w = (inr v, w').
Proof.
  run_cache.
  destruct (sto_upsert supabase _ _ (w_store w)) as [[e|[]] s1]; cbn; eauto.
Qed.
End CacheTotal.

Section BatchFacts.
Context {F : Type} {RT : PyRuntime F} {S : Type}.
Context (supabase : Storage (pydict F) S).
Context (yf_Ticker : string -> string + ticker_obj F).
Implicit Types (w : world (pydict F) S).

Import get_multiple_stocks.

Lemma fetch_one_run range interval ih ticker w :
  exists w',
    fetch_one supabase yf_Ticker range interval ih ticker w
    = (inr (entry_of yf_Ticker range ih ticker (w_clock w (w_reads w))), w').
Proof.
  unfold fetch_one, entry_of, try_except, call_Ticker.
  unfold bind at 1.
  destruct (yf_Ticker ticker) as [msg|tk]; cbn [provider_result].
  - unfold ret. eauto.
  - unfold bind at 1. rewrite normalize_ticker_data_run.
    cbn [w_clock w_reads]. unfold bind.
    match goal with
    | |- context [set_cached_data ?s ?t ?d ?r ?i ?w0] =>
        destruct (set_cached_data_returns s t d r i w0) as (b & w' & ->)
    end.
    unfold ret. eauto.
Qed.

Lemma fetch_all_run range interval ih to_fetch : forall results w,
  exists entries w',
    fetch_all supabase yf_Ticker range interval ih to_fetch results w
    = (inr (results ++ entries)%list, w')
    /\ Forall2 (fun ticker entry =>
                  exists now, entry = entry_of yf_Ticker range ih ticker now)
         to_fetch entries.
Proof.
  induction to_fetch as [|ticker rest IH]; intros results w;
    cbn [fetch_all].
  - exists [], w. rewrite app_nil_r. split; [reflexivity|constructor].
  - unfold bind.
    destruct (fetch_one_run range interval ih ticker w) as (w1 & ->).
    destruct (IH (results ++ [entry_of yf_Ticker range ih ticker
                                (w_clock w (w_reads w))]) w1)
      as (entries & w' & -> & Hall).
    eexists (_ :: entries), w'. rewrite <- app_assoc. split; [reflexivity|].
    constructor; eauto.
Qed.

End BatchFacts.

Section BatchCacheFacts.
Context {F : Type} {S : Type}.
Context (supabase : Storage (pydict F) S).
Implicit Types (w : world (pydict F) S).

Import get_multiple_stocks.

Lemma check_cache_run range interval ticker_list : forall results to_fetch w,
  exists hits misses w',
    check_cache supabase range interval ticker_list results to_fetch w
    = (inr ((results ++ hits)%list, (to_fetch ++ misses)%list), w')
    /\ (length hits + length misses = length ticker_list)%nat
    /\ (forall t, In t misses -> In t ticker_list).
Proof.
  induction ticker_list as [|ticker rest IH]; intros results to_fetch w;
    cbn [check_cache].
  - exists [], [], w. rewrite !app_nil_r. repeat split; tauto.
  - unfold bind.
    destruct (get_cached_data_returns supabase ticker range interval w)
      as (v & w1 & ->).
    destruct v as [[|item items]|]; cbv beta iota.
    + destruct (IH results (to_fetch ++ [ticker]) w1)
        as (hits & misses & w' & -> & Hlen & Hin).
      exists hits, (ticker :: misses), w'. rewrite <- app_assoc.
      split; [reflexivity|]. split; [cbn; lia|].
      intros t [->|Ht]; [now left | right; auto].
    + destruct (IH (results ++ [PDict (dict_set "cached" (PBool true)
                                        (item :: items))]) to_fetch w1)
        as (hits & misses & w' & -> & Hlen & Hin).
      eexists (_ :: hits), misses, w'. rewrite <- app_assoc.
      split; [reflexivity|]. split; [cbn; lia|].
      intros t Ht. right. auto.
    + destruct (IH results (to_fetch ++ [ticker]) w1)
        as (hits & misses & w' & -> & Hlen & Hin).
      exists hits, (ticker :: misses), w'. rewrite <- app_assoc.
      split; [reflexivity|]. split; [cbn; lia|].
      intros t [->|Ht]; [now left | right; auto].
Qed.
End BatchCacheFacts.

Lemma string_length_app (s t : string) :
  String.length (s +:+ t) = (String.length s + String.length t)%nat.
Proof. induction s as [|c s IH]; simpl; [reflexivity|]. now f_equal. Qed.

Lemma string_app_inv_tail (s1 s2 t : string) :
  s1 +:+ t = s2 +:+ t -> s1 = s2.
Proof.
  revert s2. induction s1 as [|c s1 IH]; intros [|d s2] H; simpl in H.
  - reflexivity.
  - apply (f_equal String.length) in H. simpl in H.
    rewrite !string_length_app in H. simpl in H. lia.
  - apply (f_equal String.length) in H. simpl in H.
    rewrite !string_length_app in H. simpl in H. lia.
  - injection H as -> H. f_equal. now apply IH.
Qed.

Lemma get_cache_key_inj t t' range interval :
  get_cache_key t range interval = get_cache_key t' range interval ->
  upper t = upper t'.
Proof.
  unfold get_cache_key. intros H.
  apply (inj (String.append "yf:")) in H.
  now apply string_app_inv_tail in H.
Qed.

Section BatchValidation.
Import get_multiple_stocks.

Lemma first_invalid_some l :
  Exists (fun t => validate_ticker_symbol t = false) l ->
  exists t, first_invalid l = Some t.
Proof.
  induction 1 as [t l Ht | t l _ IH]; cbn.
  - rewrite Ht. cbn. eauto.
  - destruct (validate_ticker_symbol t); cbn; eauto.
Qed.

Lemma first_invalid_none l :
  Forall (fun t => validate_ticker_symbol t = true) l ->
  first_invalid l = None.
Proof.
  induction 1 as [|t l Ht _ IH]; cbn; [reflexivity|].
  now rewrite Ht.
Qed.

Lemma validate_request_rejects_invalid request l :
  ticker_list_of (rq_tickers request) = Some l ->
  Exists (fun t => validate_ticker_symbol t = false) l ->
  exists msg, validate_request request = (false, msg).
Proof.
  intros Hl Hbad. unfold validate_request.
  destruct (tickers_truthy (rq_tickers request)); cbn [negb]; [|eauto].
  rewrite Hl. destruct (50 <? length l)%nat; [eauto|].
  destruct (first_invalid_some l Hbad) as (t & ->). eauto.
Qed.

Lemma long_list_truthy tickers l :
  ticker_list_of tickers = Some l -> (50 < length l)%nat ->
  tickers_truthy tickers = true.
Proof.
  destruct tickers as [|s|l'|keys|]; cbn; try discriminate.
  - intros [= <-]. destruct s; cbn; [lia|reflexivity].
  - intros [= <-]. destruct l'; cbn; [lia|reflexivity].
Qed.

Lemma valid_list_truthy tickers l :
  ticker_list_of tickers = Some l -> (1 <= length l)%nat ->
  Forall (fun t => validate_ticker_symbol t = true) l ->
  tickers_truthy tickers = true.
Proof.
  destruct tickers as [|s|l'|keys|]; cbn; try discriminate.
  - intros [= <-]. destruct s; cbn; [|reflexivity].
    intros _ Hall. inversion Hall; discriminate.
  - intros [= <-]. destruct l'; cbn; [lia|reflexivity].
Qed.
Lemma upper_ticker_list_upper tickers t :
  In t (upper_ticker_list tickers) -> upper t = t.
Proof.
  destruct tickers as [|s|l|keys|]; cbn; try tauto;
    intros Ht; apply in_map_iff in Ht as (x & <- & _); apply upper_idem.
Qed.

End BatchValidation.

Section BatchHandler.
Context {F : Type} {RT : PyRuntime F} {S : Type}.
Context (supabase : Storage (pydict F) S).
Context (yf_Ticker : string -> string + ticker_obj F).
Implicit Types (w : world (pydict F) S).

Import get_multiple_stocks.

Lemma handler_rejects request msg w :
  validate_request request = (false, msg) ->
  handler supabase yf_Ticker request w
  = (inr (mkResponse 400 (error_body msg) json_headers), w).
Proof. intros Hv. unfold handler, try_except. rewrite Hv. reflexivity. Qed.

Lemma handler_unfold request msg w checked w1 out w2 :
  validate_request request = (true, msg) ->
  check_cache supabase (get_or (rq_range request) "1d")
    (get_or (rq_interval request) "1d")
    (upper_ticker_list (rq_tickers request)) [] [] w = (inr checked, w1) ->
  fetch_all supabase yf_Ticker (get_or (rq_range request) "1d")
    (get_or (rq_interval request) "1d") (rq_include_history request)
    (snd checked) (fst checked) w1 = (inr out, w2) ->
  handler supabase yf_Ticker request w
  = (inr (mkResponse 200 (batch_body out (snd checked)) json_headers), w2).
Proof.
  intros Hv Hcheck Hfetch. unfold handler, try_except. rewrite Hv.
  cbn [negb]. unfold bind. rewrite Hcheck, Hfetch. reflexivity.
Qed.

Lemma handler_accepts request msg w :
  validate_request request = (true, msg) ->
  exists hits misses fetched w',
    handler supabase yf_Ticker request w
    = (inr (mkResponse 200 (batch_body (hits ++ fetched) misses)
              json_headers), w')
    /\ Forall2 (fun ticker entry =>
                  exists now,
                    entry = entry_of yf_Ticker
                              (get_or (rq_range request) "1d")
                              (rq_include_history request) ticker now)
         misses fetched
    /\ (length hits + length misses
        = length (upper_ticker_list (rq_tickers request)))%nat.
Proof.
  intros Hv.
  destruct (check_cache_run supabase (get_or (rq_range request) "1d")
              (get_or (rq_interval request) "1d")
              (upper_ticker_list (rq_tickers request)) [] [] w)
    as (hits & misses & w1 & Hcheck & Hlen & _).
  destruct (fetch_all_run supabase yf_Ticker (get_or (rq_range request) "1d")
              (get_or (rq_interval request) "1d")
              (rq_include_history request) misses hits w1)
    as (fetched & w' & Hfetch & Hall).
  exists hits, misses, fetched, w'.
  split; [|split; [exact Hall | exact Hlen]].
  now apply (handler_unfold request msg w _ w1 _ w' Hv Hcheck).
Qed.
End BatchHandler.

Section BatchMem.
Context {F : Type} {RT : PyRuntime F}.
Context (yf_Ticker : string -> string + ticker_obj F).
Implicit Types (w : world (pydict F) (gmap string (Row (pydict F)))).

Import get_multiple_stocks.

Lemma fetch_one_mem range interval ih ticker w :
  fetch_one mem_table yf_Ticker range interval ih ticker w
  = match yf_Ticker ticker with
    | inl msg =>
        (inr (failed_entry ticker (ProviderError msg)),
         advance w (w_store w) 0 [EvTicker ticker])
    | inr tk =>
        let quote :=
          dict_set "cached" (PBool false)
            (quote_at tk ih range (w_clock w (w_reads w))) in
        let row :=
          mkRow quote (w_clock w (Datatypes.S (w_reads w))
                       + get_cache_duration ticker * MICROSECONDS) in
        (inr (PDict quote),
         advance w (<[get_cache_key ticker range interval := row]>
                      (w_store w)) 2
           [EvTicker ticker; EvUpsert (get_cache_key ticker range interval) row])
    end.
Proof.
  unfold fetch_one, try_except, call_Ticker.
  unfold bind at 1.
  destruct (yf_Ticker ticker) as [msg|tk]; cbn [provider_result].
  - unfold ret, advance. now rewrite Nat.add_0_r.
  - unfold bind at 1. rewrite normalize_ticker_data_run.
    unfold bind. rewrite set_cached_data_mem.
    unfold ret, advance. cbn [w_store w_clock w_reads w_trace].
    rewrite app_nil_r, <- app_assoc, <- !Nat.add_assoc, Nat.add_1_r.
    reflexivity.
Qed.

Lemma fetch_one_mem_step range interval ih ticker w :
  exists entry w1,
    fetch_one mem_table yf_Ticker range interval ih ticker w
    = (inr entry, w1)
    /\ holds_quote yf_Ticker range interval ih (w_store w1) ticker
    /\ (forall k, get_cache_key ticker range interval <> k ->
          w_store w1 !! k = w_store w !! k).
Proof.
  rewrite fetch_one_mem. unfold holds_quote.
  destruct (yf_Ticker ticker) as [msg|tk] eqn:Hyf.
  - eexists. eexists. split; [reflexivity|]. split; [|reflexivity].
    intros tk' Hyf'. congruence.
  - eexists. eexists. split; [reflexivity|]. cbn. split.
    + intros tk' Hyf'. assert (tk' = tk) as -> by congruence.
      eexists. eexists. apply lookup_insert_eq.
    + intros k Hk. now apply lookup_insert_ne.
Qed.

Lemma fetch_all_mem range interval ih to_fetch :
  Forall (fun t => upper t = t) to_fetch ->
  forall results w,
  exists out w',
    fetch_all mem_table yf_Ticker range interval ih to_fetch results w
    = (inr out, w')
    /\ (forall t, In t to_fetch ->
          holds_quote yf_Ticker range interval ih (w_store w') t)
    /\ (forall k,
          (forall t, In t to_fetch -> get_cache_key t range interval <> k) ->
          w_store w' !! k = w_store w !! k).
Proof.
  induction 1 as [|ticker rest Hup Hups IH]; intros results w;
    cbn [fetch_all].
  - exists results, w. split; [reflexivity|]. split; [intros t []|]. reflexivity.
  - unfold bind.
    destruct (fetch_one_mem_step range interval ih ticker w)
      as (entry & w1 & -> & Hhold & Hkeep).
    destruct (IH (results ++ [entry]) w1) as (out & w' & -> & Hall & Hrest).
    exists out, w'. split; [reflexivity|]. split.
    + intros t [<-|Ht]; [|now apply Hall].
      destruct (in_dec string_dec ticker rest) as [Hin|Hnot];
        [now apply Hall|].
      intros tk Hyf. destruct (Hhold tk Hyf) as (now & expires & Hrow).
      exists now, expires. rewrite Hrest; [exact Hrow|].
      intros t Ht Hkey. apply get_cache_key_inj in Hkey.
      rewrite List.Forall_forall in Hups. rewrite (Hups t Ht), Hup in Hkey.
      congruence.
    + intros k Hk. rewrite Hrest by (intros t Ht; apply Hk; now right).
      apply Hkeep. apply Hk. now left.
Qed.
End BatchMem.

Section MemReads.
Context {P : Type}.
Implicit Types (w : world P (gmap string (Row P))).

Lemma get_cached_data_mem_store ticker range interval w c w1 :
  get_cached_data mem_table ticker range interval w = (inr c, w1) ->
  (w_store w1 = w_store w
   \/ (exists row,
         w_store w !! get_cache_key ticker range interval = Some row
         /\ expires_at row < w_clock w (w_reads w)
         /\ w_store w1
            = delete (get_cache_key ticker range interval) (w_store w)))
  /\ (forall k row, In (EvUpsert k row) (w_trace w1) ->
                    In (EvUpsert k row) (w_trace w)).
Proof.
  destruct (w_store w !! get_cache_key ticker range interval)
    as [row|] eqn:Hk.
  - destruct (Z_lt_le_dec (expires_at row) (w_clock w (w_reads w)))
      as [Hexp|Hlive].
    + rewrite (get_cached_data_expired _ _ _ _ _ Hk Hexp).
      intros [= <- <-]. cbn. split; [right; eauto|].
      intros k r Hin. apply in_app_or in Hin as [Hin|Hin]; [exact Hin|].
      cbn in Hin. intuition discriminate.
    + rewrite (get_cached_data_hit _ _ _ _ _ Hk Hlive).
      intros [= <- <-]. cbn. split; [now left|].
      intros k r Hin. apply in_app_or in Hin as [Hin|Hin]; [exact Hin|].
      cbn in Hin. intuition discriminate.
  - rewrite (get_cached_data_miss _ _ _ _ Hk).
    intros [= <- <-]. cbn. split; [now left|].
    intros k r Hin. apply in_app_or in Hin as [Hin|Hin]; [exact Hin|].
    cbn in Hin. intuition discriminate.
Qed.
End MemReads.

Section BatchMemCache.
Context {F : Type}.
Implicit Types (w : world (pydict F) (gmap string (Row (pydict F)))).

Import get_multiple_stocks.

Lemma check_cache_mem range interval ticker_list :
  forall results to_fetch w,
  exists hits misses w',
    check_cache mem_table range interval ticker_list results to_fetch w
    = (inr (results ++ hits, to_fetch ++ misses), w')
    /\ (forall t, In t misses -> In t ticker_list)
    /\ (forall t, In t ticker_list ->
          w_store w !! get_cache_key t range interval = None ->
          In t misses).
Proof.
  induction ticker_list as [|ticker rest IH]; intros results to_fetch w;
    cbn [check_cache].
  - exists [], [], w. rewrite !app_nil_r. repeat split; tauto.
  - unfold bind.
    destruct (get_cached_data_returns mem_table ticker range interval w)
      as (v & w1 & Hget).
    rewrite Hget.
    destruct (get_cached_data_mem_store _ _ _ _ _ _ Hget) as (Hstore & _).
    assert (Hkeep : forall t,
               w_store w !! get_cache_key t range interval = None ->
               w_store w1 !! get_cache_key t range interval = None).
    { intros t Ht. destruct Hstore as [-> | (_ & _ & _ & ->)]; [exact Ht|].
      rewrite lookup_delete. destruct (decide _); [reflexivity|exact Ht]. }
    destruct v as [[|item items]|]; cbv beta iota.
    + destruct (IH results (to_fetch ++ [ticker]) w1)
        as (hits & misses & w' & -> & Hsub & Hmiss).
      exists hits, (ticker :: misses), w'. rewrite <- app_assoc.
      split; [reflexivity|]. split.
      * intros t [->|Ht]; [now left | right; auto].
      * intros t [->|Ht] Hnone; [now left | right; auto].
    + destruct (IH (results ++ [PDict (dict_set "cached" (PBool true)
                                        (item :: items))]) to_fetch w1)
        as (hits & misses & w' & -> & Hsub & Hmiss).
      eexists (_ :: hits), misses, w'. rewrite <- app_assoc.
      split; [reflexivity|]. split.
      * intros t Ht. right. auto.
      * intros t [->|Ht] Hnone; [|auto].
        rewrite (get_cached_data_miss _ _ _ _ Hnone) in Hget.
        discriminate.
    + destruct (IH results (to_fetch ++ [ticker]) w1)
        as (hits & misses & w' & -> & Hsub & Hmiss).
      exists hits, (ticker :: misses), w'. rewrite <- app_assoc.
      split; [reflexivity|]. split.
      * intros t [->|Ht]; [now left | right; auto].
      * intros t [->|Ht] Hnone; [now left | right; auto].
Qed.
End BatchMemCache.

Section BatchMemHandler.
Context {F : Type} {RT : PyRuntime F}.
Context (yf_Ticker : string -> string + ticker_obj F).
Implicit Types (w : world (pydict F) (gmap string (Row (pydict F)))).

Import get_multiple_stocks.

Lemma handler_mem_accepts request msg w :
  validate_request request = (true, msg) ->
  exists out misses w',
    handler mem_table yf_Ticker request w
    = (inr (mkResponse 200 (batch_body out misses) json_headers), w')
    /\ (forall t, In t (upper_ticker_list (rq_tickers request)) ->
          w_store w !! get_cache_key t (get_or (rq_range request) "1d")
                         (get_or (rq_interval request) "1d") = None ->
          In t misses)
    /\ (forall t, In t misses ->
          holds_quote yf_Ticker (get_or (rq_range request) "1d")
            (get_or (rq_interval request) "1d")
            (rq_include_history request) (w_store w') t).
Proof.
  intros Hv.
  destruct (check_cache_mem (get_or (rq_range request) "1d")
              (get_or (rq_interval request) "1d")
              (upper_ticker_list (rq_tickers request)) [] [] w)
    as (hits & misses & w1 & Hcheck & Hsub & Hmiss).
  destruct (fetch_all_mem yf_Ticker (get_or (rq_range request) "1d")
              (get_or (rq_interval request) "1d")
              (rq_include_history request) misses) with
    (results := hits) (w := w1) as (out & w' & Hfetch & Hall & _).
  { apply List.Forall_forall. intros t Ht.
    apply (upper_ticker_list_upper (rq_tickers request)). now apply Hsub. }
  exists out, misses, w'. split; [|split; [exact Hmiss | exact Hall]].
  now apply (handler_unfold mem_table yf_Ticker request msg w _ w1 _ w'
               Hv Hcheck).
Qed.
End BatchMemHandler.

Section IndicesFacts.
Context {F : Type} {RT : PyRuntime F} {S : Type}.
Context (supabase : Storage (pydict F) S).
Context (yf_Ticker : string -> string + ticker_obj F).
Implicit Types (w : world (pydict F) S).

Import get_indices.

Lemma indices_fetch_one_run range interval ih ticker w :
  exists w',
    fetch_one supabase yf_Ticker range interval ih ticker w
    = (inr (entry_of yf_Ticker range ih ticker (w_clock w (w_reads w))), w').
Proof using Type.
  unfold fetch_one, entry_of, try_except, call_Ticker.
  unfold bind at 1.
  destruct (yf_Ticker ticker) as [msg|tk]; cbn [provider_result].
  - unfold ret. eauto.
  - unfold bind at 1. rewrite normalize_ticker_data_run.
    cbn [w_clock w_reads]. unfold bind.
    match goal with
    | |- context [set_cached_data ?s ?t ?d ?r ?i ?w0] =>
        destruct (set_cached_data_returns s t d r i w0) as (b & w' & ->)
    end.
    unfold ret. eauto.
Qed.

Lemma indices_fetch_all_run range interval ih to_fetch : forall results w,
  exists entries w',
    fetch_all supabase yf_Ticker range interval ih to_fetch results w
    = (inr (results ++ entries), w')
    /\ Forall2 (fun ticker entry =>
                  exists now, entry = entry_of yf_Ticker range ih ticker now)
         to_fetch entries.
Proof using Type.
  induction to_fetch as [|ticker rest IH]; intros results w;
    cbn [fetch_all].
  - exists [], w. rewrite app_nil_r. split; [reflexivity|constructor].
  - unfold bind.
    destruct (indices_fetch_one_run range interval ih ticker w) as (w1 & ->).
    destruct (IH (results ++ [entry_of yf_Ticker range ih ticker
                                (w_clock w (w_reads w))]) w1)
      as (entries & w' & -> & Hall).
    eexists (_ :: entries), w'. rewrite <- app_assoc. split; [reflexivity|].
    constructor; eauto.
Qed.

Lemma indices_check_cache_run range interval ticker_list :
  forall results to_fetch w,
  exists hits misses w',
    check_cache supabase range interval ticker_list results to_fetch w
    = (inr (results ++ hits, to_fetch ++ misses), w')
    /\ (length hits + length misses = length ticker_list)%nat.
Proof using Type.
  induction ticker_list as [|ticker rest IH]; intros results to_fetch w;
    cbn [check_cache].
  - exists [], [], w. rewrite !app_nil_r. split; reflexivity.
  - unfold bind.
    destruct (get_cached_data_returns supabase ticker range interval w)
      as (v & w1 & ->).
    destruct v as [[|item items]|]; cbv beta iota.
    + destruct (IH results (to_fetch ++ [ticker]) w1)
        as (hits & misses & w' & -> & Hlen).
      exists hits, (ticker :: misses), w'. rewrite <- app_assoc.
      split; [reflexivity|]. cbn; lia.
    + destruct (IH (results
                    ++ [PDict (dict_set "asset_type" (PStr "index")
                                 (dict_set "cached" (PBool true)
                                    (item :: items)))]) to_fetch w1)
        as (hits & misses & w' & -> & Hlen).
      eexists (_ :: hits), misses, w'. rewrite <- app_assoc.
      split; [reflexivity|]. cbn; lia.
    + destruct (IH results (to_fetch ++ [ticker]) w1)
        as (hits & misses & w' & -> & Hlen).
      exists hits, (ticker :: misses), w'. rewrite <- app_assoc.
      split; [reflexivity|]. cbn; lia.
Qed.

Lemma indices_handler_accepts method posted ticker_list w :
  validate_request (if String.eqb method "POST" then posted else empty_body)
  = inr (inr ticker_list) ->
  exists hits misses fetched w',
    handler supabase yf_Ticker method posted w
    = (inr (mkResponse 200
              (get_multiple_stocks.batch_body (hits ++ fetched) misses)
              json_headers), w')
    /\ Forall2
         (fun ticker entry =>
            exists now,
              entry = entry_of yf_Ticker
                        (get_or (rq_range (if String.eqb method "POST"
                                           then posted else empty_body))
                           "1d")
                        (rq_include_history (if String.eqb method "POST"
                                             then posted else empty_body))
                        ticker now)
         misses fetched
    /\ (length hits + length misses = length ticker_list)%nat.
Proof using Type.
  intros Hv. unfold handler, try_except.
  set (body := if String.eqb method "POST" then posted else empty_body) in *.
  rewrite Hv. rewrite bind_lift_inr. cbv beta iota.
  destruct (indices_check_cache_run (get_or (rq_range body) "1d")
              (get_or (rq_interval body) "1d") ticker_list [] [] w)
    as (hits & misses & w1 & Hcheck & Hlen).
  destruct (indices_fetch_all_run (get_or (rq_range body) "1d")
              (get_or (rq_interval body) "1d")
              (rq_include_history body) misses hits w1)
    as (fetched & w' & Hfetch & Hall).
  exists hits, misses, fetched, w'.
  split; [|split; [exact Hall | exact Hlen]].
  unfold bind. rewrite Hcheck. cbn [fst snd app]. rewrite Hfetch.
  reflexivity.
Qed.
End IndicesFacts.

Section StockFacts.
Context {F : Type} {RT : PyRuntime F} {S : Type}.
Context (supabase : Storage (pydict F) S).
Context (yf_Ticker : string -> string + ticker_obj F).
Implicit Types (w : world (pydict F) S).

Import get_stock.

Lemma stock_handler_not_found request msg w c w1 tk :
  validate_request request = (true, msg) ->
  get_cached_data supabase (upper (get_or (rq_ticker request) ""))
    (get_or (rq_range request) "1mo") (get_or (rq_interval request) "1d") w
  = (inr c, w1) ->
  c = None \/ c = Some [] ->
  yf_Ticker (upper (get_or (rq_ticker request) "")) = inr tk ->
  fails_to_normalize tk (rq_include_history request)
    (get_or (rq_range request) "1mo") = true ->
  handler supabase yf_Ticker request w
  = (inr (mkResponse 404
            (PDict (quote_at tk (rq_include_history request)
                      (get_or (rq_range request) "1mo")
                      (w_clock w1 (w_reads w1))))
            json_headers),
     advance w1 (w_store w1) 1
       [EvTicker (upper (get_or (rq_ticker request) ""))]).
Proof using Type.
  intros Hv Hget Hmiss Hyf Hfail.
  unfold handler, try_except. rewrite Hv. cbn [negb].
  unfold bind at 1. rewrite Hget.
  assert (Hfetch :
    forall k : ticker_obj F -> M (world (pydict F) S) (response F),
              (let! ticker_obj :=
                 call_Ticker yf_Ticker (upper (get_or (rq_ticker request) ""))
               in k ticker_obj) w1
              = k tk (mkWorld (w_store w1) (w_clock w1) (w_reads w1)
                        (w_trace w1
                         ++ [EvTicker (upper (get_or (rq_ticker request) ""))]))).
  { intros k. unfold bind, call_Ticker. now rewrite Hyf. }
  destruct Hmiss as [-> | ->]; cbv beta iota; rewrite Hfetch;
    unfold bind; rewrite normalize_ticker_data_run;
    cbn [w_clock w_reads w_store w_trace];
    rewrite error_flag_any_clock, Hfail;
    unfold ret, advance; cbn [w_clock w_reads w_store w_trace];
    now rewrite app_nil_r.
Qed.
End StockFacts.


Section EntryFacts.
Context {F : Type} {RT : PyRuntime F}.
Context (yf_Ticker : string -> string + ticker_obj F).

Lemma batch_entry_error range ih ticker now :
  has_error (get_multiple_stocks.entry_of yf_Ticker range ih ticker now)
  = provider_failed yf_Ticker ih range ticker.
Proof using Type.
  unfold get_multiple_stocks.entry_of, provider_failed.
  destruct (yf_Ticker ticker) as [msg|tk]; [reflexivity|].
  cbn [has_error]. rewrite dict_has_set_other by discriminate.
  apply error_flag_any_clock.
Qed.

Lemma indices_entry_error range ih ticker now :
  has_error (get_indices.entry_of yf_Ticker range ih ticker now)
  = provider_failed yf_Ticker ih range ticker.
Proof using Type.
  unfold get_indices.entry_of, provider_failed.
  destruct (yf_Ticker ticker) as [msg|tk]; [reflexivity|].
  cbn [has_error]. rewrite !dict_has_set_other by discriminate.
  apply error_flag_any_clock.
Qed.
End EntryFacts.

(** C9: a batch request whose ticker list has more than 50 entries is
    answered with status 400 and the message "Maximum 50 tickers per
    request", the world left as it was; a list of 1 to 50 valid
    tickers passes [validate_request], and no list of at most 50
    entries is refused with that message. *)
Theorem C9_max_50_tickers :
  forall (F : Type) (RT : PyRuntime F) (S : Type)
         (supabase : Storage (pydict F) S)
         (yf_Ticker : string -> string + ticker_obj F)
         (request : request_body) (w : world (pydict F) S)
         (ticker_list : list string),
    get_multiple_stocks.ticker_list_of (rq_tickers request) = Some ticker_list ->
    ((50 < length ticker_list)%nat ->
     get_multiple_stocks.handler supabase yf_Ticker request w
     = (inr (mkResponse 400 (error_body "Maximum 50 tickers per request")
               json_headers), w))
    /\ ((1 <= length ticker_list <= 50)%nat ->
        Forall (fun t => validate_ticker_symbol t = true) ticker_list ->
        get_multiple_stocks.validate_request request = (true, ""))
    /\ ((length ticker_list <= 50)%nat ->
        snd (get_multiple_stocks.validate_request request)
        <> "Maximum 50 tickers per request").
Proof.
  intros F RT S supabase yf_Ticker request w ticker_list Hl.
  split; [|split].
  - intros Hlong. apply handler_rejects.
    unfold get_multiple_stocks.validate_request.
    rewrite (long_list_truthy _ _ Hl Hlong), Hl. cbn [negb].
    destruct (Nat.ltb_spec 50 (length ticker_list)); [reflexivity|lia].
  - intros Hlen Hall.
    unfold get_multiple_stocks.validate_request.
    rewrite (valid_list_truthy _ _ Hl (proj1 Hlen) Hall), Hl. cbn [negb].
    destruct (Nat.ltb_spec 50 (length ticker_list)); [lia|].
    now rewrite first_invalid_none.
  - intros Hlen.
    unfold get_multiple_stocks.validate_request.
    destruct (tickers_truthy (rq_tickers request)); cbn [negb];
      [|cbn; discriminate].
    rewrite Hl.
    destruct (Nat.ltb_spec 50 (length ticker_list)); [lia|].
    destruct (get_multiple_stocks.first_invalid ticker_list);
      cbn; discriminate.
Qed.

Lemma C9_max_50_tickers_witness :
  get_multiple_stocks.handler mem_table sample_provider
    (batch_of (repeat "AAPL" 51)) quiet_world
  = (inr (mkResponse 400 (error_body "Maximum 50 tickers per request")
            json_headers), quiet_world)
  /\ get_multiple_stocks.validate_request (batch_of (repeat "AAPL" 50))
     = (true, "")
  /\ snd (get_multiple_stocks.validate_request (batch_of ["AAPL"; "???"]))
     <> "Maximum 50 tickers per request".
Proof.
  split; [|split].
  - destruct (C9_max_50_tickers Q q_runtime _ mem_table sample_provider
                (batch_of (repeat "AAPL" 51)) quiet_world
                (repeat "AAPL" 51) eq_refl) as (Hlong & _).
    apply Hlong. cbn. lia.
  - destruct (C9_max_50_tickers Q q_runtime _ mem_table sample_provider
                (batch_of (repeat "AAPL" 50)) quiet_world
                (repeat "AAPL" 50) eq_refl) as (_ & Hpass & _).
    apply Hpass; [cbn; lia|].
    apply List.Forall_forall. intros t Ht. apply repeat_spec in Ht.
    now subst t.
  - destruct (C9_max_50_tickers Q q_runtime _ mem_table sample_provider
                (batch_of ["AAPL"; "???"]) quiet_world
                ["AAPL"; "???"] eq_refl) as (_ & _ & Hother).
    apply Hother. cbn. lia.
Defined.

(** C10: on the table, the batch endpoint fetches every requested
    ticker that has no row under its key, and for every fetched ticker
    for which [yf.Ticker] returned an object the table afterwards holds
    the normalised quote under that ticker's key, the error variant
    included.  The single-stock endpoint, when the cache read gives
    nothing and the normalised quote is the error variant, answers 404
    with that quote and issues no upsert: the table is as the cache
    read left it, no row is new, the only row that can be gone is the
    expired row of this key, and what a reader finds under every key
    is what it found before the request. *)
Theorem C10_error_results_cached_by_batch_only :
  forall (F : Type) (RT : PyRuntime F)
         (yf_Ticker : string -> string + ticker_obj F)
         (request : request_body)
         (w : world (pydict F) (gmap string (Row (pydict F)))),
    (get_multiple_stocks.validate_request request = (true, "") ->
     exists results misses w',
       get_multiple_stocks.handler mem_table yf_Ticker request w
       = (inr (mkResponse 200
                 (get_multiple_stocks.batch_body results misses)
                 json_headers), w')
       /\ (forall ticker,
             In ticker (get_multiple_stocks.upper_ticker_list
                          (rq_tickers request)) ->
             w_store w !! get_cache_key ticker
                            (get_or (rq_range request) "1d")
                            (get_or (rq_interval request) "1d") = None ->
             In ticker misses)
       /\ (forall ticker obj,
             In ticker misses -> yf_Ticker ticker = inr obj ->
             exists now expires,
               w_store w' !! get_cache_key ticker
                               (get_or (rq_range request) "1d")
                               (get_or (rq_interval request) "1d")
               = Some (mkRow
                         (dict_set "cached" (PBool false)
                            (quote_at obj (rq_include_history request)
                               (get_or (rq_range request) "1d") now))
                         expires)
               /\ dict_has "error"
                    (dict_set "cached" (PBool false)
                       (quote_at obj (rq_include_history request)
                          (get_or (rq_range request) "1d") now))
                  = fails_to_normalize obj (rq_include_history request)
                      (get_or (rq_range request) "1d")))
    /\ (get_stock.validate_request request = (true, "") ->
        forall cached w1 obj,
          get_cached_data mem_table (upper (get_or (rq_ticker request) ""))
            (get_or (rq_range request) "1mo")
            (get_or (rq_interval request) "1d") w = (inr cached, w1) ->
          cached = None \/ cached = Some [] ->
          yf_Ticker (upper (get_or (rq_ticker request) "")) = inr obj ->
          fails_to_normalize obj (rq_include_history request)
            (get_or (rq_range request) "1mo") = true ->
          exists w',
            get_stock.handler mem_table yf_Ticker request w
            = (inr (mkResponse 404
                      (PDict (quote_at obj (rq_include_history request)
                                (get_or (rq_range request) "1mo")
                                (w_clock w1 (w_reads w1))))
                      json_headers), w')
            /\ w_store w' = w_store w1
            /\ (forall k row, w_store w' !! k = Some row ->
                              w_store w !! k = Some row)
            /\ (forall k row,
                  w_store w !! k = Some row -> w_store w' !! k = None ->
                  k = get_cache_key (upper (get_or (rq_ticker request) ""))
                        (get_or (rq_range request) "1mo")
                        (get_or (rq_interval request) "1d")
                  /\ expires_at row < w_clock w (w_reads w))
            /\ (forall k,
                  live_at (w_clock w (w_reads w)) (w_store w') k
                  = live_at (w_clock w (w_reads w)) (w_store w) k)
            /\ (forall k row, In (EvUpsert k row) (w_trace w') ->
                              In (EvUpsert k row) (w_trace w))).
Proof.
  intros F RT yf_Ticker request w. split.
  - intros Hv.
    destruct (handler_mem_accepts yf_Ticker request "" w Hv)
      as (results & misses & w' & Hrun & Hmiss & Hall).
    exists results, misses, w'. split; [exact Hrun|].
    split; [exact Hmiss|].
    intros ticker obj Hin Hyf.
    destruct (Hall ticker Hin obj Hyf) as (now & expires & Hrow).
    exists now, expires. split; [exact Hrow|].
    rewrite dict_has_set_other by discriminate.
    apply error_flag_any_clock.
  - intros Hv cached w1 obj Hget Hmiss Hyf Hfail.
    eexists. split.
    + exact (stock_handler_not_found mem_table yf_Ticker request "" w cached
               w1 obj Hv Hget Hmiss Hyf Hfail).
    + destruct (get_cached_data_mem_store _ _ _ _ _ _ Hget) as (Hstore & Hups).
      cbn [advance w_store w_trace]. split; [reflexivity|].
      split; [|split; [|split]].
      * intros k row Hrow.
        destruct Hstore as [<- | (_ & _ & _ & Hdel)]; [exact Hrow|].
        rewrite Hdel in Hrow. now apply lookup_delete_Some in Hrow.
      * intros k row Hrow Hgone.
        destruct Hstore as [Hsame | (row' & Hkey & Hexp & Hdel)];
          [rewrite Hsame in Hgone; congruence|].
        rewrite Hdel in Hgone. apply lookup_delete_None in Hgone.
        destruct Hgone as [<- | Hnone]; [|congruence].
        split; [reflexivity|]. congruence.
      * intros k. unfold live_at.
        destruct Hstore as [-> | (row' & Hkey & Hexp & ->)]; [reflexivity|].
        rewrite lookup_delete.
        destruct (decide _) as [<- | Hne]; [|reflexivity].
        rewrite Hkey.
        destruct (Z.ltb_spec (expires_at row') (w_clock w (w_reads w)));
          [reflexivity|lia].
      * intros k row Hin. apply Hups.
        apply in_app_or in Hin as [Hin|Hin]; [exact Hin|].
        cbn in Hin. intuition discriminate.
Qed.

Lemma C10_error_results_cached_by_batch_only_witness :
  (exists results misses w',
      get_multiple_stocks.handler mem_table sample_provider
        (batch_of ["gone"]) quiet_world
      = (inr (mkResponse 200
                (get_multiple_stocks.batch_body results misses)
                json_headers), w')
      /\ (exists now expires,
            w_store w' !! "yf:GONE:1d:1d"
            = Some (mkRow (dict_set "cached" (PBool false)
                             (quote_at delisted_ticker false "1d" now))
                      expires)
            /\ dict_has "error"
                 (dict_set "cached" (PBool false)
                    (quote_at delisted_ticker false "1d" now)) = true))
  /\ (exists w',
         get_stock.handler mem_table sample_provider (stock_of "gone")
           quiet_world
         = (inr (mkResponse 404
                   (PDict (quote_at delisted_ticker false "1mo"
                             1700000000000000))
                   json_headers), w')
         /\ w_store w' = w_store quiet_world).
Proof.
  split.
  - destruct (C10_error_results_cached_by_batch_only Q q_runtime
                sample_provider (batch_of ["gone"]) quiet_world)
      as (Hbatch & _).
    destruct (Hbatch eq_refl)
      as (results & misses & w' & Hrun & Hfetched & Hrows).
    exists results, misses, w'. split; [exact Hrun|].
    assert (Hin : In "GONE" misses)
      by (apply Hfetched; [now left | reflexivity]).
    destruct (Hrows "GONE" delisted_ticker Hin eq_refl)
      as (now & expires & Hrow & Herr).
    exists now, expires. split; [exact Hrow|].
    etransitivity; [exact Herr | reflexivity].
  - destruct (C10_error_results_cached_by_batch_only Q q_runtime
                sample_provider (stock_of "gone") quiet_world)
      as (_ & Hstock).
    destruct (Hstock eq_refl None
                (advance quiet_world (w_store quiet_world) 0
                   [EvSelect "yf:GONE:1mo:1d"]) delisted_ticker)
      as (w' & Hrun & Hsame & _).
    + vm_compute. reflexivity.
    + now left.
    + reflexivity.
    + reflexivity.
    + exists w'. split; [exact Hrun|]. rewrite Hsame. reflexivity.
Defined.

(* ----------------------------------------------------------------- *)
(** ** The cache manager on a table held in memory *)

Lemma string_app_assoc (a b c : string) : (a +:+ b) +:+ c = a +:+ (b +:+ c).
Proof.
  induction a as [|x a IH]; [reflexivity|].
  change (String x ((a +:+ b) +:+ c) = String x (a +:+ (b +:+ c))).
  now rewrite IH.
Qed.

Lemma all_chars_app p (a b : string) :
  all_chars p (a +:+ b) = all_chars p a && all_chars p b.
Proof.
  induction a as [|x a IH]; [reflexivity|].
  change (String x a +:+ b) with (String x (a +:+ b)).
  cbn [all_chars]. now rewrite IH, andb_assoc.
Qed.

Lemma like_match_any s : like_match "%" s = true.
Proof.
  induction s as [|c s IH]; [reflexivity|].
  simpl in *. exact IH.
Qed.

Lemma like_match_prefix prefix : forall s,
  all_chars like_plain_char prefix = true ->
  like_match (prefix +:+ "%") s = starts_with prefix s.
Proof.
  induction prefix as [|c prefix IH]; intros s Hplain.
  - apply like_match_any.
  - simpl in Hplain. apply andb_true_iff in Hplain as (Hc & Hplain).
    unfold like_plain_char in Hc.
    apply negb_true_iff, orb_false_iff in Hc as (Hc & Hc3).
    apply orb_false_iff in Hc as (Hc1 & Hc2).
    change (String c prefix +:+ "%") with (String c (prefix +:+ "%")).
    cbn [like_match]. rewrite Hc1, Hc2.
    assert (Hrest : exists e rest, prefix +:+ "%" = String e rest)
      by (destruct prefix; simpl; eauto).
    destruct Hrest as (e & rest & Hrest).
    rewrite Hrest, Hc3, <- Hrest.
    destruct s as [|d s]; [reflexivity|].
    cbn [starts_with]. now rewrite IH.
Qed.

Section MemSweeps.
Context {P : Type}.
Implicit Types (w : world P (gmap string (Row P))) (t : gmap string (Row P)).

Lemma deleted_count_length (rows : list (string * Row P)) :
  deleted_count rows = Z.of_nat (length rows).
Proof. destruct rows; reflexivity. Qed.

Lemma mem_delete_where_run (p : string -> Row P -> bool) t :
  exists rows,
    mem_delete_where p t
    = (inr rows, filter (fun kr => p kr.1 kr.2 = false) t)
    /\ Z.of_nat (length rows)
       = Z.of_nat (size t)
         - Z.of_nat (size (filter (fun kr => p kr.1 kr.2 = false) t)).
Proof.
  eexists. split; [reflexivity|].
  rewrite length_map_to_list.
  assert (Hsplit : size t
                   = (size (filter (fun kr => p kr.1 kr.2 = true) t)
                      + size (filter (fun kr => p kr.1 kr.2 = false) t))%nat).
  { rewrite <- (map_filter_union_complement
                  (fun kr => p kr.1 kr.2 = true) t) at 1.
    rewrite map_size_disj_union by apply map_disjoint_filter_complement.
    f_equal. f_equal. apply map_filter_ext. intros k row _. cbn.
    destruct (p k row); split; congruence. }
  lia.
Qed.

Lemma mem_delete_where_lookup (p : string -> Row P -> bool) t k :
  filter (fun kr => p kr.1 kr.2 = false) t !! k
  = match t !! k with
    | Some row => if p k row then None else Some row
    | None => None
    end.
Proof.
  destruct (t !! k) as [row|] eqn:Hk.
  - destruct (p k row) eqn:Hp.
    + apply map_lookup_filter_None. right. intros row' Hrow'. cbn.
      assert (row' = row) as -> by congruence. congruence.
    + apply map_lookup_filter_Some. split; [exact Hk|exact Hp].
  - apply map_lookup_filter_None. now left.
Qed.
End MemSweeps.

(** X1: [invalidate_ticker_cache] on a table held in memory, for a
    ticker whose upper-cased form has no wildcard character of LIKE:
    every row whose key starts with "yf:", the upper-cased ticker and
    a colon is removed, every other row stays, and the number
    returned is the number of rows removed. *)
Theorem X1_invalidate :
  forall (P : Type) (ticker : string) (w : world P (gmap string (Row P))),
    all_chars like_plain_char (upper ticker) = true ->
    exists w',
      invalidate_ticker_cache mem_table ticker w
      = (inr (Z.of_nat (size (w_store w)) - Z.of_nat (size (w_store w'))), w')
      /\ (forall k,
            starts_with ("yf:" +:+ upper ticker +:+ ":") k = true ->
            w_store w' !! k = None)
      /\ (forall k,
            starts_with ("yf:" +:+ upper ticker +:+ ":") k = false ->
            w_store w' !! k = w_store w !! k).
Proof.
  intros P ticker w Hplain.
  assert (Hlike : forall k,
             like_match ("yf:" +:+ upper ticker +:+ ":%") k
             = starts_with ("yf:" +:+ upper ticker +:+ ":") k).
  { intros k.
    change ("yf:" +:+ upper ticker +:+ ":%")
      with ("yf:" +:+ (upper ticker +:+ (":" +:+ "%"))).
    rewrite <- !string_app_assoc.
    apply like_match_prefix.
    rewrite !all_chars_app, Hplain. reflexivity. }
  unfold invalidate_ticker_cache, try_except, bind, storage_call, ret.
  cbn [sto_delete_like mem_table].
  destruct (mem_delete_where_run
              (fun k _ => like_match ("yf:" +:+ upper ticker +:+ ":%") k)
              (w_store w)) as (rows & -> & Hcount).
  rewrite deleted_count_length, Hcount.
  eexists (mkWorld _ _ _ _). split; [reflexivity|]. cbn [w_store].
  split; intros k Hk;
    pose proof (mem_delete_where_lookup
                  (fun k _ => like_match ("yf:" +:+ upper ticker +:+ ":%") k)
                  (w_store w) k) as Hlook;
    cbn beta in Hlook; rewrite Hlook, Hlike, Hk;
    destruct (w_store w !! k); reflexivity.
Qed.

Lemma X1_invalidate_witness :
  exists w',
    invalidate_ticker_cache mem_table "aapl" (sample_world 50)
    = (inr (Z.of_nat (size (w_store (sample_world 50)))
            - Z.of_nat (size (w_store w'))), w')
    /\ w_store w' !! "yf:AAPL:1d:1d" = None.
Proof.
  destruct (X1_invalidate string "aapl" (sample_world 50) eq_refl)
    as (w' & Hrun & Hgone & _).
  exists w'. split; [exact Hrun|]. apply Hgone. reflexivity.
Defined.

(** X2: [cleanup_expired_cache] on a table held in memory removes
    exactly the rows that expired before the clock reading it took
    and returns how many they were; what a reader sees at that instant
    is the same before and after. *)
Theorem X2_cleanup :
  forall (P : Type) (w : world P (gmap string (Row P))),
    exists w',
      cleanup_expired_cache mem_table w
      = (inr (Z.of_nat (size (w_store w)) - Z.of_nat (size (w_store w'))), w')
      /\ (forall k,
            w_store w' !! k
            = live_at (w_clock w (w_reads w)) (w_store w) k)
      /\ (forall k,
            live_at (w_clock w (w_reads w)) (w_store w') k
            = live_at (w_clock w (w_reads w)) (w_store w) k).
Proof.
  intros P w.
  unfold cleanup_expired_cache, try_except, bind, datetime_now, storage_call,
    ret.
  cbn [sto_delete_lt mem_table w_store w_clock w_reads w_trace].
  destruct (mem_delete_where_run
              (fun (_ : string) (r : Row P) =>
                 expires_at r <? w_clock w (w_reads w))
              (w_store w)) as (rows & -> & Hcount).
  rewrite deleted_count_length, Hcount.
  eexists (mkWorld _ _ _ _). split; [reflexivity|]. cbn [w_store].
  assert (Hlook : forall k,
             filter (fun kr : string * Row P =>
                       (expires_at kr.2 <? w_clock w (w_reads w)) = false)
               (w_store w) !! k
             = live_at (w_clock w (w_reads w)) (w_store w) k).
  { intros k.
    exact (mem_delete_where_lookup
             (fun (_ : string) (r : Row P) =>
                expires_at r <? w_clock w (w_reads w)) (w_store w) k). }
  split; [exact Hlook|].
  intros k. unfold live_at at 1. rewrite Hlook. unfold live_at.
  destruct (w_store w !! k) as [row|]; [|reflexivity].
  destruct (expires_at row <? w_clock w (w_reads w)) eqn:Hexp;
    [reflexivity|]. now rewrite Hexp.
Qed.

(** X3: a payload stored with [set_cached_data] and read back after
    its lifetime is over is not returned; the read removes its row and
    touches no other key. *)
Theorem X3_set_then_expired_get :
  forall (P : Type) (ticker : string) (payload : P)
         (range_period interval : string)
         (w : world P (gmap string (Row P))),
    w_clock w (w_reads w) + get_cache_duration ticker * MICROSECONDS
    < w_clock w (Datatypes.S (w_reads w)) ->
    exists w1 w2,
      set_cached_data mem_table ticker payload range_period interval w
      = (inr true, w1)
      /\ get_cached_data mem_table ticker range_period interval w1
         = (inr None, w2)
      /\ w_store w2 !! get_cache_key ticker range_period interval = None
      /\ (forall k, k <> get_cache_key ticker range_period interval ->
                    w_store w2 !! k = w_store w !! k).
Proof.
  intros P ticker payload range_period interval w Hlate.
  rewrite set_cached_data_mem.
  set (key := get_cache_key ticker range_period interval).
  set (row := mkRow payload
                (w_clock w (w_reads w)
                 + get_cache_duration ticker * MICROSECONDS)).
  set (w1 := advance w (<[key := row]> (w_store w)) 1 [EvUpsert key row]).
  exists w1. eexists. split; [reflexivity|].
  rewrite (get_cached_data_expired ticker range_period interval w1 row).
  - split; [reflexivity|]. cbn [advance w_store w1]. fold key. split.
    + apply lookup_delete_eq.
    + intros k Hk. rewrite lookup_delete_ne by congruence.
      now rewrite lookup_insert_ne by congruence.
  - apply lookup_insert_eq.
  - cbn. rewrite Nat.add_1_r. exact Hlate.
Qed.

Lemma X3_set_then_expired_get_witness :
  exists w1 w2,
    set_cached_data mem_table "aapl" "quote" "1d" "1d"
      (mkWorld ∅ (fun n => Z.of_nat n * 301000000) 0 [])
    = (inr true, w1)
    /\ get_cached_data mem_table "aapl" "1d" "1d" w1 = (inr None, w2)
    /\ w_store w2 !! "yf:AAPL:1d:1d" = None.
Proof.
  destruct (X3_set_then_expired_get string "aapl" "quote" "1d" "1d"
              (mkWorld ∅ (fun n => Z.of_nat n * 301000000) 0 []))
    as (w1 & w2 & Hset & Hget & Hgone & _).
  - vm_compute. reflexivity.
  - exists w1, w2. auto.
Defined.

(** X4: storing twice under the same ticker, range and interval
    keeps one row: the second payload, expiring a lifetime after the
    second clock reading; the table does not grow. *)
Theorem X4_set_twice :
  forall (P : Type) (ticker : string) (first second : P)
         (range_period interval : string)
         (w : world P (gmap string (Row P))),
    exists w1 w2,
      set_cached_data mem_table ticker first range_period interval w
      = (inr true, w1)
      /\ set_cached_data mem_table ticker second range_period interval w1
         = (inr true, w2)
      /\ w_store w2
         = <[get_cache_key ticker range_period interval :=
               mkRow second
                 (w_clock w (Datatypes.S (w_reads w))
                  + get_cache_duration ticker * MICROSECONDS)]> (w_store w)
      /\ size (w_store w2) = size (w_store w1).
Proof.
  intros P ticker first second range_period interval w.
  rewrite set_cached_data_mem.
  eexists. eexists. split; [reflexivity|].
  rewrite set_cached_data_mem. split; [reflexivity|].
  cbn [advance w_store w_clock w_reads]. rewrite Nat.add_1_r.
  split; [apply insert_insert_eq|].
  rewrite insert_insert_eq.
  destruct (w_store w !! get_cache_key ticker range_period interval)
    as [old|] eqn:Hold.
  - rewrite !map_size_insert_Some by eauto. reflexivity.
  - rewrite !map_size_insert_None by assumption. reflexivity.
Qed.

(** X5: after [delete_cache] on the key of a ticker, range and
    interval, [get_cached_data] for them misses, and the table is the
    old one without that key. *)
Theorem X5_delete_then_get :
  forall (P : Type) (ticker range_period interval : string)
         (w : world P (gmap string (Row P))),
    exists w1 w2,
      delete_cache mem_table (get_cache_key ticker range_period interval) w
      = (inr true, w1)
      /\ get_cached_data mem_table ticker range_period interval w1
         = (inr None, w2)
      /\ w_store w2
         = delete (get_cache_key ticker range_period interval) (w_store w).
Proof.
  intros P ticker range_period interval w.
  eexists (mkWorld _ _ _ _). eexists. split; [reflexivity|].
  rewrite get_cached_data_miss by (cbn; apply lookup_delete_eq).
  split; reflexivity.
Qed.

Lemma upper_char_colon c :
  Ascii.eqb (upper_char c) ":" = Ascii.eqb c ":".
Proof. destruct c as [[] [] [] [] [] [] [] []]; reflexivity. Qed.

Lemma char_in_colon_upper s : char_in ":" (upper s) = char_in ":" s.
Proof.
  induction s as [|c s IH]; [reflexivity|].
  cbn [upper char_in]. rewrite IH. f_equal.
  rewrite !(Ascii.eqb_sym ":"). apply upper_char_colon.
Qed.

Lemma split_at_colon (a b c d : string) :
  char_in ":" a = false -> char_in ":" c = false ->
  a +:+ String ":" b = c +:+ String ":" d ->
  a = c /\ b = d.
Proof.
  revert c. induction a as [|x a IH]; intros [|y c] Ha Hc H.
  - injection H as ->. auto.
  - change (String ":" b = String y (c +:+ String ":" d)) in H.
    injection H as <- _. cbn in Hc. discriminate.
  - change (String x (a +:+ String ":" b) = String ":" d) in H.
    injection H as -> _. cbn in Ha. discriminate.
  - change (String x (a +:+ String ":" b) = String y (c +:+ String ":" d))
      in H.
    injection H as -> H.
    cbn [char_in] in Ha, Hc.
    apply orb_false_iff in Ha as (_ & Ha).
    apply orb_false_iff in Hc as (_ & Hc).
    destruct (IH c Ha Hc H) as (-> & ->). auto.
Qed.

(** X6: for tickers and ranges without a colon, [get_cache_key]
    gives equal keys only to equal ranges, equal intervals and tickers
    that agree up to letter case. *)
Theorem X6_cache_key_injective :
  forall ticker ticker' range_period range_period' interval interval' : string,
    char_in ":" ticker = false ->
    char_in ":" ticker' = false ->
    char_in ":" range_period = false ->
    char_in ":" range_period' = false ->
    get_cache_key ticker range_period interval
    = get_cache_key ticker' range_period' interval' ->
    upper ticker = upper ticker'
    /\ range_period = range_period'
    /\ interval = interval'.
Proof.
  intros ticker ticker' range_period range_period' interval interval'
    Ht Ht' Hr Hr' Hkey.
  unfold get_cache_key in Hkey.
  apply (inj (String.append "yf:")) in Hkey.
  apply split_at_colon in Hkey as (Hupper & Hrest);
    [|now rewrite char_in_colon_upper..].
  apply split_at_colon in Hrest as (Hrange & Hinterval); [|assumption..].
  auto.
Qed.

Lemma X6_cache_key_injective_witness :
  upper "aapl" = upper "AAPL" /\ "1d" = "1d" /\ "1h" = "1h".
Proof.
  apply (X6_cache_key_injective "aapl" "AAPL" "1d" "1d" "1h" "1h");
    reflexivity.
Defined.

(* ----------------------------------------------------------------- *)
(** ** Validated symbols and batches *)

Lemma upper_char_allowed c :
  char_in (upper_char (upper_char c)) allowed_chars
  = char_in (upper_char c) allowed_chars.
Proof. now rewrite upper_char_idem. Qed.

Lemma validate_ticker_symbol_upper s :
  validate_ticker_symbol (upper s) = validate_ticker_symbol s.
Proof.
  rewrite !validate_ticker_symbol_unfold.
  assert (Hlen : String.length (upper s) = String.length s)
    by (induction s; simpl; congruence).
  rewrite Hlen. f_equal.
  rewrite all_chars_upper. apply all_chars_ext. intros c _.
  rewrite <- !allowed_after_upper. now rewrite upper_char_idem.
Qed.


Lemma allowed_not_separator c :
  symbol_char_any_case c || Ascii.eqb c "_" = true -> separator_char c = false.
Proof. destruct c as [[] [] [] [] [] [] [] []]; vm_compute; congruence. Qed.

Lemma all_chars_impl (p q : ascii -> bool) s :
  (forall c, p c = true -> q c = true) ->
  all_chars p s = true -> all_chars q s = true.
Proof.
  intros Hpq. induction s as [|c s IH]; [reflexivity|].
  cbn [all_chars]. rewrite !andb_true_iff. intros (Hc & Hs). auto.
Qed.

Lemma all_chars_not_in (c : ascii) (p : ascii -> bool) s :
  p c = false -> all_chars p s = true -> char_in c s = false.
Proof.
  intros Hc. induction s as [|d s IH]; [reflexivity|].
  cbn [all_chars char_in]. rewrite andb_true_iff. intros (Hd & Hs).
  rewrite (IH Hs), orb_false_r.
  destruct (Ascii.eqb_spec c d) as [->|]; [congruence|reflexivity].
Qed.

Lemma separator_space c : is_space c = true -> separator_char c = true.
Proof. unfold separator_char. intros ->. apply orb_true_r. Qed.

Lemma rstrip_no_space s :
  all_chars (fun c => negb (separator_char c)) s = true -> rstrip s = s.
Proof.
  induction s as [|c s IH]; [reflexivity|].
  cbn [all_chars rstrip]. rewrite andb_true_iff. intros (Hc & Hs).
  rewrite (IH Hs).
  destruct s as [|d s]; [|reflexivity].
  destruct (is_space c) eqn:Hsp; [|reflexivity].
  rewrite (separator_space c Hsp) in Hc. discriminate.
Qed.

Lemma strip_no_space s :
  all_chars (fun c => negb (separator_char c)) s = true -> strip s = s.
Proof.
  intros Hs. unfold strip.
  assert (Hl : lstrip s = s).
  { destruct s as [|c s]; [reflexivity|].
    cbn [all_chars] in Hs. apply andb_true_iff in Hs as (Hc & _).
    cbn [lstrip]. destruct (is_space c) eqn:Hsp; [|reflexivity].
    rewrite (separator_space c Hsp) in Hc. discriminate. }
  rewrite Hl. now apply rstrip_no_space.
Qed.

Lemma valid_symbol_clean s :
  validate_ticker_symbol s = true ->
  all_chars (fun c => negb (separator_char c)) s = true.
Proof.
  rewrite validate_ticker_symbol_unfold, !andb_true_iff.
  intros (_ & Hchars). revert Hchars. apply all_chars_impl. intros c Hc.
  now rewrite (allowed_not_separator c Hc).
Qed.

(** X7: on ASCII text [validate_ticker_symbol] does not depend on
    letter case, and a symbol it accepts has 1 to 10 characters, none
    of them a colon, comma, percent sign, backslash or blank, so
    stripping leaves it unchanged.  The underscore is not among the
    characters kept out: there are accepted symbols that hold one. *)
Theorem X7_validated_symbol :
  forall s : string,
    ascii_text s = true ->
    validate_ticker_symbol (upper s) = validate_ticker_symbol s
    /\ (validate_ticker_symbol s = true ->
        (1 <= String.length s <= 10)%nat
        /\ all_chars (fun c => negb (separator_char c)) s = true
        /\ char_in ":" s = false
        /\ char_in "," s = false
        /\ strip s = s)
    /\ (exists s' : string,
          ascii_text s' = true
          /\ validate_ticker_symbol s' = true
          /\ char_in "_" s' = true).
Proof.
  intros s _. split; [apply validate_ticker_symbol_upper|]. split.
  - rewrite validate_ticker_symbol_unfold, !andb_true_iff, !Nat.leb_le.
    intros ((Hlo & Hhi) & Hchars).
    assert (Hsep : all_chars (fun c => negb (separator_char c)) s = true).
    { apply valid_symbol_clean. rewrite validate_ticker_symbol_unfold.
      rewrite !andb_true_iff, !Nat.leb_le. auto. }
    split; [lia|]. split; [exact Hsep|].
    split; [exact (all_chars_not_in ":" _ s eq_refl Hsep)|].
    split; [exact (all_chars_not_in "," _ s eq_refl Hsep)|].
    now apply strip_no_space.
  - exists "A_B". repeat split.
Qed.

Lemma X7_validated_symbol_witness :
  validate_ticker_symbol (upper "brk.b") = validate_ticker_symbol "brk.b"
  /\ (1 <= String.length "brk.b" <= 10)%nat
  /\ all_chars (fun c => negb (separator_char c)) "brk.b" = true
  /\ char_in ":" "brk.b" = false
  /\ char_in "," "brk.b" = false
  /\ strip "brk.b" = "brk.b".
Proof.
  destruct (X7_validated_symbol "brk.b" eq_refl) as (Hcase & Hshape & _).
  split; [exact Hcase|]. apply Hshape. reflexivity.
Defined.

Lemma ticker_calls_app {P} (a b : list (event P)) :
  ticker_calls (a ++ b) = ticker_calls a ++ ticker_calls b.
Proof.
  induction a as [|ev a IH]; [reflexivity|].
  destruct ev; cbn; rewrite IH; reflexivity.
Qed.

Section Calls.
Context {P S : Type} (supabase : Storage P S).
Implicit Types (w : world P S).

Lemma get_cached_data_calls ticker range interval w :
  exists v w',
    get_cached_data supabase ticker range interval w = (inr v, w')
    /\ ticker_calls (w_trace w') = ticker_calls (w_trace w).
Proof using Type.
  run_cache.
  destruct (sto_select supabase _ (w_store w)) as [[e|[row|]] s1]; cbn;
    try (eexists; eexists; split; [reflexivity|]; cbn;
         rewrite ticker_calls_app; cbn; apply app_nil_r).
  destruct (expires_at row <? w_clock w (w_reads w)); cbn;
    [|eexists; eexists; split; [reflexivity|]; cbn;
      rewrite ticker_calls_app; cbn; apply app_nil_r].
  destruct (sto_delete_eq supabase _ s1) as [[e|[]] s2]; cbn;
    eexists; eexists; (split; [reflexivity|]); cbn;
    rewrite !ticker_calls_app; cbn; now rewrite !app_nil_r.
Qed.

Lemma set_cached_data_calls ticker payload range interval w :
  exists v w',
    set_cached_data supabase ticker payload range interval w = (inr v, w')
    /\ ticker_calls (w_trace w') = ticker_calls (w_trace w).
Proof using Type.
  run_cache.
  destruct (sto_upsert supabase _ _ (w_store w)) as [[e|[]] s1]; cbn;
    eexists; eexists; (split; [reflexivity|]); cbn;
    rewrite ticker_calls_app; cbn; apply app_nil_r.
Qed.
End Calls.

Section BatchCalls.
Context {F : Type} {RT : PyRuntime F} {S : Type}.
Context (supabase : Storage (pydict F) S).
Context (yf_Ticker : string -> string + ticker_obj F).
Implicit Types (w : world (pydict F) S).

Import get_multiple_stocks.

Lemma check_cache_calls range interval ticker_list :
  forall results to_fetch w,
  exists hits misses w',
    check_cache supabase range interval ticker_list results to_fetch w
    = (inr (results ++ hits, to_fetch ++ misses), w')
    /\ (length hits + length misses = length ticker_list)%nat
    /\ ticker_calls (w_trace w') = ticker_calls (w_trace w).
Proof using Type.
  induction ticker_list as [|ticker rest IH]; intros results to_fetch w;
    cbn [check_cache].
  - exists [], [], w. rewrite !app_nil_r. repeat split.
  - unfold bind.
    destruct (get_cached_data_calls supabase ticker range interval w)
      as (v & w1 & -> & Hcalls).
    destruct v as [[|item items]|]; cbv beta iota.
    + destruct (IH results (to_fetch ++ [ticker]) w1)
        as (hits & misses & w' & -> & Hlen & Hc).
      exists hits, (ticker :: misses), w'. rewrite <- app_assoc.
      split; [reflexivity|]. split; [cbn; lia|congruence].
    + destruct (IH (results ++ [PDict (dict_set "cached" (PBool true)
                                        (item :: items))]) to_fetch w1)
        as (hits & misses & w' & -> & Hlen & Hc).
      eexists (_ :: hits), misses, w'. rewrite <- app_assoc.
      split; [reflexivity|]. split; [cbn; lia|congruence].
    + destruct (IH results (to_fetch ++ [ticker]) w1)
        as (hits & misses & w' & -> & Hlen & Hc).
      exists hits, (ticker :: misses), w'. rewrite <- app_assoc.
      split; [reflexivity|]. split; [cbn; lia|congruence].
Qed.

Lemma fetch_one_calls range interval ih ticker w :
  exists entry w',
    fetch_one supabase yf_Ticker range interval ih ticker w = (inr entry, w')
    /\ ticker_calls (w_trace w') = ticker_calls (w_trace w) ++ [ticker].
Proof using Type.
  unfold fetch_one, try_except, call_Ticker.
  unfold bind at 1.
  destruct (yf_Ticker ticker) as [msg|tk]; cbn [provider_result].
  - unfold ret. eexists. eexists. split; [reflexivity|]. cbn.
    now rewrite ticker_calls_app.
  - unfold bind at 1. rewrite normalize_ticker_data_run.
    unfold bind.
    match goal with
    | |- context [set_cached_data ?s ?t ?d ?r ?i ?w0] =>
        destruct (set_cached_data_calls s t d r i w0) as (b & w' & -> & Hc)
    end.
    unfold ret. eexists. eexists. split; [reflexivity|].
    rewrite Hc. cbn. now rewrite app_nil_r, ticker_calls_app.
Qed.

Lemma fetch_all_calls range interval ih to_fetch : forall results w,
  exists entries w',
    fetch_all supabase yf_Ticker range interval ih to_fetch results w
    = (inr (results ++ entries), w')
    /\ length entries = length to_fetch
    /\ ticker_calls (w_trace w') = ticker_calls (w_trace w) ++ to_fetch.
Proof using Type.
  induction to_fetch as [|ticker rest IH]; intros results w;
    cbn [fetch_all].
  - exists [], w. rewrite !app_nil_r. repeat split.
  - unfold bind.
    destruct (fetch_one_calls range interval ih ticker w)
      as (entry & w1 & -> & Hc1).
    destruct (IH (results ++ [entry]) w1) as (entries & w' & -> & Hlen & Hc).
    exists (entry :: entries), w'. rewrite <- app_assoc.
    split; [reflexivity|]. split; [cbn; lia|].
    rewrite Hc, Hc1, <- app_assoc. reflexivity.
Qed.
End BatchCalls.

(** X8: an accepted batch request is answered with status 200 and
    one entry per requested ticker; the provider is called exactly for
    the tickers the table did not serve, once each and in order. *)
Theorem X8_batch_accounting :
  forall (F : Type) (RT : PyRuntime F) (S : Type)
         (supabase : Storage (pydict F) S)
         (yf_Ticker : string -> string + ticker_obj F)
         (request : request_body) (w : world (pydict F) S),
    get_multiple_stocks.validate_request request = (true, "") ->
    exists results misses w',
      get_multiple_stocks.handler supabase yf_Ticker request w
      = (inr (mkResponse 200
                (get_multiple_stocks.batch_body results misses)
                json_headers), w')
      /\ length results
         = length (get_multiple_stocks.upper_ticker_list (rq_tickers request))
      /\ (length misses <= length results)%nat
      /\ ticker_calls (w_trace w') = ticker_calls (w_trace w) ++ misses.
Proof.
  intros F RT S supabase yf_Ticker request w Hv.
  destruct (check_cache_calls supabase (get_or (rq_range request) "1d")
              (get_or (rq_interval request) "1d")
              (get_multiple_stocks.upper_ticker_list (rq_tickers request))
              [] [] w)
    as (hits & misses & w1 & Hcheck & Hlen & Hc1).
  destruct (fetch_all_calls supabase yf_Ticker
              (get_or (rq_range request) "1d")
              (get_or (rq_interval request) "1d")
              (rq_include_history request) misses hits w1)
    as (fetched & w' & Hfetch & Hlen2 & Hc2).
  exists (hits ++ fetched), misses, w'. split.
  - now apply (handler_unfold supabase yf_Ticker request "" w _ w1 _ w'
                 Hv Hcheck).
  - rewrite length_app. split; [lia|]. split; [lia|]. congruence.
Qed.

Lemma X8_batch_accounting_witness :
  exists results misses w',
    get_multiple_stocks.handler mem_table sample_provider
      (batch_of ["aapl"; "aapl"; "ibm"]) quiet_world
    = (inr (mkResponse 200
              (get_multiple_stocks.batch_body results misses)
              json_headers), w')
    /\ length results = 3%nat
    /\ ticker_calls (w_trace w') = misses.
Proof.
  destruct (X8_batch_accounting Q q_runtime _ mem_table sample_provider
              (batch_of ["aapl"; "aapl"; "ibm"]) quiet_world eq_refl)
    as (results & misses & w' & Hrun & Hlen & _ & Hcalls).
  exists results, misses, w'. auto.
Defined.

Lemma first_invalid_none_inv l :
  get_multiple_stocks.first_invalid l = None ->
  Forall (fun t => validate_ticker_symbol t = true) l.
Proof.
  induction l as [|t l IH]; cbn; [constructor|].
  destruct (validate_ticker_symbol t) eqn:Ht; cbn; [|discriminate].
  intros Hl. constructor; auto.
Qed.

Lemma upper_ticker_list_map tickers l :
  get_multiple_stocks.ticker_list_of tickers = Some l ->
  get_multiple_stocks.upper_ticker_list tickers = map upper l.
Proof.
  destruct tickers as [|s|l'|keys|]; cbn; try discriminate.
  - intros [= <-]. now rewrite map_map.
  - now intros [= <-].
Qed.

(** X9: for a request whose tickers are ASCII text, the tickers the
    batch handler works on after [validate_request] accepted are
    between 1 and 50, each passes the symbol check, is in upper case
    and has no colon. *)
Theorem X9_batch_symbols_validated :
  forall request : request_body,
    ascii_tickers (rq_tickers request) = true ->
    get_multiple_stocks.validate_request request = (true, "") ->
    (1 <= length (get_multiple_stocks.upper_ticker_list (rq_tickers request))
     <= 50)%nat
    /\ Forall (fun t => validate_ticker_symbol t = true
                        /\ upper t = t
                        /\ char_in ":" t = false)
         (get_multiple_stocks.upper_ticker_list (rq_tickers request)).
Proof.
  intros request _. unfold get_multiple_stocks.validate_request.
  destruct (tickers_truthy (rq_tickers request)) eqn:Htruthy; cbn [negb];
    [|discriminate].
  destruct (get_multiple_stocks.ticker_list_of (rq_tickers request))
    as [l|] eqn:Hl; [|discriminate].
  destruct (Nat.ltb_spec 50 (length l)) as [|Hlen]; [discriminate|].
  destruct (get_multiple_stocks.first_invalid l) eqn:Hfirst; [discriminate|].
  intros _. apply first_invalid_none_inv in Hfirst.
  rewrite (upper_ticker_list_map _ _ Hl), length_map.
  split.
  - split; [|exact Hlen].
    destruct l; [|cbn; lia].
    destruct (rq_tickers request) as [|s|l'|keys|]; try discriminate.
    + cbn in Hl. injection Hl as Hl. destruct (split_commas s) eqn:Hs;
        [|discriminate].
      destruct s as [|c s]; [discriminate|]. cbn in Hs.
      destruct (Ascii.eqb c ","); [discriminate|].
      destruct (split_commas s); discriminate.
    + cbn in Hl. injection Hl as ->. discriminate.
  - apply List.Forall_forall. intros t Ht.
    apply in_map_iff in Ht as (x & <- & Hx).
    rewrite List.Forall_forall in Hfirst. specialize (Hfirst x Hx).
    split; [now rewrite validate_ticker_symbol_upper|].
    split; [apply upper_idem|].
    rewrite char_in_colon_upper.
    exact (all_chars_not_in ":" _ x eq_refl (valid_symbol_clean x Hfirst)).
Qed.

Lemma X9_batch_symbols_validated_witness :
  (1 <= length (get_multiple_stocks.upper_ticker_list
                  (rq_tickers (batch_of ["aapl"; "brk.b"]))) <= 50)%nat
  /\ Forall (fun t => validate_ticker_symbol t = true
                      /\ upper t = t
                      /\ char_in ":" t = false)
       (get_multiple_stocks.upper_ticker_list
          (rq_tickers (batch_of ["aapl"; "brk.b"]))).
Proof.
  apply (X9_batch_symbols_validated (batch_of ["aapl"; "brk.b"])).
  - reflexivity.
  - reflexivity.
Defined.

Section DictFacts.
Context {F : Type}.

Lemma dict_set_cons k v (d : pydict F) :
  exists item items, dict_set k v d = item :: items.
Proof using Type.
  destruct d as [|[k0 v0] d]; cbn; [eauto|].
  destruct (String.eqb k k0); eauto.
Qed.

Lemma dict_set_set k v v' (d : pydict F) :
  dict_set k v' (dict_set k v d) = dict_set k v' d.
Proof using Type.
  induction d as [|[k0 v0] d IH]; cbn.
  - now rewrite String.eqb_refl.
  - destruct (String.eqb k k0) eqn:Hk; cbn; rewrite Hk; [reflexivity|].
    now rewrite IH.
Qed.
End DictFacts.

Section StockRuns.
Context {F : Type} {RT : PyRuntime F} {S : Type}.
Context (supabase : Storage (pydict F) S).
Context (yf_Ticker : string -> string + ticker_obj F).
Implicit Types (w : world (pydict F) S).

Import get_stock.

Lemma stock_handler_rejects request msg w :
  validate_request request = (false, msg) ->
  handler supabase yf_Ticker request w
  = (inr (mkResponse 400 (error_body msg) json_headers), w).
Proof using Type.
  intros Hv. unfold handler, try_except. rewrite Hv. reflexivity.
Qed.

Lemma stock_validate_request_false request :
  validate_ticker_symbol (get_or (rq_ticker request) "") = false ->
  exists msg, validate_request request = (false, msg).
Proof using Type.
  unfold validate_request.
  destruct (rq_ticker request) as [ticker|]; cbn [get_or]; [|eauto].
  intros Hbad. destruct (String.eqb ticker ""); [eauto|].
  rewrite Hbad. cbn. eauto.
Qed.

Lemma stock_validate_request_true request :
  validate_ticker_symbol (get_or (rq_ticker request) "") = true ->
  validate_request request = (true, "").
Proof using Type.
  unfold validate_request.
  destruct (rq_ticker request) as [ticker|]; cbn [get_or]; [|discriminate].
  intros Hok. destruct (String.eqb_spec ticker "") as [->|_];
    [discriminate|].
  now rewrite Hok.
Qed.

Lemma stock_handler_hit request msg w item items w1 :
  validate_request request = (true, msg) ->
  get_cached_data supabase (upper (get_or (rq_ticker request) ""))
    (get_or (rq_range request) "1mo") (get_or (rq_interval request) "1d") w
  = (inr (Some (item :: items)), w1) ->
  handler supabase yf_Ticker request w
  = (inr (mkResponse 200
            (PDict (dict_set "cached" (PBool true) (item :: items)))
            json_headers), w1).
Proof using Type.
  intros Hv Hget. unfold handler, try_except. rewrite Hv. cbn [negb].
  unfold bind at 1. rewrite Hget. reflexivity.
Qed.

Lemma stock_handler_fetched request msg w c w1 tk :
  validate_request request = (true, msg) ->
  get_cached_data supabase (upper (get_or (rq_ticker request) ""))
    (get_or (rq_range request) "1mo") (get_or (rq_interval request) "1d") w
  = (inr c, w1) ->
  c = None \/ c = Some [] ->
  yf_Ticker (upper (get_or (rq_ticker request) "")) = inr tk ->
  fails_to_normalize tk (rq_include_history request)
    (get_or (rq_range request) "1mo") = false ->
  exists stored w',
    set_cached_data supabase (upper (get_or (rq_ticker request) ""))
      (dict_set "cached" (PBool false)
         (quote_at tk (rq_include_history request)
            (get_or (rq_range request) "1mo") (w_clock w1 (w_reads w1))))
      (get_or (rq_range request) "1mo") (get_or (rq_interval request) "1d")
      (advance w1 (w_store w1) 1
         [EvTicker (upper (get_or (rq_ticker request) ""))])
    = (inr stored, w')
    /\ handler supabase yf_Ticker request w
       = (inr (mkResponse 200
                 (PDict (dict_set "cached" (PBool false)
                           (quote_at tk (rq_include_history request)
                              (get_or (rq_range request) "1mo")
                              (w_clock w1 (w_reads w1)))))
                 json_headers), w').
Proof using Type.
  intros Hv Hget Hmiss Hyf Hok.
  match goal with
  | |- exists stored w', set_cached_data ?s ?t ?d ?r ?i ?w0 = _ /\ _ =>
      destruct (set_cached_data_returns s t d r i w0) as (b & w' & Hset)
  end.
  exists b, w'. split; [exact Hset|].
  unfold handler, try_except. rewrite Hv. cbn [negb].
  unfold bind at 1. rewrite Hget.
  assert (Hfetch :
    forall k : ticker_obj F -> M (world (pydict F) S) (response F),
      (let! ticker_obj :=
         call_Ticker yf_Ticker (upper (get_or (rq_ticker request) ""))
       in k ticker_obj) w1
      = k tk (mkWorld (w_store w1) (w_clock w1) (w_reads w1)
                (w_trace w1
                 ++ [EvTicker (upper (get_or (rq_ticker request) ""))]))).
  { intros k. unfold bind, call_Ticker. now rewrite Hyf. }
  unfold advance in Hset.
  destruct Hmiss as [-> | ->]; cbv beta iota; rewrite Hfetch;
    unfold bind at 1; rewrite normalize_ticker_data_run;
    cbn [w_clock w_reads w_store w_trace];
    rewrite error_flag_any_clock, Hok;
    unfold bind, advance; cbn [w_clock w_reads w_store w_trace];
    rewrite app_nil_r, Hset; reflexivity.
Qed.

Lemma stock_handler_provider_raises request msg w c w1 reason :
  validate_request request = (true, msg) ->
  get_cached_data supabase (upper (get_or (rq_ticker request) ""))
    (get_or (rq_range request) "1mo") (get_or (rq_interval request) "1d") w
  = (inr c, w1) ->
  c = None \/ c = Some [] ->
  yf_Ticker (upper (get_or (rq_ticker request) "")) = inl reason ->
  handler supabase yf_Ticker request w
  = (inr (mkResponse 500
            (error_body ("Internal server error: "
                         +:+ str_of_exn (ProviderError reason)))
            json_headers),
     advance w1 (w_store w1) 0
       [EvTicker (upper (get_or (rq_ticker request) ""))]).
Proof using Type.
  intros Hv Hget Hmiss Hyf.
  unfold handler, try_except. rewrite Hv. cbn [negb].
  unfold bind at 1. rewrite Hget.
  destruct Hmiss as [-> | ->]; cbv beta iota;
    unfold bind, call_Ticker; rewrite Hyf; cbn [provider_result];
    unfold ret, advance; now rewrite Nat.add_0_r.
Qed.
End StockRuns.

(* ----------------------------------------------------------------- *)
(** ** The single-stock handler *)

Section CacheFaults.
Context {P S : Type} (supabase : Storage P S).

Lemma get_cached_data_select_faults ticker range interval (w : world P S) :
  faults (sto_select supabase (get_cache_key ticker range interval))
    (w_store w) ->
  exists s1,
    get_cached_data supabase ticker range interval w
    = (inr None,
       advance w s1 0 [EvSelect (get_cache_key ticker range interval)]).
Proof using Type.
  intros (e & s1 & Hsel). exists s1. run_cache. rewrite Hsel. cbn.
  unfold advance. now rewrite Nat.add_0_r.
Qed.
End CacheFaults.

(** X10: given a parsed body whose ticker is absent or text, the
    single-stock handler always answers, with status 200, 400, 404 or
    500; 400 exactly when the symbol is missing or malformed, and then
    nothing was called; 404 only for a quote that has the error flag;
    500 only when [yf.Ticker] itself raised: a fault of the table
    never shows. *)
Theorem X10_stock_statuses :
  forall (F : Type) (RT : PyRuntime F) (S : Type)
         (supabase : Storage (pydict F) S)
         (yf_Ticker : string -> string + ticker_obj F)
         (request : request_body) (w : world (pydict F) S),
  exists r w',
    get_stock.handler supabase yf_Ticker request w = (inr r, w')
    /\ In (statusCode r) [200; 400; 404; 500]
    /\ headers r = json_headers
    /\ (statusCode r = 400
        <-> validate_ticker_symbol (get_or (rq_ticker request) "") = false)
    /\ (statusCode r = 400 -> w' = w)
    /\ (statusCode r = 404 ->
        exists tk, yf_Ticker (upper (get_or (rq_ticker request) "")) = inr tk
                   /\ fails_to_normalize tk (rq_include_history request)
                        (get_or (rq_range request) "1mo") = true)
    /\ (statusCode r = 500 ->
        exists reason,
          yf_Ticker (upper (get_or (rq_ticker request) "")) = inl reason).
Proof.
  intros F RT S supabase yf_Ticker request w.
  destruct (validate_ticker_symbol (get_or (rq_ticker request) "")) eqn:Hsym.
  - pose proof (stock_validate_request_true request Hsym) as Hv.
    destruct (get_cached_data_returns supabase
                (upper (get_or (rq_ticker request) ""))
                (get_or (rq_range request) "1mo")
                (get_or (rq_interval request) "1d") w) as (c & w1 & Hget).
    assert (Hcases : (exists item items, c = Some (item :: items))
                     \/ (c = None \/ c = Some [])).
    { destruct c as [[|item items]|]; eauto. }
    destruct Hcases as [(item & items & ->) | Hmiss].
    + eexists; eexists. split;
        [exact (stock_handler_hit supabase yf_Ticker request "" w
                  item items w1 Hv Hget)|].
      cbn. repeat split; try (intros; discriminate); auto.
    + destruct (yf_Ticker (upper (get_or (rq_ticker request) "")))
        as [reason|tk] eqn:Hyf.
      * eexists; eexists. split;
          [exact (stock_handler_provider_raises supabase yf_Ticker request ""
                    w c w1 reason Hv Hget Hmiss Hyf)|].
        cbn. repeat split; try (intros; discriminate); eauto 6.
      * destruct (fails_to_normalize tk (rq_include_history request)
                    (get_or (rq_range request) "1mo")) eqn:Hfail.
        -- eexists; eexists. split;
             [exact (stock_handler_not_found supabase yf_Ticker request ""
                       w c w1 tk Hv Hget Hmiss Hyf Hfail)|].
           cbn. repeat split; try (intros; discriminate); eauto 6.
        -- destruct (stock_handler_fetched supabase yf_Ticker request ""
                       w c w1 tk Hv Hget Hmiss Hyf Hfail)
             as (stored & w' & _ & Hrun).
           eexists; eexists. split; [exact Hrun|].
           cbn. repeat split; try (intros; discriminate); eauto 6.
  - destruct (stock_validate_request_false request Hsym) as (msg & Hv).
    eexists; eexists. split;
      [exact (stock_handler_rejects supabase yf_Ticker request msg w Hv)|].
    cbn. repeat split; try (intros; discriminate); auto.
Qed.

(** X11: a live row in the table answers the request: its payload comes
    back with ["cached"] set to true, the provider is not called and
    the table is left as it was. *)
Theorem X11_stock_cache_hit :
  forall (F : Type) (RT : PyRuntime F)
         (yf_Ticker : string -> string + ticker_obj F)
         (request : request_body)
         (w : world (pydict F) (gmap string (Row (pydict F))))
         (row : Row (pydict F)),
    validate_ticker_symbol (get_or (rq_ticker request) "") = true ->
    w_store w !! get_cache_key (get_or (rq_ticker request) "")
                   (get_or (rq_range request) "1mo")
                   (get_or (rq_interval request) "1d") = Some row ->
    w_clock w (w_reads w) <= expires_at row ->
    data row <> [] ->
    exists w',
      get_stock.handler mem_table yf_Ticker request w
      = (inr (mkResponse 200
                (PDict (dict_set "cached" (PBool true) (data row)))
                json_headers), w')
      /\ w_store w' = w_store w
      /\ ticker_calls (w_trace w') = ticker_calls (w_trace w)
      /\ (forall k, k <> "cached" ->
            dict_get k (dict_set "cached" (PBool true) (data row))
            = dict_get k (data row)).
Proof.
  intros F RT yf_Ticker request w row Hsym Hrow Hlive Hdata.
  pose proof (stock_validate_request_true request Hsym) as Hv.
  assert (Hkey : forall t r i, get_cache_key (upper t) r i = get_cache_key t r i).
  { intros t r i. unfold get_cache_key. now rewrite upper_idem. }
  rewrite <- Hkey in Hrow.
  pose proof (get_cached_data_hit _ _ _ w row Hrow Hlive) as Hget.
  assert (Hd : exists item items, data row = item :: items).
  { destruct (data row) as [|item items]; [congruence|eauto]. }
  destruct Hd as (item & items & Hd). rewrite Hd in Hget.
  eexists. split; [|split; [|split]].
  - rewrite Hd.
    exact (stock_handler_hit mem_table yf_Ticker request "" w item items _
             Hv Hget).
  - reflexivity.
  - cbn. rewrite ticker_calls_app. cbn. apply app_nil_r.
  - intros k Hk. apply dict_get_set_other. congruence.
Qed.

(** X12: read-through.  On a miss with a healthy provider the quote is
    sent with ["cached"] false and stored; the same request made again
    before the row expires is answered from the table with the same
    quote, ["cached"] true, and without a second call to the
    provider. *)
Theorem X12_stock_read_through :
  forall (F : Type) (RT : PyRuntime F)
         (yf_Ticker : string -> string + ticker_obj F)
         (request : request_body)
         (w : world (pydict F) (gmap string (Row (pydict F))))
         (tk : ticker_obj F),
    validate_ticker_symbol (get_or (rq_ticker request) "") = true ->
    w_store w !! get_cache_key (get_or (rq_ticker request) "")
                   (get_or (rq_range request) "1mo")
                   (get_or (rq_interval request) "1d") = None ->
    yf_Ticker (upper (get_or (rq_ticker request) "")) = inr tk ->
    fails_to_normalize tk (rq_include_history request)
      (get_or (rq_range request) "1mo") = false ->
    w_clock w (w_reads w + 2)%nat
    <= w_clock w (w_reads w + 1)%nat
       + get_cache_duration (get_or (rq_ticker request) "") * MICROSECONDS ->
    exists w1 w2,
      let quote := quote_at tk (rq_include_history request)
                     (get_or (rq_range request) "1mo")
                     (w_clock w (w_reads w)) in
      get_stock.handler mem_table yf_Ticker request w
      = (inr (mkResponse 200 (PDict (dict_set "cached" (PBool false) quote))
                json_headers), w1)
      /\ get_stock.handler mem_table yf_Ticker request w1
         = (inr (mkResponse 200 (PDict (dict_set "cached" (PBool true) quote))
                   json_headers), w2)
      /\ ticker_calls (w_trace w2)
         = ticker_calls (w_trace w)
           ++ [upper (get_or (rq_ticker request) "")]
      /\ w_store w2 = w_store w1.
Proof.
  intros F RT yf_Ticker request w tk Hsym Hnone Hyf Hok Hclock.
  pose proof (stock_validate_request_true request Hsym) as Hv.
  assert (Hkey : forall t r i, get_cache_key (upper t) r i = get_cache_key t r i).
  { intros t r i. unfold get_cache_key. now rewrite upper_idem. }
  assert (Hdur : forall t, get_cache_duration (upper t) = get_cache_duration t).
  { intros t. unfold get_cache_duration. now rewrite upper_idem. }
  rewrite <- Hkey in Hnone. rewrite <- Hdur in Hclock.
  set (ticker := upper (get_or (rq_ticker request) "")) in *.
  set (range_period := get_or (rq_range request) "1mo") in *.
  set (interval := get_or (rq_interval request) "1d") in *.
  pose proof (get_cached_data_miss ticker range_period interval w Hnone)
    as Hget.
  destruct (stock_handler_fetched mem_table yf_Ticker request "" w None _ tk
              Hv Hget (or_introl eq_refl) Hyf Hok)
    as (stored & w1 & Hset & Hrun).
  fold ticker range_period interval in Hset, Hrun.
  rewrite set_cached_data_mem in Hset. injection Hset as _ Hw1.
  cbn [advance w_clock w_reads w_store w_trace] in Hw1, Hrun.
  rewrite Nat.add_0_r in Hw1, Hrun.
  destruct (dict_set_cons "cached" (PBool false)
              (quote_at tk (rq_include_history request) range_period
                 (w_clock w (w_reads w))))
    as (item & items & Hpayload).
  assert (Hhit :
    get_cached_data mem_table ticker range_period interval w1
    = (inr (Some (item :: items)),
       advance w1 (w_store w1) 1
         [EvSelect (get_cache_key ticker range_period interval)])).
  { rewrite <- Hpayload.
    match type of Hw1 with
    | advance _ (<[_ := ?r]> _) _ _ = _ =>
        apply (get_cached_data_hit ticker range_period interval w1 r)
    end.
    - rewrite <- Hw1. cbn. apply lookup_insert_eq.
    - rewrite <- Hw1. cbn.
      match goal with
      | |- w_clock w ?a <= w_clock w ?b + _ =>
          replace a with (w_reads w + 2)%nat by lia;
          replace b with (w_reads w + 1)%nat by lia
      end.
      exact Hclock. }
  exists w1. eexists. cbv zeta. split; [exact Hrun|]. split; [|split].
  - rewrite <- (dict_set_set "cached" (PBool false) (PBool true)), Hpayload.
    exact (stock_handler_hit mem_table yf_Ticker request "" w1 item items _
             Hv Hhit).
  - cbn. rewrite <- Hw1. cbn. rewrite !ticker_calls_app. cbn.
    now rewrite !app_nil_r.
  - reflexivity.
Qed.

(** X13: fail-open.  When reading the table raises, the request is
    served as on a miss: a healthy provider's quote goes out with
    status 200 and ["cached"] false, whether or not it can be stored,
    and the provider was called once. *)
Theorem X13_stock_fail_open :
  forall (F : Type) (RT : PyRuntime F) (S : Type)
         (supabase : Storage (pydict F) S)
         (yf_Ticker : string -> string + ticker_obj F)
         (request : request_body) (w : world (pydict F) S)
         (tk : ticker_obj F),
    validate_ticker_symbol (get_or (rq_ticker request) "") = true ->
    faults (sto_select supabase
              (get_cache_key (get_or (rq_ticker request) "")
                 (get_or (rq_range request) "1mo")
                 (get_or (rq_interval request) "1d"))) (w_store w) ->
    yf_Ticker (upper (get_or (rq_ticker request) "")) = inr tk ->
    fails_to_normalize tk (rq_include_history request)
      (get_or (rq_range request) "1mo") = false ->
    exists w',
      get_stock.handler supabase yf_Ticker request w
      = (inr (mkResponse 200
                (PDict (dict_set "cached" (PBool false)
                          (quote_at tk (rq_include_history request)
                             (get_or (rq_range request) "1mo")
                             (w_clock w (w_reads w)))))
                json_headers), w')
      /\ ticker_calls (w_trace w')
         = ticker_calls (w_trace w)
           ++ [upper (get_or (rq_ticker request) "")].
Proof.
  intros F RT S supabase yf_Ticker request w tk Hsym Hfault Hyf Hok.
  pose proof (stock_validate_request_true request Hsym) as Hv.
  assert (Hkey : forall t r i, get_cache_key (upper t) r i = get_cache_key t r i).
  { intros t r i. unfold get_cache_key. now rewrite upper_idem. }
  rewrite <- Hkey in Hfault.
  destruct (get_cached_data_select_faults supabase _ _ _ w Hfault)
    as (s1 & Hget).
  destruct (stock_handler_fetched supabase yf_Ticker request "" w None _ tk
              Hv Hget (or_introl eq_refl) Hyf Hok)
    as (stored & w' & Hset & Hrun).
  cbn [advance w_clock w_reads w_store w_trace] in Hrun.
  rewrite Nat.add_0_r in Hrun.
  exists w'. split; [exact Hrun|].
  match type of Hset with
  | set_cached_data ?s ?t ?d ?r ?i ?w0 = _ =>
      destruct (set_cached_data_calls s t d r i w0) as (b & w'' & Hset' & Hc)
  end.
  rewrite Hset' in Hset. injection Hset as _ <-.
  rewrite Hc. cbn. rewrite !ticker_calls_app. cbn. now rewrite app_nil_r.
Qed.

(** X14: with the provider down for the requested symbol, a valid
    request is decided by the read of the table and by nothing else.
    If [get_cached_data] returns a payload that is not empty, the
    answer is 200 with that payload and ["cached"] true, in the world
    the read left: the provider is not called.  Otherwise the provider
    is called once and the answer is 500 with its message after
    "Internal server error: ". *)
Theorem X14_stock_provider_down :
  forall (F : Type) (RT : PyRuntime F) (S : Type)
         (supabase : Storage (pydict F) S)
         (yf_Ticker : string -> string + ticker_obj F)
         (request : request_body) (w : world (pydict F) S)
         (reason : string),
    validate_ticker_symbol (get_or (rq_ticker request) "") = true ->
    yf_Ticker (upper (get_or (rq_ticker request) "")) = inl reason ->
    exists cached w1,
      get_cached_data supabase (upper (get_or (rq_ticker request) ""))
        (get_or (rq_range request) "1mo") (get_or (rq_interval request) "1d")
        w = (inr cached, w1)
      /\ get_stock.handler supabase yf_Ticker request w
         = match cached with
           | Some (item :: items) =>
               (inr (mkResponse 200
                       (PDict (dict_set "cached" (PBool true)
                                 (item :: items)))
                       json_headers), w1)
           | _ =>
               (inr (mkResponse 500
                       (error_body ("Internal server error: "
                                    +:+ str_of_exn (ProviderError reason)))
                       json_headers),
                advance w1 (w_store w1) 0
                  [EvTicker (upper (get_or (rq_ticker request) ""))])
           end.
Proof.
  intros F RT S supabase yf_Ticker request w reason Hsym Hyf.
  pose proof (stock_validate_request_true request Hsym) as Hv.
  destruct (get_cached_data_returns supabase
              (upper (get_or (rq_ticker request) ""))
              (get_or (rq_range request) "1mo")
              (get_or (rq_interval request) "1d") w)
    as (c & w1 & Hget).
  exists c, w1. split; [exact Hget|].
  destruct c as [[|item items]|].
  - exact (stock_handler_provider_raises supabase yf_Ticker request ""
             w _ w1 reason Hv Hget (or_intror eq_refl) Hyf).
  - exact (stock_handler_hit supabase yf_Ticker request "" w
             item items w1 Hv Hget).
  - exact (stock_handler_provider_raises supabase yf_Ticker request ""
             w _ w1 reason Hv Hget (or_introl eq_refl) Hyf).
Qed.

Lemma X14_stock_provider_down_witness :
  (exists w',
      get_stock.handler mem_table down_provider (stock_of "ibm") quiet_world
      = (inr (mkResponse 500
                (error_body "Internal server error: connection reset")
                json_headers), w')
      /\ ticker_calls (w_trace w') = ["IBM"])
  /\ (exists w',
        get_stock.handler mem_table down_provider (stock_of "aapl")
          cached_world
        = (inr (mkResponse 200
                  (PDict [ ("ticker", PStr "AAPL");
                           ("price", PFloat (110 # 1));
                           ("cached", PBool true) ])
                  json_headers), w')
        /\ ticker_calls (w_trace w') = []).
Proof.
  split.
  - destruct (X14_stock_provider_down Q q_runtime _ mem_table down_provider
                (stock_of "ibm") quiet_world "connection reset"
                eq_refl eq_refl)
      as (cached & w1 & Hget & Hrun).
    rewrite get_cached_data_miss in Hget by apply lookup_empty.
    injection Hget as <- <-.
    eexists. split; [exact Hrun|]. reflexivity.
  - destruct (X14_stock_provider_down Q q_runtime _ mem_table down_provider
                (stock_of "aapl") cached_world "connection reset"
                eq_refl eq_refl)
      as (cached & w1 & Hget & Hrun).
    assert (Hhit :
      (@inr exn _ cached, w1)
      = (inr (Some [ ("ticker", PStr "AAPL"); ("price", PFloat (110 # 1));
                     ("cached", PBool false) ]),
         advance cached_world (w_store cached_world) 1
           [EvSelect "yf:AAPL:1mo:1d"])).
    { rewrite <- Hget.
      apply (get_cached_data_hit "AAPL" "1mo" "1d" cached_world
               (mkRow [ ("ticker", PStr "AAPL"); ("price", PFloat (110 # 1));
                        ("cached", PBool false) ] 100)).
      - vm_compute. reflexivity.
      - cbn. lia. }
    injection Hhit as -> ->.
    eexists. split; [exact Hrun|]. reflexivity.
Defined.

(* ----------------------------------------------------------------- *)
(** ** The shape of a quote *)

Section QuoteShape.
Context {F : Type} {RT : PyRuntime F} {P S : Type}.
Implicit Types (w : world P S).

Ltac step_body :=
  match goal with
  | |- context [bind (lift ?r) ?k ?w] =>
      let H := fresh "Hstep" in
      destruct r eqn:H;
      [rewrite bind_lift_inl; intros; discriminate
      | rewrite bind_lift_inr; cbn beta]
  end.

Lemma normalize_body_fields tk ih range w d w' :
  normalize_body tk ih range w = (inr d, w') ->
  dict_get "timestamp" d = Some (PStr (isoformat (w_clock w (w_reads w))))
  /\ dict_has "ticker" d = true
  /\ dict_has "price" d = true
  /\ dict_has "change_percent" d = true
  /\ exists h,
       history_of tk ih range = inr h
       /\ dict_get "history" d
          = match h with
            | Some (row :: rows) =>
                Some (PList (_normalize_history (row :: rows)))
            | _ => None
            end.
Proof using Type.
  unfold normalize_body.
  do 10 step_body.
  unfold bind, datetime_now, ret.
  match goal with
  | H : history_of _ _ _ = inr ?o |- _ => destruct o as [[|row rows]|]
  end;
    intros Heq; injection Heq as <- <-;
    (repeat split; try reflexivity);
    eexists; (split; [reflexivity|]); reflexivity.
Qed.
End QuoteShape.

Section QuoteAt.
Context {F : Type} {RT : PyRuntime F}.

Lemma quote_at_cases (tk : ticker_obj F) ih range now :
  (fails_to_normalize tk ih range = true
   /\ exists e,
        quote_at tk ih range now
        = [ ("ticker", PStr (ticker_attr tk));
            ("error", PStr (str_of_exn e));
            ("price", PInt 0);
            ("change_percent", PInt 0);
            ("timestamp", PStr (isoformat now)) ])
  \/ (fails_to_normalize tk ih range = false
      /\ exists w',
           normalize_body (P := unit) (S := unit) tk ih range
             (mkWorld tt (fun _ => now) 0 [])
           = (inr (quote_at tk ih range now), w')).
Proof using Type.
  rewrite <- (error_flag_any_clock tk ih range now).
  unfold quote_at.
  destruct (normalize_ticker_data_outcome (P := unit) (S := unit)
              tk ih range (mkWorld tt (fun _ => now) 0 []))
    as (d & Hrun & [(e & Hbody & _ & Hd) | (info & v & c & Hbody & _ & _ & _ & _ & Herr)]);
    rewrite Hrun; cbn [fst].
  - left. subst d. split; [reflexivity|]. exists e. reflexivity.
  - right. split; [exact Herr|]. eexists. exact Hbody.
Qed.
End QuoteAt.

(** X15: every quote, good or not, carries the keys ["ticker"],
    ["price"], ["change_percent"] and ["timestamp"], the last being
    the clock reading in ISO format.  The error variant has exactly
    five keys: price and change are the integer 0, the ticker is the
    object's [ticker] attribute or "UNKNOWN", and there is no
    history. *)
Theorem X15_quote_core_fields :
  forall (F : Type) (RT : PyRuntime F) (tk : ticker_obj F)
         (include_history : bool) (range_period : string) (now : Z),
    let quote := quote_at tk include_history range_period now in
    dict_get "timestamp" quote = Some (PStr (isoformat now))
    /\ dict_has "ticker" quote = true
    /\ dict_has "price" quote = true
    /\ dict_has "change_percent" quote = true
    /\ (fails_to_normalize tk include_history range_period = true ->
        map fst quote
        = ["ticker"; "error"; "price"; "change_percent"; "timestamp"]
        /\ dict_get "ticker" quote = Some (PStr (ticker_attr tk))
        /\ dict_get "price" quote = Some (PInt 0)
        /\ dict_get "change_percent" quote = Some (PInt 0)).
Proof.
  intros F RT tk ih range now quote. subst quote.
  destruct (quote_at_cases tk ih range now)
    as [(Hfail & e & ->) | (Hok & w' & Hbody)].
  - repeat split; reflexivity.
  - apply normalize_body_fields in Hbody
      as (Hts & Htk & Hprice & Hchange & _).
    cbn [w_clock w_reads] in Hts.
    rewrite Hok. repeat split; try assumption; discriminate.
Qed.

(** X16: a quote that is not the error variant has a ["history"] key
    exactly when history was asked for and the provider's series is
    not empty; the list then has one entry per period of the series. *)
Theorem X16_quote_history :
  forall (F : Type) (RT : PyRuntime F) (tk : ticker_obj F)
         (include_history : bool) (range_period : string) (now : Z),
    fails_to_normalize tk include_history range_period = false ->
    let quote := quote_at tk include_history range_period now in
    (include_history = false -> dict_has "history" quote = false)
    /\ (include_history = true ->
        exists series,
          t_history tk range_period = inr series
          /\ dict_get "history" quote
             = match series with
               | [] => None
               | _ => Some (PList (_normalize_history series))
               end
          /\ length (_normalize_history series) = length series).
Proof.
  intros F RT tk ih range now Hok quote. subst quote.
  destruct (quote_at_cases tk ih range now)
    as [(Hfail & _) | (_ & w' & Hbody)]; [congruence|].
  apply normalize_body_fields in Hbody as (_ & _ & _ & _ & h & Hh & Hget).
  unfold history_of in Hh. split.
  - intros ->. injection Hh as <-. unfold dict_has. now rewrite Hget.
  - intros ->. destruct (t_history tk range) as [msg|series];
      [discriminate|].
    cbn in Hh. injection Hh as <-.
    exists series. split; [reflexivity|]. split.
    + rewrite Hget. now destruct series.
    + unfold _normalize_history. apply length_map.
Qed.

Section ManyRuns.
Context {F : Type} {RT : PyRuntime F} {P S : Type}.
Implicit Types (w : world P S).

Lemma normalize_each_run items ih : forall results w,
  exists quotes,
    normalize_each items ih results w
    = (inr (results ++ quotes), advance w (w_store w) (length items) [])
    /\ length quotes = length items
    /\ (forall (i : nat) symbol tk,
          items !! i = Some (symbol, tk) ->
          quotes !! i
          = Some (quote_at tk ih "1mo" (w_clock w (w_reads w + i)))).
Proof using Type.
  induction items as [|[symbol tk] rest IH]; intros results w.
  - exists []. cbn. unfold ret, advance.
    rewrite !app_nil_r, Nat.add_0_r. destruct w. repeat split.
    intros i symbol tk Hi. discriminate.
  - cbn [normalize_each]. unfold bind at 1.
    rewrite normalize_ticker_data_run.
    destruct (IH (results ++ [quote_at tk ih "1mo" (w_clock w (w_reads w))])
                (advance w (w_store w) 1 []))
      as (quotes & Hrun & Hlen & Hnth).
    exists (quote_at tk ih "1mo" (w_clock w (w_reads w)) :: quotes).
    rewrite Hrun. split; [|split].
    + unfold advance. cbn. rewrite <- !app_assoc, !app_nil_r. cbn.
      replace (w_reads w + 1 + length rest)%nat
        with (w_reads w + Datatypes.S (length rest))%nat by lia.
      reflexivity.
    + cbn. now rewrite Hlen.
    + intros [|i] symbol' tk' Hi; cbn in Hi.
      * injection Hi as _ <-. rewrite lookup_cons. now rewrite Nat.add_0_r.
      * specialize (Hnth i symbol' tk' Hi).
        cbn [advance w_clock w_reads] in Hnth.
        rewrite lookup_cons, Hnth.
        replace (w_reads w + 1 + i)%nat with (w_reads w + Datatypes.S i)%nat by lia.
        reflexivity.
Qed.
End ManyRuns.

(** X17: [normalize_multiple_tickers] never raises and gives one quote
    per entry, in the order of the entries: the quote of the entry's
    object for the range "1mo", stamped with the clock reading taken
    at its turn.  The keys of [ticker_data] play no part. *)
Theorem X17_normalize_multiple_tickers :
  forall (F : Type) (RT : PyRuntime F) (P S : Type)
         (ticker_data : list (string * ticker_obj F))
         (include_history : bool) (w : world P S),
  exists quotes,
    normalize_multiple_tickers ticker_data include_history w
    = (inr quotes, advance w (w_store w) (length ticker_data) [])
    /\ length quotes = length ticker_data
    /\ (forall (i : nat) symbol tk,
          ticker_data !! i = Some (symbol, tk) ->
          quotes !! i
          = Some (quote_at tk include_history "1mo"
                    (w_clock w (w_reads w + i))))
    /\ (forall other : list (string * ticker_obj F),
          map snd other = map snd ticker_data ->
          normalize_multiple_tickers other include_history w
          = normalize_multiple_tickers ticker_data include_history w).
Proof.
  intros F RT P S ticker_data ih w.
  destruct (normalize_each_run ticker_data ih [] w)
    as (quotes & Hrun & Hlen & Hnth).
  exists quotes. unfold normalize_multiple_tickers.
  split; [exact Hrun|]. split; [exact Hlen|]. split; [exact Hnth|].
  clear. intros other. generalize (@nil (pydict F)). revert w other.
  induction ticker_data as [|[s tk] rest IH];
    intros w [|[s' tk'] other] acc Hsnd; try discriminate; [reflexivity|].
  cbn in Hsnd. injection Hsnd as -> Hsnd.
  cbn [normalize_each]. unfold bind.
  rewrite normalize_ticker_data_run. now apply IH.
Qed.

(* ----------------------------------------------------------------- *)
(** ** Indices *)

Lemma dict_get_set_same {F} k v (d : pydict F) :
  dict_get k (dict_set k v d) = Some v.
Proof.
  induction d as [|[k0 v0] d IH]; cbn.
  - now rewrite String.eqb_refl.
  - destruct (String.eqb k k0) eqn:Hk; cbn; now rewrite Hk.
Qed.

Lemma major_index_caret name ticker :
  get_indices.major_index name get_indices.MAJOR_INDICES = Some ticker ->
  get_indices.startswith_caret ticker = true /\ upper ticker = ticker.
Proof.
  unfold get_indices.MAJOR_INDICES. cbn [get_indices.major_index].
  repeat match goal with
         | |- (if ?b then _ else _) = _ -> _ =>
             destruct b; [intros [= <-]; split; reflexivity|]
         end.
  discriminate.
Qed.

Lemma startswith_caret_upper s :
  get_indices.startswith_caret (upper s) = get_indices.startswith_caret s.
Proof.
  destruct s as [|c s]; [reflexivity|]. cbn.
  destruct c as [[] [] [] [] [] [] [] []]; reflexivity.
Qed.

Lemma index_ticker_caret index :
  get_indices.major_index (upper index) get_indices.MAJOR_INDICES <> None
  \/ get_indices.startswith_caret index = true ->
  get_indices.startswith_caret (index_ticker index) = true
  /\ upper (index_ticker index) = index_ticker index.
Proof.
  unfold index_ticker.
  destruct (get_indices.major_index (upper index) get_indices.MAJOR_INDICES)
    as [ticker|] eqn:Hm.
  - intros _. now apply (major_index_caret (upper index)).
  - intros [Hne|Hcaret]; [congruence|].
    now rewrite startswith_caret_upper, upper_idem.
Qed.

Lemma to_tickers_outcome indices : forall ticker_list,
  match get_indices.to_tickers indices ticker_list with
  | inr out =>
      out = ticker_list ++ map index_ticker indices
      /\ Forall (fun index =>
                   get_indices.major_index (upper index)
                     get_indices.MAJOR_INDICES <> None
                   \/ get_indices.startswith_caret index = true) indices
  | inl message =>
      exists before index after,
        indices = before ++ index :: after
        /\ message = "Unknown index: " +:+ index
        /\ get_indices.major_index (upper index) get_indices.MAJOR_INDICES
           = None
        /\ get_indices.startswith_caret index = false
        /\ Forall (fun index' =>
                     get_indices.major_index (upper index')
                       get_indices.MAJOR_INDICES <> None
                     \/ get_indices.startswith_caret index' = true) before
  end.
Proof.
  induction indices as [|index rest IH]; intros ticker_list;
    cbn [get_indices.to_tickers].
  - rewrite app_nil_r. split; [reflexivity|constructor].
  - destruct (get_indices.major_index (upper index) get_indices.MAJOR_INDICES)
      as [ticker|] eqn:Hm.
    + specialize (IH (ticker_list ++ [ticker])).
      destruct (get_indices.to_tickers rest (ticker_list ++ [ticker]))
        as [message|out].
      * destruct IH as (before & bad & after & -> & -> & Hb1 & Hb2 & Hb3).
        exists (index :: before), bad, after. repeat split; auto.
        constructor; [left; congruence|exact Hb3].
      * destruct IH as (-> & Hall). split.
        -- rewrite <- app_assoc. cbn. unfold index_ticker at 2.
           now rewrite Hm.
        -- constructor; [left; congruence|exact Hall].
    + destruct (get_indices.startswith_caret index) eqn:Hc.
      * specialize (IH (ticker_list ++ [upper index])).
        destruct (get_indices.to_tickers rest (ticker_list ++ [upper index]))
          as [message|out].
        -- destruct IH as (before & bad & after & -> & -> & Hb1 & Hb2 & Hb3).
           exists (index :: before), bad, after. repeat split; auto.
        -- destruct IH as (-> & Hall). split.
           ++ rewrite <- app_assoc. cbn. unfold index_ticker at 2.
              now rewrite Hm.
           ++ constructor; [right; exact Hc|exact Hall].
      * exists [], index, rest. repeat split; auto.
Qed.

(** X18: what [get_indices.validate_request] makes of a list of index
    names.  If it accepts, there is one ticker per name, in order: the
    ticker of MAJOR_INDICES for a name known in any letter case, the
    upper-cased name for one that starts with a caret; every ticker
    then starts with a caret and is in upper case.  If it refuses, the
    message names the first name that is neither.  It never raises. *)
Theorem X18_indices_validate_request :
  forall (request_data : request_body) (indices : list string),
    rq_indices request_data = TickersList indices ->
    indices <> [] ->
    match get_indices.validate_request request_data with
    | inr (inr ticker_list) =>
        ticker_list = map index_ticker indices
        /\ Forall (fun t => get_indices.startswith_caret t = true
                            /\ upper t = t) ticker_list
    | inr (inl message) =>
        exists before index after,
          indices = before ++ index :: after
          /\ message = "Unknown index: " +:+ index
          /\ get_indices.major_index (upper index) get_indices.MAJOR_INDICES
             = None
          /\ get_indices.startswith_caret index = false
          /\ Forall (fun index' =>
                       get_indices.major_index (upper index')
                         get_indices.MAJOR_INDICES <> None
                       \/ get_indices.startswith_caret index' = true) before
    | inl _ => False
    end.
Proof.
  intros request_data indices Hreq Hne.
  unfold get_indices.validate_request. rewrite Hreq.
  destruct indices as [|index rest]; [congruence|].
  cbn [tickers_truthy negb].
  pose proof (to_tickers_outcome (index :: rest) []) as Hout.
  destruct (get_indices.to_tickers (index :: rest) []) as [message|out];
    [exact Hout|].
  destruct Hout as (-> & Hall). split; [reflexivity|].
  cbn [app]. apply List.Forall_forall. intros t Ht.
  apply in_map_iff in Ht as (x & <- & Hx).
  rewrite List.Forall_forall in Hall.
  apply index_ticker_caret, Hall, Hx.
Qed.

Lemma X18_indices_validate_request_witness :
  match get_indices.validate_request (indices_of ["sp500"; "^vix"; "Dax"]) with
  | inr (inr ticker_list) =>
      ticker_list = map index_ticker ["sp500"; "^vix"; "Dax"]
      /\ Forall (fun t => get_indices.startswith_caret t = true
                          /\ upper t = t) ticker_list
  | inr (inl message) =>
      exists before index after,
        ["sp500"; "^vix"; "Dax"] = before ++ index :: after
        /\ message = "Unknown index: " +:+ index
        /\ get_indices.major_index (upper index) get_indices.MAJOR_INDICES
           = None
        /\ get_indices.startswith_caret index = false
        /\ Forall (fun index' =>
                     get_indices.major_index (upper index')
                       get_indices.MAJOR_INDICES <> None
                     \/ get_indices.startswith_caret index' = true) before
  | inl _ => False
  end.
Proof.
  apply (X18_indices_validate_request
           (indices_of ["sp500"; "^vix"; "Dax"]) ["sp500"; "^vix"; "Dax"]).
  - reflexivity.
  - discriminate.
Defined.

Section IndicesCalls.
Context {F : Type} {RT : PyRuntime F} {S : Type}.
Context (supabase : Storage (pydict F) S).
Context (yf_Ticker : string -> string + ticker_obj F).
Implicit Types (w : world (pydict F) S).

Import get_indices.

Lemma indices_check_cache_calls range interval ticker_list :
  forall results to_fetch w,
  exists hits misses w',
    check_cache supabase range interval ticker_list results to_fetch w
    = (inr (results ++ hits, to_fetch ++ misses), w')
    /\ (length hits + length misses = length ticker_list)%nat
    /\ ticker_calls (w_trace w') = ticker_calls (w_trace w)
    /\ Forall (fun entry => asset_type_of entry = Some (PStr "index")) hits.
Proof using Type.
  induction ticker_list as [|ticker rest IH]; intros results to_fetch w;
    cbn [check_cache].
  - exists [], [], w. rewrite !app_nil_r. repeat split. constructor.
  - unfold bind.
    destruct (get_cached_data_calls supabase ticker range interval w)
      as (v & w1 & -> & Hcalls).
    destruct v as [[|item items]|]; cbv beta iota.
    + destruct (IH results (to_fetch ++ [ticker]) w1)
        as (hits & misses & w' & -> & Hlen & Hc & Hall).
      exists hits, (ticker :: misses), w'. rewrite <- app_assoc.
      split; [reflexivity|]. split; [cbn; lia|]. split; [congruence|auto].
    + destruct (IH (results
                    ++ [PDict (dict_set "asset_type" (PStr "index")
                                 (dict_set "cached" (PBool true)
                                    (item :: items)))]) to_fetch w1)
        as (hits & misses & w' & -> & Hlen & Hc & Hall).
      eexists (_ :: hits), misses, w'. rewrite <- app_assoc.
      split; [reflexivity|]. split; [cbn; lia|]. split; [congruence|].
      constructor; [|exact Hall]. apply dict_get_set_same.
    + destruct (IH results (to_fetch ++ [ticker]) w1)
        as (hits & misses & w' & -> & Hlen & Hc & Hall).
      exists hits, (ticker :: misses), w'. rewrite <- app_assoc.
      split; [reflexivity|]. split; [cbn; lia|]. split; [congruence|auto].
Qed.

Lemma indices_fetch_one_calls range interval ih ticker w :
  exists entry w',
    fetch_one supabase yf_Ticker range interval ih ticker w = (inr entry, w')
    /\ ticker_calls (w_trace w') = ticker_calls (w_trace w) ++ [ticker]
    /\ asset_type_of entry = Some (PStr "index").
Proof using Type.
  unfold fetch_one, try_except, call_Ticker.
  unfold bind at 1.
  destruct (yf_Ticker ticker) as [msg|tk]; cbn [provider_result].
  - unfold ret. eexists. eexists. split; [reflexivity|]. cbn.
    now rewrite ticker_calls_app.
  - unfold bind at 1. rewrite normalize_ticker_data_run.
    unfold bind.
    match goal with
    | |- context [set_cached_data ?s ?t ?d ?r ?i ?w0] =>
        destruct (set_cached_data_calls s t d r i w0) as (b & w' & -> & Hc)
    end.
    unfold ret. eexists. eexists. split; [reflexivity|].
    split; [|apply dict_get_set_same].
    rewrite Hc. cbn. now rewrite app_nil_r, ticker_calls_app.
Qed.

Lemma indices_fetch_all_calls range interval ih to_fetch : forall results w,
  exists entries w',
    fetch_all supabase yf_Ticker range interval ih to_fetch results w
    = (inr (results ++ entries), w')
    /\ length entries = length to_fetch
    /\ ticker_calls (w_trace w') = ticker_calls (w_trace w) ++ to_fetch
    /\ Forall (fun entry => asset_type_of entry = Some (PStr "index"))
         entries.
Proof using Type.
  induction to_fetch as [|ticker rest IH]; intros results w;
    cbn [fetch_all].
  - exists [], w. rewrite !app_nil_r. repeat split. constructor.
  - unfold bind.
    destruct (indices_fetch_one_calls range interval ih ticker w)
      as (entry & w1 & -> & Hc1 & Htype).
    destruct (IH (results ++ [entry]) w1)
      as (entries & w' & -> & Hlen & Hc & Hall).
    exists (entry :: entries), w'. rewrite <- app_assoc.
    split; [reflexivity|]. split; [cbn; lia|]. split.
    + rewrite Hc, Hc1, <- app_assoc. reflexivity.
    + constructor; assumption.
Qed.

Lemma indices_handler_rejects method posted message w :
  validate_request (if String.eqb method "POST" then posted else empty_body)
  = inr (inl message) ->
  handler supabase yf_Ticker method posted w
  = (inr (mkResponse 400 (error_body message) json_headers), w).
Proof using Type.
  intros Hv. unfold handler, try_except. rewrite Hv.
  now rewrite bind_lift_inr.
Qed.

Lemma indices_handler_raises method posted e w :
  validate_request (if String.eqb method "POST" then posted else empty_body)
  = inl e ->
  handler supabase yf_Ticker method posted w
  = (inr (mkResponse 500
            (error_body ("Internal server error: " +:+ str_of_exn e))
            json_headers), w).
Proof using Type.
  intros Hv. unfold handler, try_except. rewrite Hv.
  now rewrite bind_lift_inl.
Qed.

Lemma indices_handler_unfold method posted ticker_list w checked w1 out w2 :
  let body := if String.eqb method "POST" then posted else empty_body in
  validate_request body = inr (inr ticker_list) ->
  check_cache supabase (get_or (rq_range body) "1d")
    (get_or (rq_interval body) "1d") ticker_list [] [] w
  = (inr checked, w1) ->
  fetch_all supabase yf_Ticker (get_or (rq_range body) "1d")
    (get_or (rq_interval body) "1d") (rq_include_history body)
    (snd checked) (fst checked) w1 = (inr out, w2) ->
  handler supabase yf_Ticker method posted w
  = (inr (mkResponse 200
            (get_multiple_stocks.batch_body out (snd checked))
            json_headers), w2).
Proof using Type.
  intros body Hv Hcheck Hfetch. unfold handler, try_except.
  fold body. rewrite Hv, bind_lift_inr. cbv beta iota.
  unfold bind. rewrite Hcheck, Hfetch. reflexivity.
Qed.
End IndicesCalls.

(** X19: given a parsed body whose indices are absent, text, a list
    of texts, an object or a nonzero number, the indices handler
    always answers.  A nonzero number cannot be iterated:
    [validate_request] raises and the answer is 500; an unknown name
    gives 400 with the message of [validate_request]; both before
    anything is called.  Otherwise (an object counts as the list of
    its keys) the answer is 200 with one entry per ticker; every
    entry, cached, fetched or failed, has ["asset_type"] "index", and
    the provider was called once for each ticker that was not served
    from the table, in order. *)
Theorem X19_indices_handler :
  forall (F : Type) (RT : PyRuntime F) (S : Type)
         (supabase : Storage (pydict F) S)
         (yf_Ticker : string -> string + ticker_obj F)
         (method : string) (posted : request_body)
         (w : world (pydict F) S),
  exists r w',
    get_indices.handler supabase yf_Ticker method posted w = (inr r, w')
    /\ match get_indices.validate_request
               (if String.eqb method "POST" then posted else empty_body) with
       | inl e =>
           r = mkResponse 500
                 (error_body ("Internal server error: " +:+ str_of_exn e))
                 json_headers
           /\ w' = w
       | inr (inl message) =>
           r = mkResponse 400 (error_body message) json_headers /\ w' = w
       | inr (inr ticker_list) =>
           exists results misses,
             r = mkResponse 200
                   (get_multiple_stocks.batch_body results misses)
                   json_headers
             /\ length results = length ticker_list
             /\ (length misses <= length results)%nat
             /\ Forall (fun entry =>
                          asset_type_of entry = Some (PStr "index")) results
             /\ ticker_calls (w_trace w')
                = ticker_calls (w_trace w) ++ misses
       end.
Proof.
  intros F RT S supabase yf_Ticker method posted w.
  destruct (get_indices.validate_request
              (if String.eqb method "POST" then posted else empty_body))
    as [e|[message|ticker_list]] eqn:Hv.
  - eexists; eexists. split;
      [exact (indices_handler_raises supabase yf_Ticker method posted e w Hv)|].
    split; reflexivity.
  - eexists; eexists. split;
      [exact (indices_handler_rejects supabase yf_Ticker method posted
                message w Hv)|].
    split; reflexivity.
  - set (body := if String.eqb method "POST" then posted else empty_body)
      in *.
    destruct (indices_check_cache_calls supabase
                (get_or (rq_range body) "1d") (get_or (rq_interval body) "1d")
                ticker_list [] [] w)
      as (hits & misses & w1 & Hcheck & Hlen & Hc1 & Hall1).
    destruct (indices_fetch_all_calls supabase yf_Ticker
                (get_or (rq_range body) "1d") (get_or (rq_interval body) "1d")
                (rq_include_history body) misses hits w1)
      as (fetched & w' & Hfetch & Hlen2 & Hc2 & Hall2).
    eexists; exists w'. split.
    + exact (indices_handler_unfold supabase yf_Ticker method posted
               ticker_list w _ w1 _ w' Hv Hcheck Hfetch).
    + exists (hits ++ fetched), misses. split; [reflexivity|].
      rewrite length_app. split; [lia|]. split; [lia|].
      split; [apply Forall_app; auto|congruence].
Qed.

(** X20: a request that is not a POST is answered for the ten major
    indices whatever body came with it. *)
Theorem X20_indices_get_default :
  forall (F : Type) (RT : PyRuntime F) (S : Type)
         (supabase : Storage (pydict F) S)
         (yf_Ticker : string -> string + ticker_obj F)
         (method : string) (posted : request_body)
         (w : world (pydict F) S),
    method <> "POST" ->
    exists results misses w',
      get_indices.handler supabase yf_Ticker method posted w
      = (inr (mkResponse 200
                (get_multiple_stocks.batch_body results misses)
                json_headers), w')
      /\ length results = 10%nat
      /\ get_indices.handler supabase yf_Ticker method posted w
         = get_indices.handler supabase yf_Ticker "POST" empty_body w.
Proof.
  intros F RT S supabase yf_Ticker method posted w Hmethod.
  assert (Hget : String.eqb method "POST" = false)
    by now apply String.eqb_neq.
  destruct (indices_check_cache_run supabase "1d" "1d"
              (map snd get_indices.MAJOR_INDICES) [] [] w)
    as (hits & misses & w1 & Hcheck & Hlen).
  destruct (indices_fetch_all_calls supabase yf_Ticker "1d" "1d" false
              misses hits w1)
    as (fetched & w' & Hfetch & Hlen2 & _ & _).
  exists (hits ++ fetched), misses, w'. split; [|split].
  - apply (indices_handler_unfold supabase yf_Ticker method posted
             (map snd get_indices.MAJOR_INDICES) w (hits, misses) w1
             (hits ++ fetched) w');
      rewrite Hget; [reflexivity|exact Hcheck|exact Hfetch].
  - rewrite length_app, Hlen2, Hlen. reflexivity.
  - unfold get_indices.handler. now rewrite Hget.
Qed.

(* ----------------------------------------------------------------- *)
(** ** Crypto pairs *)

Lemma supported_crypto_elem s :
  s ∈ get_crypto.SUPPORTED_CRYPTO <-> In s get_crypto.supported_list.
Proof.
  unfold get_crypto.SUPPORTED_CRYPTO, get_crypto.supported_list.
  rewrite !elem_of_union, !elem_of_singleton.
  simpl. intuition congruence.
Qed.

Lemma supported_pair_valid base :
  In base get_crypto.supported_list ->
  validate_ticker_symbol (base +:+ "-USD") = true
  /\ upper (base +:+ "-USD") = base +:+ "-USD"
  /\ char_in "-" (base +:+ "-USD") = true.
Proof.
  unfold get_crypto.supported_list. cbn [In].
  intros H.
  repeat (destruct H as [<-|H]; [repeat split; reflexivity|]).
  destruct H.
Qed.

Lemma char_in_hyphen_upper s : char_in "-" (upper s) = char_in "-" s.
Proof.
  induction s as [|c s IH]; [reflexivity|]. cbn. rewrite IH. f_equal.
  destruct c as [[] [] [] [] [] [] [] []]; reflexivity.
Qed.

Lemma check_format_accepts symbol result :
  get_crypto.check_format symbol = (true, result) ->
  validate_ticker_symbol symbol = true /\ result = upper symbol.
Proof.
  unfold get_crypto.check_format.
  destruct (validate_ticker_symbol symbol); cbn; [|discriminate].
  now intros [= <-].
Qed.

(** X21: for a symbol that is ASCII text, the symbol
    [get_crypto.validate_request] hands on is a pair in upper case
    that passes the symbol check: either the requested symbol, which
    then had a hyphen, or a supported currency with "-USD"
    appended. *)
Theorem X21_crypto_accepted_symbol :
  forall (request_data : crypto_body) (symbol result : string),
    cq_symbol request_data = Some symbol ->
    ascii_text symbol = true ->
    get_crypto.validate_request request_data = (true, result) ->
    validate_ticker_symbol result = true
    /\ upper result = result
    /\ char_in "-" result = true
    /\ ((char_in "-" symbol = true /\ result = upper symbol)
        \/ (char_in "-" symbol = false
            /\ In (upper symbol) get_crypto.supported_list
            /\ result = upper symbol +:+ "-USD")).
Proof.
  intros request_data symbol result Hsymbol _.
  unfold get_crypto.validate_request. rewrite Hsymbol.
  destruct (String.eqb symbol ""); [discriminate|].
  destruct (char_in "-" symbol) eqn:Hhyphen; cbn [negb].
  - intros Hcheck. apply check_format_accepts in Hcheck as (Hvalid & ->).
    rewrite validate_ticker_symbol_upper, upper_idem, char_in_hyphen_upper.
    repeat split; auto.
  - destruct (bool_decide (upper symbol ∈ get_crypto.SUPPORTED_CRYPTO))
      eqn:Hsup; cbn [negb]; [|discriminate].
    apply bool_decide_eq_true in Hsup. apply supported_crypto_elem in Hsup.
    destruct (supported_pair_valid _ Hsup) as (Hvalid & Hupper & Hpair).
    intros Hcheck. apply check_format_accepts in Hcheck as (_ & ->).
    rewrite Hupper. repeat split; auto.
Qed.

Lemma X21_crypto_accepted_symbol_witness :
  validate_ticker_symbol "BTC-USD" = true
  /\ upper "BTC-USD" = "BTC-USD"
  /\ char_in "-" "BTC-USD" = true
  /\ ((char_in "-" "btc" = true /\ "BTC-USD" = upper "btc")
      \/ (char_in "-" "btc" = false
          /\ In (upper "btc") get_crypto.supported_list
          /\ "BTC-USD" = upper "btc" +:+ "-USD")).
Proof.
  apply (X21_crypto_accepted_symbol (crypto_of "btc") "btc" "BTC-USD").
  - reflexivity.
  - reflexivity.
  - vm_compute. reflexivity.
Defined.

(** X22: how [get_crypto.validate_request] reads a symbol.  Without a
    hyphen, it is looked up in SUPPORTED_CRYPTO in any letter case and
    becomes the pair against USD, which always passes the format
    check; a name that is not supported is refused.  With a hyphen,
    SUPPORTED_CRYPTO is not consulted: the symbol check alone
    decides. *)
Theorem X22_crypto_symbol_forms :
  forall symbol : string,
    symbol <> "" ->
    get_crypto.validate_request (crypto_of symbol)
    = if char_in "-" symbol
      then if validate_ticker_symbol symbol
           then (true, upper symbol)
           else (false, "Invalid crypto symbol format: " +:+ symbol)
      else if bool_decide (In (upper symbol) get_crypto.supported_list)
           then (true, upper symbol +:+ "-USD")
           else (false, "Unsupported crypto symbol: " +:+ symbol
                        +:+ ". Use format like BTC-USD").
Proof.
  intros symbol Hne. unfold get_crypto.validate_request, crypto_of.
  cbn [cq_symbol].
  destruct (String.eqb_spec symbol ""); [congruence|].
  destruct (char_in "-" symbol); cbn [negb].
  - unfold get_crypto.check_format.
    now destruct (validate_ticker_symbol symbol).
  - rewrite (bool_decide_ext _ _ (supported_crypto_elem (upper symbol))).
    destruct (bool_decide (In (upper symbol) get_crypto.supported_list))
      eqn:Hsup; cbn [negb]; [|reflexivity].
    apply bool_decide_eq_true in Hsup.
    destruct (supported_pair_valid _ Hsup) as (Hvalid & Hupper & _).
    unfold get_crypto.check_format. now rewrite Hvalid, Hupper.
Qed.

Lemma X22_crypto_symbol_forms_witness :
  get_crypto.validate_request (crypto_of "doge") = (true, "DOGE-USD")
  /\ get_crypto.validate_request (crypto_of "pepe-usd") = (true, "PEPE-USD")
  /\ get_crypto.validate_request (crypto_of "pepe")
     = (false, "Unsupported crypto symbol: pepe. Use format like BTC-USD").
Proof.
  split; [|split].
  - rewrite (X22_crypto_symbol_forms "doge"); [|discriminate].
    vm_compute. reflexivity.
  - rewrite (X22_crypto_symbol_forms "pepe-usd"); [|discriminate].
    vm_compute. reflexivity.
  - rewrite (X22_crypto_symbol_forms "pepe"); [|discriminate].
    vm_compute. reflexivity.
Defined.

(** X23: the crypto handler always answers, and how is decided by
    [validate_request], the read of the table and the provider, in
    this order.  A refused symbol gives 400 with the message of
    [validate_request], the world left as it was.  For an accepted
    one the table is read under the pair: a payload that is not empty
    is sent back with ["cached"] true and ["asset_type"] "crypto", in
    the world the read left.  Otherwise [yf.Ticker] is called once for
    the pair: if it raises, the answer is 500 with its message; if the
    quote has the error flag, 404 with that quote, nothing stored;
    else the quote with ["cached"] false and ["asset_type"] "crypto"
    is handed to [set_cached_data] and sent with status 200. *)
Theorem X23_crypto_handler :
  forall (F : Type) (RT : PyRuntime F) (S : Type)
         (supabase : Storage (pydict F) S)
         (yf_Ticker : string -> string + ticker_obj F)
         (request : crypto_body) (w : world (pydict F) S),
  exists r w',
    get_crypto.handler supabase yf_Ticker request w = (inr r, w')
    /\ match get_crypto.validate_request request with
       | (false, message) =>
           r = mkResponse 400 (error_body message) json_headers /\ w' = w
       | (true, symbol) =>
           exists cached w1,
             get_cached_data supabase symbol
               (get_or (cq_range request) "1mo")
               (get_or (cq_interval request) "1d") w = (inr cached, w1)
             /\ match cached with
                | Some (item :: items) =>
                    r = mkResponse 200
                          (PDict (dict_set "asset_type" (PStr "crypto")
                                    (dict_set "cached" (PBool true)
                                       (item :: items))))
                          json_headers
                    /\ w' = w1
                | _ =>
                    match yf_Ticker symbol with
                    | inl reason =>
                        r = mkResponse 500
                              (error_body
                                 ("Internal server error: "
                                  +:+ str_of_exn (ProviderError reason)))
                              json_headers
                        /\ w' = advance w1 (w_store w1) 0 [EvTicker symbol]
                    | inr tk =>
                        let quote :=
                          quote_at tk (cq_include_history request)
                            (get_or (cq_range request) "1mo")
                            (w_clock w1 (w_reads w1)) in
                        if fails_to_normalize tk (cq_include_history request)
                             (get_or (cq_range request) "1mo")
                        then
                          r = mkResponse 404 (PDict quote) json_headers
                          /\ w' = advance w1 (w_store w1) 1 [EvTicker symbol]
                        else
                          r = mkResponse 200
                                (PDict
                                   (dict_set "asset_type" (PStr "crypto")
                                      (dict_set "cached" (PBool false)
                                         quote)))
                                json_headers
                          /\ exists stored,
                               set_cached_data supabase symbol
                                 (dict_set "asset_type" (PStr "crypto")
                                    (dict_set "cached" (PBool false) quote))
                                 (get_or (cq_range request) "1mo")
                                 (get_or (cq_interval request) "1d")
                                 (advance w1 (w_store w1) 1 [EvTicker symbol])
                               = (inr stored, w')
                    end
                end
       end.
Proof.
  intros F RT S supabase yf_Ticker request w.
  unfold get_crypto.handler, try_except.
  destruct (get_crypto.validate_request request) as [[|] result];
    cbn [negb]; [|eexists; eexists; split; [reflexivity|split; reflexivity]].
  unfold bind at 1.
  destruct (get_cached_data_returns supabase result
              (get_or (cq_range request) "1mo")
              (get_or (cq_interval request) "1d") w)
    as (c & w1 & Hget).
  rewrite Hget.
  assert (Hmiss :
    exists r w',
      match
        (let! ticker_obj := call_Ticker yf_Ticker result in
         let! normalized_data :=
           normalize_ticker_data ticker_obj (cq_include_history request)
             (get_or (cq_range request) "1mo") in
         if dict_has "error" normalized_data
         then ret (mkResponse 404 (PDict normalized_data) json_headers)
         else
           let! _ := set_cached_data supabase result
                       (dict_set "asset_type" (PStr "crypto")
                          (dict_set "cached" (PBool false) normalized_data))
                       (get_or (cq_range request) "1mo")
                       (get_or (cq_interval request) "1d") in
           ret (mkResponse 200
                  (PDict (dict_set "asset_type" (PStr "crypto")
                            (dict_set "cached" (PBool false)
                               normalized_data)))
                  json_headers)) w1
      with
      | (inl e, w2) =>
          (ret (mkResponse 500
                  (error_body ("Internal server error: " +:+ str_of_exn e))
                  json_headers) : M (world (pydict F) S) (response F)) w2
      | (inr a, w2) => (inr a, w2)
      end = (inr r, w')
      /\ match yf_Ticker result with
         | inl reason =>
             r = mkResponse 500
                   (error_body ("Internal server error: "
                                +:+ str_of_exn (ProviderError reason)))
                   json_headers
             /\ w' = advance w1 (w_store w1) 0 [EvTicker result]
         | inr tk =>
             if fails_to_normalize tk (cq_include_history request)
                  (get_or (cq_range request) "1mo")
             then
               r = mkResponse 404
                     (PDict (quote_at tk (cq_include_history request)
                               (get_or (cq_range request) "1mo")
                               (w_clock w1 (w_reads w1))))
                     json_headers
               /\ w' = advance w1 (w_store w1) 1 [EvTicker result]
             else
               r = mkResponse 200
                     (PDict
                        (dict_set "asset_type" (PStr "crypto")
                           (dict_set "cached" (PBool false)
                              (quote_at tk (cq_include_history request)
                                 (get_or (cq_range request) "1mo")
                                 (w_clock w1 (w_reads w1))))))
                     json_headers
               /\ exists stored,
                    set_cached_data supabase result
                      (dict_set "asset_type" (PStr "crypto")
                         (dict_set "cached" (PBool false)
                            (quote_at tk (cq_include_history request)
                               (get_or (cq_range request) "1mo")
                               (w_clock w1 (w_reads w1)))))
                      (get_or (cq_range request) "1mo")
                      (get_or (cq_interval request) "1d")
                      (advance w1 (w_store w1) 1 [EvTicker result])
                    = (inr stored, w')
         end).
  { unfold bind at 1, call_Ticker.
    destruct (yf_Ticker result) as [reason|tk]; cbn [provider_result].
    - unfold ret, advance. eexists; eexists. split; [reflexivity|].
      split; [reflexivity|]. now rewrite Nat.add_0_r.
    - unfold bind at 1. rewrite normalize_ticker_data_run.
      cbn [w_clock w_reads w_store w_trace].
      rewrite error_flag_any_clock.
      destruct (fails_to_normalize tk (cq_include_history request)
                  (get_or (cq_range request) "1mo")).
      + unfold ret, advance. cbn [w_clock w_reads w_store w_trace].
        rewrite app_nil_r.
        eexists; eexists. split; [reflexivity|]. split; reflexivity.
      + unfold bind.
        match goal with
        | |- context [set_cached_data ?s ?t ?d ?r ?i ?w0] =>
            destruct (set_cached_data_returns s t d r i w0)
              as (b & w' & Hset)
        end.
        rewrite Hset. unfold ret. eexists; eexists.
        split; [reflexivity|]. split; [reflexivity|].
        exists b. rewrite <- Hset. unfold advance.
        cbn [w_clock w_reads w_store w_trace]. now rewrite app_nil_r. }
  destruct Hmiss as (r & w' & Hrun & Hshape).
  destruct c as [[|item items]|]; cbv beta iota.
  - exists r, w'. split; [exact Hrun|]. exists (Some []), w1.
    split; [reflexivity|exact Hshape].
  - eexists; eexists. split; [reflexivity|].
    exists (Some (item :: items)), w1. repeat split.
  - exists r, w'. split; [exact Hrun|]. exists None, w1.
    split; [reflexivity|exact Hshape].
Qed.
Lemma X23_crypto_handler_witness :
  (exists r w',
      get_crypto.handler mem_table sample_provider (crypto_of "pepe")
        quiet_world = (inr r, w')
      /\ r = mkResponse 400
               (error_body
                  "Unsupported crypto symbol: pepe. Use format like BTC-USD")
               json_headers
      /\ w' = quiet_world)
  /\ (exists r w',
        get_crypto.handler mem_table down_provider (crypto_of "btc")
          crypto_cached_world = (inr r, w')
        /\ r = mkResponse 200
                 (PDict [ ("ticker", PStr "BTC-USD");
                          ("price", PFloat (60000 # 1));
                          ("cached", PBool true);
                          ("asset_type", PStr "crypto") ])
                 json_headers
        /\ ticker_calls (w_trace w') = [])
  /\ (exists r w',
        get_crypto.handler mem_table down_provider (crypto_of "btc")
          quiet_world = (inr r, w')
        /\ r = mkResponse 500
                 (error_body "Internal server error: connection reset")
                 json_headers
        /\ ticker_calls (w_trace w') = ["BTC-USD"])
  /\ (exists r w',
        get_crypto.handler mem_table steady_provider (crypto_of "btc")
          quiet_world = (inr r, w')
        /\ r = mkResponse 200
                 (PDict (dict_set "asset_type" (PStr "crypto")
                           (dict_set "cached" (PBool false)
                              (quote_at rising_ticker false "1mo"
                                 1700000000000000))))
                 json_headers
        /\ ticker_calls (w_trace w') = ["BTC-USD"]
        /\ w_store w' !! "yf:BTC-USD:1mo:1d"
           = Some (mkRow
                     (dict_set "asset_type" (PStr "crypto")
                        (dict_set "cached" (PBool false)
                           (quote_at rising_ticker false "1mo"
                              1700000000000000)))
                     (1700000000000000 + 300 * MICROSECONDS))).
Proof.
  split; [|split; [|split]].
  - destruct (X23_crypto_handler Q q_runtime _ mem_table sample_provider
                (crypto_of "pepe") quiet_world)
      as (r & w' & Hrun & Hcase).
    change (get_crypto.validate_request (crypto_of "pepe"))
      with (false, "Unsupported crypto symbol: pepe. Use format like BTC-USD")
      in Hcase.
    cbv beta iota in Hcase. destruct Hcase as (Hr & Hw).
    exists r, w'. auto.
  - destruct (X23_crypto_handler Q q_runtime _ mem_table down_provider
                (crypto_of "btc") crypto_cached_world)
      as (r & w' & Hrun & Hcase).
    change (get_crypto.validate_request (crypto_of "btc"))
      with (true, "BTC-USD") in Hcase.
    cbv beta iota in Hcase.
    destruct Hcase as (cached & w1 & Hget & Hcase).
    assert (Hhit :
      (@inr exn _ cached, w1)
      = (inr (Some [ ("ticker", PStr "BTC-USD");
                     ("price", PFloat (60000 # 1));
                     ("cached", PBool false);
                     ("asset_type", PStr "crypto") ]),
         advance crypto_cached_world (w_store crypto_cached_world) 1
           [EvSelect "yf:BTC-USD:1mo:1d"])).
    { rewrite <- Hget.
      apply (get_cached_data_hit "BTC-USD" "1mo" "1d" crypto_cached_world
               (mkRow [ ("ticker", PStr "BTC-USD");
                        ("price", PFloat (60000 # 1));
                        ("cached", PBool false);
                        ("asset_type", PStr "crypto") ] 100)).
      - vm_compute. reflexivity.
      - cbn. lia. }
    injection Hhit as -> ->. cbv beta iota in Hcase.
    destruct Hcase as (-> & ->).
    eexists; eexists. split; [exact Hrun|]. split; reflexivity.
  - destruct (X23_crypto_handler Q q_runtime _ mem_table down_provider
                (crypto_of "btc") quiet_world)
      as (r & w' & Hrun & Hcase).
    change (get_crypto.validate_request (crypto_of "btc"))
      with (true, "BTC-USD") in Hcase.
    cbv beta iota in Hcase.
    destruct Hcase as (cached & w1 & Hget & Hcase).
    assert (Hmiss :
      (@inr exn _ cached, w1)
      = (inr None,
         advance quiet_world (w_store quiet_world) 0
           [EvSelect "yf:BTC-USD:1mo:1d"])).
    { rewrite <- Hget.
      apply (get_cached_data_miss "BTC-USD" "1mo" "1d" quiet_world).
      apply lookup_empty. }
    injection Hmiss as -> ->. cbv beta iota in Hcase.
    destruct Hcase as (-> & ->).
    eexists; eexists. split; [exact Hrun|]. split; reflexivity.
  - destruct (X23_crypto_handler Q q_runtime _ mem_table steady_provider
                (crypto_of "btc") quiet_world)
      as (r & w' & Hrun & Hcase).
    change (get_crypto.validate_request (crypto_of "btc"))
      with (true, "BTC-USD") in Hcase.
    cbv beta iota in Hcase.
    destruct Hcase as (cached & w1 & Hget & Hcase).
    assert (Hmiss :
      (@inr exn _ cached, w1)
      = (inr None,
         advance quiet_world (w_store quiet_world) 0
           [EvSelect "yf:BTC-USD:1mo:1d"])).
    { rewrite <- Hget.
      apply (get_cached_data_miss "BTC-USD" "1mo" "1d" quiet_world).
      apply lookup_empty. }
    injection Hmiss as -> ->.
    change (steady_provider "BTC-USD") with (@inr string _ rising_ticker)
      in Hcase.
    cbv beta iota zeta in Hcase.
    assert (Hok : fails_to_normalize rising_ticker
                    (cq_include_history (crypto_of "btc"))
                    (get_or (cq_range (crypto_of "btc")) "1mo") = false)
      by (vm_compute; reflexivity).
    rewrite Hok in Hcase. destruct Hcase as (-> & stored & Hset).
    rewrite set_cached_data_mem in Hset. injection Hset as _ <-.
    eexists; eexists. split; [exact Hrun|]. split; [reflexivity|].
    split; [reflexivity|]. apply lookup_insert_eq.
Defined.

(* ----------------------------------------------------------------- *)
(** ** Instances on the sample worlds *)

Lemma X11_stock_cache_hit_witness :
  exists w',
    get_stock.handler mem_table sample_provider (stock_of "aapl") cached_world
    = (inr (mkResponse 200
              (PDict [ ("ticker", PStr "AAPL"); ("price", PFloat (110 # 1));
                       ("cached", PBool true) ])
              json_headers), w')
    /\ w_store w' = w_store cached_world
    /\ ticker_calls (w_trace w') = [].
Proof.
  destruct (X11_stock_cache_hit Q q_runtime sample_provider (stock_of "aapl")
              cached_world
              (mkRow [ ("ticker", PStr "AAPL"); ("price", PFloat (110 # 1));
                       ("cached", PBool false) ] 100))
    as (w' & Hrun & Hstore & Hcalls & _).
  - reflexivity.
  - vm_compute. reflexivity.
  - cbn. lia.
  - discriminate.
  - exists w'. split; [exact Hrun|]. split; [exact Hstore|exact Hcalls].
Defined.

Lemma X12_stock_read_through_witness :
  exists w1 w2,
    let quote := quote_at rising_ticker false "1mo" 1700000000000000 in
    get_stock.handler mem_table sample_provider (stock_of "aapl") quiet_world
    = (inr (mkResponse 200 (PDict (dict_set "cached" (PBool false) quote))
              json_headers), w1)
    /\ get_stock.handler mem_table sample_provider (stock_of "aapl") w1
       = (inr (mkResponse 200 (PDict (dict_set "cached" (PBool true) quote))
                 json_headers), w2)
    /\ ticker_calls (w_trace w2) = ["AAPL"]
    /\ w_store w2 = w_store w1.
Proof.
  apply (X12_stock_read_through Q q_runtime sample_provider (stock_of "aapl")
           quiet_world rising_ticker).
  - reflexivity.
  - vm_compute. reflexivity.
  - reflexivity.
  - vm_compute. reflexivity.
  - vm_compute. discriminate.
Defined.

Lemma X13_stock_fail_open_witness :
  exists w',
    get_stock.handler (down_table (StorageError "unreachable"))
      sample_provider (stock_of "aapl") down_quotes_world
    = (inr (mkResponse 200
              (PDict (dict_set "cached" (PBool false)
                        (quote_at rising_ticker false "1mo"
                           1700000000000000)))
              json_headers), w')
    /\ ticker_calls (w_trace w') = ["AAPL"].
Proof.
  apply (X13_stock_fail_open Q q_runtime unit
           (down_table (StorageError "unreachable")) sample_provider
           (stock_of "aapl") down_quotes_world rising_ticker).
  - reflexivity.
  - eexists. eexists. reflexivity.
  - reflexivity.
  - vm_compute. reflexivity.
Defined.

Lemma X16_quote_history_witness :
  dict_has "history" (quote_at trending_ticker false "1mo" 0) = false
  /\ exists series,
       t_history trending_ticker "1mo" = inr series
       /\ dict_get "history" (quote_at trending_ticker true "1mo" 0)
          = match series with
            | [] => None
            | _ => Some (PList (_normalize_history series))
            end
       /\ length (_normalize_history series) = length series.
Proof.
  split.
  - destruct (X16_quote_history Q q_runtime trending_ticker false "1mo" 0)
      as (Hnone & _); [vm_compute; reflexivity|].
    apply Hnone. reflexivity.
  - destruct (X16_quote_history Q q_runtime trending_ticker true "1mo" 0)
      as (_ & Hsome); [vm_compute; reflexivity|].
    apply Hsome. reflexivity.
Defined.

Lemma X20_indices_get_default_witness :
  exists results misses w',
    get_indices.handler mem_table sample_provider "GET"
      (indices_of ["DAX"]) quiet_world
    = (inr (mkResponse 200
              (get_multiple_stocks.batch_body results misses)
              json_headers), w')
    /\ length results = 10%nat
    /\ get_indices.handler mem_table sample_provider "GET"
         (indices_of ["DAX"]) quiet_world
       = get_indices.handler mem_table sample_provider "POST" empty_body
           quiet_world.
Proof.
  apply (X20_indices_get_default Q q_runtime _ mem_table sample_provider "GET"
           (indices_of ["DAX"]) quiet_world).
  discriminate.
Defined.

Lemma X10_stock_statuses_witness :
  exists r w',
    get_stock.handler mem_table sample_provider (stock_of "BRK/B") quiet_world
    = (inr r, w')
    /\ statusCode r = 400
    /\ w' = quiet_world.
Proof.
  destruct (X10_stock_statuses Q q_runtime _ mem_table sample_provider
              (stock_of "BRK/B") quiet_world)
    as (r & w' & Hrun & _ & _ & Hbad & Hsame & _).
  assert (Hstatus : statusCode r = 400) by (apply Hbad; reflexivity).
  exists r, w'. auto.
Defined.

Lemma X15_quote_core_fields_witness :
  map fst (quote_at delisted_ticker false "1mo" 0)
  = ["ticker"; "error"; "price"; "change_percent"; "timestamp"]
  /\ dict_get "ticker" (quote_at delisted_ticker false "1mo" 0)
     = Some (PStr "GONE")
  /\ dict_get "price" (quote_at delisted_ticker false "1mo" 0)
     = Some (PInt 0)
  /\ dict_get "change_percent" (quote_at delisted_ticker false "1mo" 0)
     = Some (PInt 0).
Proof.
  destruct (X15_quote_core_fields Q q_runtime delisted_ticker false "1mo" 0)
    as (_ & _ & _ & _ & Herror).
  apply Herror. vm_compute. reflexivity.
Defined.

Lemma X19_indices_handler_witness :
  (exists r w' results misses,
      get_indices.handler mem_table sample_provider "POST"
        (indices_of ["sp500"; "^vix"]) quiet_world = (inr r, w')
      /\ r = mkResponse 200 (get_multiple_stocks.batch_body results misses)
               json_headers
      /\ length results = 2%nat
      /\ Forall (fun entry => asset_type_of entry = Some (PStr "index"))
           results
      /\ ticker_calls (w_trace w') = misses)
  /\ (exists r w' results misses,
        get_indices.handler mem_table sample_provider "POST"
          (mkBody None TickersAbsent (TickersObject ["dax"]) TickersAbsent
             None None false) quiet_world = (inr r, w')
        /\ r = mkResponse 200 (get_multiple_stocks.batch_body results misses)
                 json_headers
        /\ length results = 1%nat)
  /\ (exists r w',
        get_indices.handler mem_table sample_provider "POST"
          (mkBody None TickersAbsent TickersOther TickersAbsent
             None None false) quiet_world = (inr r, w')
        /\ r = mkResponse 500
                 (error_body
                    ("Internal server error: " +:+ str_of_exn TypeError))
                 json_headers
        /\ w' = quiet_world).
Proof.
  split; [|split].
  - destruct (X19_indices_handler Q q_runtime _ mem_table sample_provider
                "POST" (indices_of ["sp500"; "^vix"]) quiet_world)
      as (r & w' & Hrun & Hcase).
    change (get_indices.validate_request
              (if String.eqb "POST" "POST"
               then indices_of ["sp500"; "^vix"] else empty_body))
      with (@inr exn _ (@inr string _ ["^GSPC"; "^VIX"])) in Hcase.
    cbv beta iota in Hcase.
    destruct Hcase as (results & misses & Hr & Hlen & _ & Hall & Hcalls).
    exists r, w', results, misses. auto.
  - destruct (X19_indices_handler Q q_runtime _ mem_table sample_provider
                "POST"
                (mkBody None TickersAbsent (TickersObject ["dax"])
                   TickersAbsent None None false) quiet_world)
      as (r & w' & Hrun & Hcase).
    change (get_indices.validate_request
              (if String.eqb "POST" "POST"
               then mkBody None TickersAbsent (TickersObject ["dax"])
                      TickersAbsent None None false
               else empty_body))
      with (@inr exn _ (@inr string _ ["^GDAXI"])) in Hcase.
    cbv beta iota in Hcase.
    destruct Hcase as (results & misses & Hr & Hlen & _).
    exists r, w', results, misses. auto.
  - destruct (X19_indices_handler Q q_runtime _ mem_table sample_provider
                "POST"
                (mkBody None TickersAbsent TickersOther TickersAbsent
                   None None false) quiet_world)
      as (r & w' & Hrun & Hcase).
    change (get_indices.validate_request
              (if String.eqb "POST" "POST"
               then mkBody None TickersAbsent TickersOther TickersAbsent
                      None None false
               else empty_body))
      with (@inl exn (string + list string) TypeError) in Hcase.
    cbv beta iota in Hcase. destruct Hcase as (Hr & Hw).
    exists r, w'. auto.
Defined.

(* ----------------------------------------------------------------- *)
(** ** Batches on a table held in memory *)

Section MemReadOutcome.
Context {P : Type}.
Implicit Types (w : world P (gmap string (Row P))).

(** What a read of the table in memory returns, and what it leaves. *)
Lemma get_cached_data_mem_outcome ticker range interval w :
  exists c w1,
    get_cached_data mem_table ticker range interval w = (inr c, w1)
    /\ w_clock w1 = w_clock w
    /\ (w_reads w <= w_reads w1)%nat
    /\ ticker_calls (w_trace w1) = ticker_calls (w_trace w)
    /\ (forall k row, w_store w1 !! k = Some row -> w_store w !! k = Some row)
    /\ (forall k, w_store w !! k = None -> w_store w1 !! k = None)
    /\ (forall k row,
          w_store w !! k = Some row ->
          w_store w1 !! k = Some row
          \/ expires_at row < w_clock w (w_reads w))
    /\ match c with
       | Some payload =>
           exists row,
             w_store w !! get_cache_key ticker range interval = Some row
             /\ payload = data row
             /\ w_clock w (w_reads w) <= expires_at row
       | None =>
           forall row,
             w_store w !! get_cache_key ticker range interval = Some row ->
             expires_at row < w_clock w (w_reads w)
       end.
Proof.
  destruct (w_store w !! get_cache_key ticker range interval)
    as [row|] eqn:Hk.
  - destruct (Z_lt_le_dec (expires_at row) (w_clock w (w_reads w)))
      as [Hexp|Hlive].
    + eexists; eexists.
      split; [exact (get_cached_data_expired _ _ _ _ _ Hk Hexp)|].
      cbn. split; [reflexivity|]. split; [lia|]. split.
      { rewrite ticker_calls_app. cbn. apply app_nil_r. }
      split; [|split; [|split]].
      * intros k r Hr. apply lookup_delete_Some in Hr. tauto.
      * intros k Hnone. apply lookup_delete_None. now right.
      * intros k r Hr.
        destruct (decide (get_cache_key ticker range interval = k))
          as [<-|Hne].
        -- right. congruence.
        -- left. now rewrite lookup_delete_ne.
      * intros r [= <-]. exact Hexp.
    + eexists; eexists.
      split; [exact (get_cached_data_hit _ _ _ _ _ Hk Hlive)|].
      cbn. split; [reflexivity|]. split; [lia|]. split.
      { rewrite ticker_calls_app. cbn. apply app_nil_r. }
      split; [auto|]. split; [auto|]. split; [auto|]. exists row. auto.
  - eexists; eexists.
    split; [exact (get_cached_data_miss _ _ _ _ Hk)|].
    cbn. split; [reflexivity|]. split; [lia|]. split.
    { rewrite ticker_calls_app. cbn. apply app_nil_r. }
    split; [auto|]. split; [auto|]. split; [auto|].
    intros r Hr. discriminate.
Qed.
End MemReadOutcome.

Section BatchMemAccounting.
Context {F : Type}.
Implicit Types (w : world (pydict F) (gmap string (Row (pydict F)))).

Import get_multiple_stocks.

(** The loop that reads the table: which tickers it serves, and from
    which rows. *)
Lemma check_cache_mem_rows range interval ticker_list :
  forall results to_fetch w,
  exists hits misses w',
    check_cache mem_table range interval ticker_list results to_fetch w
    = (inr (results ++ hits, to_fetch ++ misses), w')
    /\ (length hits + length misses = length ticker_list)%nat
    /\ (forall t, In t misses -> In t ticker_list)
    /\ (forall t, In t ticker_list ->
          w_store w !! get_cache_key t range interval = None ->
          In t misses)
    /\ (Forall (fun t => w_store w !! get_cache_key t range interval = None)
          ticker_list ->
        hits = [] /\ misses = ticker_list)
    /\ Forall (fun hit =>
                 exists t row n,
                   In t ticker_list
                   /\ w_store w !! get_cache_key t range interval = Some row
                   /\ w_clock w n <= expires_at row
                   /\ data row <> []
                   /\ hit = PDict (dict_set "cached" (PBool true) (data row)))
         hits
    /\ ticker_calls (w_trace w') = ticker_calls (w_trace w)
    /\ (forall t row,
          In t misses ->
          w_store w !! get_cache_key t range interval = Some row ->
          data row = [] \/ exists n, expires_at row < w_clock w n).
Proof using Type.
  induction ticker_list as [|ticker rest IH]; intros results to_fetch w;
    cbn [check_cache].
  - exists [], [], w. rewrite !app_nil_r.
    repeat split; try tauto; [constructor|]. intros t row [].
  - unfold bind.
    destruct (get_cached_data_mem_outcome ticker range interval w)
      as (c & w1 & Hget & Hclock & _ & Hcalls & Hsub & Hkeep & Hgone & Hc).
    rewrite Hget.
    assert (Hlift : forall misses : list string,
      (forall t row,
          In t misses ->
          w_store w1 !! get_cache_key t range interval = Some row ->
          data row = [] \/ exists n, expires_at row < w_clock w1 n) ->
      forall t row,
        In t misses ->
        w_store w !! get_cache_key t range interval = Some row ->
        data row = [] \/ exists n, expires_at row < w_clock w n).
    { intros misses Hmisses t row Ht Hrow.
      destruct (Hgone _ _ Hrow) as [Hstill|Hexp]; [|right; eauto].
      rewrite <- Hclock. eauto. }
    assert (Hmiss_case :
      forall (Hnone : c = None \/ c = Some []),
      exists hits misses w',
        check_cache mem_table range interval rest results
          (to_fetch ++ [ticker]) w1
        = (inr (results ++ hits, to_fetch ++ misses), w')
        /\ (length hits + length misses = length (ticker :: rest))%nat
        /\ (forall t, In t misses -> In t (ticker :: rest))
        /\ (forall t, In t (ticker :: rest) ->
              w_store w !! get_cache_key t range interval = None ->
              In t misses)
        /\ (Forall (fun t =>
                      w_store w !! get_cache_key t range interval = None)
              (ticker :: rest) ->
            hits = [] /\ misses = ticker :: rest)
        /\ Forall (fun hit =>
                     exists t row n,
                       In t (ticker :: rest)
                       /\ w_store w !! get_cache_key t range interval
                          = Some row
                       /\ w_clock w n <= expires_at row
                       /\ data row <> []
                       /\ hit = PDict (dict_set "cached" (PBool true)
                                         (data row)))
             hits
        /\ ticker_calls (w_trace w') = ticker_calls (w_trace w)
        /\ (forall t row,
              In t misses ->
              w_store w !! get_cache_key t range interval = Some row ->
              data row = [] \/ exists n, expires_at row < w_clock w n)).
    { intros Hfalsy.
      destruct (IH results (to_fetch ++ [ticker]) w1)
        as (hits & misses & w' & Hrun & Hlen & Hin & Hcold & Hall & Hhits
            & Hc' & Hmisses).
      exists hits, (ticker :: misses), w'.
      rewrite Hrun, <- app_assoc.
      split; [reflexivity|]. split; [cbn; lia|]. split.
      { intros t [->|Ht]; [now left | right; auto]. }
      split.
      { intros t [->|Ht] Hnone; [now left | right; auto]. }
      split.
      { intros Hforall. apply Forall_cons in Hforall as (_ & Hrest).
        destruct Hall as (-> & ->).
        - eapply Forall_impl; [exact Hrest|]. intros t Ht. auto.
        - auto. }
      split.
      { eapply Forall_impl; [exact Hhits|].
        intros hit (t & row & n & Ht & Hrow & Hlive & Hdata & ->).
        exists t, row, n. rewrite <- Hclock.
        repeat split; auto. now right. }
      split; [congruence|].
      intros t row [<-|Ht] Hrow; [|exact (Hlift misses Hmisses t row Ht Hrow)].
      destruct Hfalsy as [Hc0|Hc0]; rewrite Hc0 in Hc.
      - right. exists (w_reads w). now apply Hc.
      - left. destruct Hc as (row' & Hrow' & Hdata & _). congruence. }
    destruct c as [[|item items]|]; cbv beta iota.
    + destruct (Hmiss_case (or_intror eq_refl))
        as (hits & misses & w' & -> & Hrest).
      exists hits, misses, w'. split; [reflexivity|exact Hrest].
    + destruct Hc as (row & Hrow & Hdata & Hlive).
      destruct (IH (results ++ [PDict (dict_set "cached" (PBool true)
                                        (item :: items))]) to_fetch w1)
        as (hits & misses & w' & -> & Hlen & Hin & Hcold & Hall & Hhits
            & Hc' & Hmisses).
      eexists (_ :: hits), misses, w'. rewrite <- app_assoc.
      split; [reflexivity|]. split; [cbn; lia|]. split.
      { intros t Ht. right. auto. }
      split.
      { intros t [->|Ht] Hnone; [congruence|auto]. }
      split.
      { intros Hforall. apply Forall_cons in Hforall as (Hnone & _).
        congruence. }
      split; [|split; [congruence|exact (Hlift misses Hmisses)]].
      constructor.
      * exists ticker, row, (w_reads w). rewrite <- Hdata.
        split; [now left|]. split; [exact Hrow|]. split; [exact Hlive|].
        split; [discriminate|reflexivity].
      * eapply Forall_impl; [exact Hhits|].
        intros hit (t & row' & n & Ht & Hrow' & Hlive' & Hdata' & ->).
        exists t, row', n. rewrite <- Hclock.
        repeat split; auto. now right.
    + destruct (Hmiss_case (or_introl eq_refl))
        as (hits & misses & w' & -> & Hrest).
      exists hits, misses, w'. split; [reflexivity|exact Hrest].
Qed.
End BatchMemAccounting.

Section IndicesMemAccounting.
Context {F : Type}.
Implicit Types (w : world (pydict F) (gmap string (Row (pydict F)))).

Import get_indices.

Lemma indices_check_cache_mem_rows range interval ticker_list :
  forall results to_fetch w,
  exists hits misses w',
    check_cache mem_table range interval ticker_list results to_fetch w
    = (inr (results ++ hits, to_fetch ++ misses), w')
    /\ (length hits + length misses = length ticker_list)%nat
    /\ (forall t, In t misses -> In t ticker_list)
    /\ (forall t, In t ticker_list ->
          w_store w !! get_cache_key t range interval = None ->
          In t misses)
    /\ (Forall (fun t => w_store w !! get_cache_key t range interval = None)
          ticker_list ->
        hits = [] /\ misses = ticker_list)
    /\ Forall (fun hit =>
                 exists t row n,
                   In t ticker_list
                   /\ w_store w !! get_cache_key t range interval = Some row
                   /\ w_clock w n <= expires_at row
                   /\ data row <> []
                   /\ hit = PDict (dict_set "asset_type" (PStr "index")
                                     (dict_set "cached" (PBool true)
                                        (data row))))
         hits
    /\ ticker_calls (w_trace w') = ticker_calls (w_trace w)
    /\ (forall t row,
          In t misses ->
          w_store w !! get_cache_key t range interval = Some row ->
          data row = [] \/ exists n, expires_at row < w_clock w n).
Proof using Type.
  induction ticker_list as [|ticker rest IH]; intros results to_fetch w;
    cbn [check_cache].
  - exists [], [], w. rewrite !app_nil_r.
    repeat split; try tauto; [constructor|]. intros t row [].
  - unfold bind.
    destruct (get_cached_data_mem_outcome ticker range interval w)
      as (c & w1 & Hget & Hclock & _ & Hcalls & Hsub & Hkeep & Hgone & Hc).
    rewrite Hget.
    assert (Hlift : forall misses : list string,
      (forall t row,
          In t misses ->
          w_store w1 !! get_cache_key t range interval = Some row ->
          data row = [] \/ exists n, expires_at row < w_clock w1 n) ->
      forall t row,
        In t misses ->
        w_store w !! get_cache_key t range interval = Some row ->
        data row = [] \/ exists n, expires_at row < w_clock w n).
    { intros misses Hmisses t row Ht Hrow.
      destruct (Hgone _ _ Hrow) as [Hstill|Hexp]; [|right; eauto].
      rewrite <- Hclock. eauto. }
    assert (Hmiss_case :
      forall (Hnone : c = None \/ c = Some []),
      exists hits misses w',
        check_cache mem_table range interval rest results
          (to_fetch ++ [ticker]) w1
        = (inr (results ++ hits, to_fetch ++ misses), w')
        /\ (length hits + length misses = length (ticker :: rest))%nat
        /\ (forall t, In t misses -> In t (ticker :: rest))
        /\ (forall t, In t (ticker :: rest) ->
              w_store w !! get_cache_key t range interval = None ->
              In t misses)
        /\ (Forall (fun t =>
                      w_store w !! get_cache_key t range interval = None)
              (ticker :: rest) ->
            hits = [] /\ misses = ticker :: rest)
        /\ Forall (fun hit =>
                     exists t row n,
                       In t (ticker :: rest)
                       /\ w_store w !! get_cache_key t range interval
                          = Some row
                       /\ w_clock w n <= expires_at row
                       /\ data row <> []
                       /\ hit = PDict (dict_set "asset_type" (PStr "index")
                                         (dict_set "cached" (PBool true)
                                            (data row))))
             hits
        /\ ticker_calls (w_trace w') = ticker_calls (w_trace w)
        /\ (forall t row,
              In t misses ->
              w_store w !! get_cache_key t range interval = Some row ->
              data row = [] \/ exists n, expires_at row < w_clock w n)).
    { intros Hfalsy.
      destruct (IH results (to_fetch ++ [ticker]) w1)
        as (hits & misses & w' & Hrun & Hlen & Hin & Hcold & Hall & Hhits
            & Hc' & Hmisses).
      exists hits, (ticker :: misses), w'.
      rewrite Hrun, <- app_assoc.
      split; [reflexivity|]. split; [cbn; lia|]. split.
      { intros t [->|Ht]; [now left | right; auto]. }
      split.
      { intros t [->|Ht] Hnone; [now left | right; auto]. }
      split.
      { intros Hforall. apply Forall_cons in Hforall as (_ & Hrest).
        destruct Hall as (-> & ->).
        - eapply Forall_impl; [exact Hrest|]. intros t Ht. auto.
        - auto. }
      split.
      { eapply Forall_impl; [exact Hhits|].
        intros hit (t & row & n & Ht & Hrow & Hlive & Hdata & ->).
        exists t, row, n. rewrite <- Hclock.
        repeat split; auto. now right. }
      split; [congruence|].
      intros t row [<-|Ht] Hrow; [|exact (Hlift misses Hmisses t row Ht Hrow)].
      destruct Hfalsy as [Hc0|Hc0]; rewrite Hc0 in Hc.
      - right. exists (w_reads w). now apply Hc.
      - left. destruct Hc as (row' & Hrow' & Hdata & _). congruence. }
    destruct c as [[|item items]|]; cbv beta iota.
    + destruct (Hmiss_case (or_intror eq_refl))
        as (hits & misses & w' & -> & Hrest).
      exists hits, misses, w'. split; [reflexivity|exact Hrest].
    + destruct Hc as (row & Hrow & Hdata & Hlive).
      destruct (IH (results
                    ++ [PDict (dict_set "asset_type" (PStr "index")
                                 (dict_set "cached" (PBool true)
                                    (item :: items)))]) to_fetch w1)
        as (hits & misses & w' & -> & Hlen & Hin & Hcold & Hall & Hhits
            & Hc' & Hmisses).
      eexists (_ :: hits), misses, w'. rewrite <- app_assoc.
      split; [reflexivity|]. split; [cbn; lia|]. split.
      { intros t Ht. right. auto. }
      split.
      { intros t [->|Ht] Hnone; [congruence|auto]. }
      split.
      { intros Hforall. apply Forall_cons in Hforall as (Hnone & _).
        congruence. }
      split; [|split; [congruence|exact (Hlift misses Hmisses)]].
      constructor.
      * exists ticker, row, (w_reads w). rewrite <- Hdata.
        split; [now left|]. split; [exact Hrow|]. split; [exact Hlive|].
        split; [discriminate|reflexivity].
      * eapply Forall_impl; [exact Hhits|].
        intros hit (t & row' & n & Ht & Hrow' & Hlive' & Hdata' & ->).
        exists t, row', n. rewrite <- Hclock.
        repeat split; auto. now right.
    + destruct (Hmiss_case (or_introl eq_refl))
        as (hits & misses & w' & -> & Hrest).
      exists hits, misses, w'. split; [reflexivity|exact Hrest].
Qed.
End IndicesMemAccounting.

Section FetchAccounting.
Context {F : Type} {RT : PyRuntime F} {S : Type}.
Context (supabase : Storage (pydict F) S).
Context (yf_Ticker : string -> string + ticker_obj F).
Implicit Types (w : world (pydict F) S).

(** The fetch loop of the batch endpoint: one entry per ticker, the
    entry of that ticker, and one call to the provider for each. *)
Lemma batch_fetch_all_entries range interval ih to_fetch results w :
  exists entries w',
    get_multiple_stocks.fetch_all supabase yf_Ticker range interval ih
      to_fetch results w
    = (inr (results ++ entries), w')
    /\ Forall2 (fun ticker entry =>
                  exists now,
                    entry = get_multiple_stocks.entry_of yf_Ticker range ih
                              ticker now)
         to_fetch entries
    /\ ticker_calls (w_trace w') = ticker_calls (w_trace w) ++ to_fetch.
Proof using Type.
  destruct (fetch_all_run supabase yf_Ticker range interval ih to_fetch
              results w) as (entries & w' & Hrun & Hall).
  destruct (fetch_all_calls supabase yf_Ticker range interval ih to_fetch
              results w) as (entries' & w'' & Hrun' & _ & Hcalls).
  rewrite Hrun in Hrun'. injection Hrun' as Heq <-.
  exists entries, w'. auto.
Qed.

Lemma indices_fetch_all_entries range interval ih to_fetch results w :
  exists entries w',
    get_indices.fetch_all supabase yf_Ticker range interval ih
      to_fetch results w
    = (inr (results ++ entries), w')
    /\ Forall2 (fun ticker entry =>
                  exists now,
                    entry = get_indices.entry_of yf_Ticker range ih
                              ticker now)
         to_fetch entries
    /\ ticker_calls (w_trace w') = ticker_calls (w_trace w) ++ to_fetch.
Proof using Type.
  destruct (indices_fetch_all_run supabase yf_Ticker range interval ih
              to_fetch results w) as (entries & w' & Hrun & Hall).
  destruct (indices_fetch_all_calls supabase yf_Ticker range interval ih
              to_fetch results w) as (entries' & w'' & Hrun' & _ & Hcalls & _).
  rewrite Hrun in Hrun'. injection Hrun' as Heq <-.
  exists entries, w'. auto.
Qed.

Lemma batch_check_cache_accounting range interval ticker_list
    results to_fetch w :
  exists hits misses w',
    get_multiple_stocks.check_cache supabase range interval ticker_list
      results to_fetch w
    = (inr (results ++ hits, to_fetch ++ misses), w')
    /\ (length hits + length misses = length ticker_list)%nat
    /\ (forall t, In t misses -> In t ticker_list)
    /\ ticker_calls (w_trace w') = ticker_calls (w_trace w).
Proof using Type.
  destruct (check_cache_run supabase range interval ticker_list results
              to_fetch w) as (hits & misses & w' & Hrun & Hlen & Hin).
  destruct (check_cache_calls supabase range interval ticker_list results
              to_fetch w) as (hits' & misses' & w'' & Hrun' & _ & Hcalls).
  rewrite Hrun in Hrun'. injection Hrun' as _ _ <-.
  exists hits, misses, w'. auto.
Qed.
End FetchAccounting.

(* ----------------------------------------------------------------- *)
(** ** Validation of a batch, and isolation of its items *)

(** C8: in the batch endpoint a ticker list with one symbol that fails
    validation is answered with status 400 and the world is left as it
    was: no clock reading, no call to the table or to the provider.
    Once validation has passed, the batch endpoint and the indices
    endpoint answer with status 200 whatever the table and the provider
    do; the [data] list holds the cache hits followed by one entry per
    ticker to fetch, in order; that entry is the entry of its own
    ticker, which carries an ["error"] exactly when the fetch of that
    ticker failed ([yf.Ticker] raised, reading [info] raised, or the
    normaliser could not build the quote), and the provider was called
    once for each ticker to fetch and for no other.  On a table held in
    memory the hits are payloads of unexpired rows of requested
    tickers, every requested ticker without a row is fetched, a ticker
    is fetched only if its row is missing, empty or expired at a clock
    reading, and with no row for any requested ticker the tickers to
    fetch are the requested ones and [data] holds their entries
    alone. *)
Theorem C8_batch_validation_and_isolation :
  forall (F : Type) (RT : PyRuntime F) (S : Type)
         (supabase : Storage (pydict F) S)
         (yf_Ticker : string -> string + ticker_obj F)
         (request : request_body) (w : world (pydict F) S),
    (forall ticker_list,
        get_multiple_stocks.ticker_list_of (rq_tickers request)
        = Some ticker_list ->
        Exists (fun t => validate_ticker_symbol t = false) ticker_list ->
        exists msg,
          get_multiple_stocks.handler supabase yf_Ticker request w
          = (inr (mkResponse 400 (error_body msg) json_headers), w))
    /\ (get_multiple_stocks.validate_request request = (true, "") ->
        exists hits misses fetched w',
          get_multiple_stocks.handler supabase yf_Ticker request w
          = (inr (mkResponse 200
                    (get_multiple_stocks.batch_body (hits ++ fetched) misses)
                    json_headers), w')
          /\ (length hits + length misses
              = length (get_multiple_stocks.upper_ticker_list
                          (rq_tickers request)))%nat
          /\ Forall2
               (fun ticker entry =>
                  (exists now,
                      entry = get_multiple_stocks.entry_of yf_Ticker
                                (get_or (rq_range request) "1d")
                                (rq_include_history request) ticker now)
                  /\ has_error entry
                     = provider_failed yf_Ticker (rq_include_history request)
                         (get_or (rq_range request) "1d") ticker)
               misses fetched
          /\ (forall t, In t misses ->
                In t (get_multiple_stocks.upper_ticker_list
                        (rq_tickers request)))
          /\ ticker_calls (w_trace w') = ticker_calls (w_trace w) ++ misses)
    /\ (forall method ticker_list,
          get_indices.validate_request
            (if String.eqb method "POST" then request else empty_body)
          = inr (inr ticker_list) ->
          exists hits misses fetched w',
            get_indices.handler supabase yf_Ticker method request w
            = (inr (mkResponse 200
                      (get_multiple_stocks.batch_body (hits ++ fetched) misses)
                      json_headers), w')
            /\ (length hits + length misses = length ticker_list)%nat
            /\ Forall2
                 (fun ticker entry =>
                    (exists now,
                        entry = get_indices.entry_of yf_Ticker
                                  (get_or (rq_range
                                             (if String.eqb method "POST"
                                              then request else empty_body))
                                     "1d")
                                  (rq_include_history
                                     (if String.eqb method "POST"
                                      then request else empty_body))
                                  ticker now)
                    /\ has_error entry
                       = provider_failed yf_Ticker
                           (rq_include_history
                              (if String.eqb method "POST" then request
                               else empty_body))
                           (get_or (rq_range (if String.eqb method "POST"
                                              then request else empty_body))
                              "1d") ticker)
                 misses fetched
            /\ ticker_calls (w_trace w') = ticker_calls (w_trace w) ++ misses)
    /\ (forall include_history range_period ticker,
          (forall msg, yf_Ticker ticker = inl msg ->
             provider_failed yf_Ticker include_history range_period ticker
             = true)
          /\ (forall obj msg,
                yf_Ticker ticker = inr obj -> t_info obj = inl msg ->
                provider_failed yf_Ticker include_history range_period ticker
                = true)
          /\ (forall obj info msg,
                yf_Ticker ticker = inr obj -> t_info obj = inr info ->
                t_history obj range_period = inl msg ->
                provider_failed yf_Ticker true range_period ticker = true)
          /\ (forall obj (w0 w1 : world (pydict F) S) quote,
                yf_Ticker ticker = inr obj ->
                normalize_body obj include_history range_period w0
                = (inr quote, w1) ->
                provider_failed yf_Ticker include_history range_period ticker
                = false))
    /\ (forall wm : world (pydict F) (gmap string (Row (pydict F))),
          get_multiple_stocks.validate_request request = (true, "") ->
          exists hits misses fetched w',
            get_multiple_stocks.handler mem_table yf_Ticker request wm
            = (inr (mkResponse 200
                      (get_multiple_stocks.batch_body (hits ++ fetched) misses)
                      json_headers), w')
            /\ (length hits + length misses
                = length (get_multiple_stocks.upper_ticker_list
                            (rq_tickers request)))%nat
            /\ (forall t,
                  In t (get_multiple_stocks.upper_ticker_list
                          (rq_tickers request)) ->
                  w_store wm !! get_cache_key t
                                  (get_or (rq_range request) "1d")
                                  (get_or (rq_interval request) "1d") = None ->
                  In t misses)
            /\ (Forall (fun t =>
                          w_store wm !! get_cache_key t
                                          (get_or (rq_range request) "1d")
                                          (get_or (rq_interval request) "1d")
                          = None)
                  (get_multiple_stocks.upper_ticker_list
                     (rq_tickers request)) ->
                hits = []
                /\ misses = get_multiple_stocks.upper_ticker_list
                              (rq_tickers request))
            /\ Forall (fun hit =>
                         exists t row n,
                           In t (get_multiple_stocks.upper_ticker_list
                                   (rq_tickers request))
                           /\ w_store wm !! get_cache_key t
                                              (get_or (rq_range request) "1d")
                                              (get_or (rq_interval request)
                                                 "1d")
                              = Some row
                           /\ w_clock wm n <= expires_at row
                           /\ data row <> []
                           /\ hit = PDict (dict_set "cached" (PBool true)
                                             (data row)))
                 hits
            /\ Forall2
                 (fun ticker entry =>
                    (exists now,
                        entry = get_multiple_stocks.entry_of yf_Ticker
                                  (get_or (rq_range request) "1d")
                                  (rq_include_history request) ticker now)
                    /\ has_error entry
                       = provider_failed yf_Ticker
                           (rq_include_history request)
                           (get_or (rq_range request) "1d") ticker)
                 misses fetched
            /\ ticker_calls (w_trace w')
               = ticker_calls (w_trace wm) ++ misses
            /\ (forall t row,
                  In t misses ->
                  w_store wm !! get_cache_key t
                                  (get_or (rq_range request) "1d")
                                  (get_or (rq_interval request) "1d")
                  = Some row ->
                  data row = []
                  \/ exists n, expires_at row < w_clock wm n))
    /\ (forall (wm : world (pydict F) (gmap string (Row (pydict F))))
               (ticker_list : list string),
          get_indices.validate_request request = inr (inr ticker_list) ->
          exists hits misses fetched w',
            get_indices.handler mem_table yf_Ticker "POST" request wm
            = (inr (mkResponse 200
                      (get_multiple_stocks.batch_body (hits ++ fetched) misses)
                      json_headers), w')
            /\ (length hits + length misses = length ticker_list)%nat
            /\ (forall t,
                  In t ticker_list ->
                  w_store wm !! get_cache_key t
                                  (get_or (rq_range request) "1d")
                                  (get_or (rq_interval request) "1d") = None ->
                  In t misses)
            /\ (Forall (fun t =>
                          w_store wm !! get_cache_key t
                                          (get_or (rq_range request) "1d")
                                          (get_or (rq_interval request) "1d")
                          = None) ticker_list ->
                hits = [] /\ misses = ticker_list)
            /\ Forall (fun hit =>
                         exists t row n,
                           In t ticker_list
                           /\ w_store wm !! get_cache_key t
                                              (get_or (rq_range request) "1d")
                                              (get_or (rq_interval request)
                                                 "1d")
                              = Some row
                           /\ w_clock wm n <= expires_at row
                           /\ data row <> []
                           /\ hit = PDict (dict_set "asset_type" (PStr "index")
                                             (dict_set "cached" (PBool true)
                                                (data row))))
                 hits
            /\ Forall2
                 (fun ticker entry =>
                    (exists now,
                        entry = get_indices.entry_of yf_Ticker
                                  (get_or (rq_range request) "1d")
                                  (rq_include_history request) ticker now)
                    /\ has_error entry
                       = provider_failed yf_Ticker
                           (rq_include_history request)
                           (get_or (rq_range request) "1d") ticker)
                 misses fetched
            /\ ticker_calls (w_trace w')
               = ticker_calls (w_trace wm) ++ misses
            /\ (forall t row,
                  In t misses ->
                  w_store wm !! get_cache_key t
                                  (get_or (rq_range request) "1d")
                                  (get_or (rq_interval request) "1d")
                  = Some row ->
                  data row = []
                  \/ exists n, expires_at row < w_clock wm n)).
Proof.
  intros F RT S supabase yf_Ticker request w.
  split; [|split; [|split; [|split; [|split]]]].
  - intros ticker_list Hl Hbad.
    destruct (validate_request_rejects_invalid request ticker_list Hl Hbad)
      as (msg & Hv).
    exists msg. now apply handler_rejects.
  - intros Hv.
    destruct (batch_check_cache_accounting supabase
                (get_or (rq_range request) "1d")
                (get_or (rq_interval request) "1d")
                (get_multiple_stocks.upper_ticker_list (rq_tickers request))
                [] [] w)
      as (hits & misses & w1 & Hcheck & Hlen & Hin & Hc1).
    destruct (batch_fetch_all_entries supabase yf_Ticker
                (get_or (rq_range request) "1d")
                (get_or (rq_interval request) "1d")
                (rq_include_history request) misses hits w1)
      as (fetched & w' & Hfetch & Hall & Hc2).
    exists hits, misses, fetched, w'. split.
    { exact (handler_unfold supabase yf_Ticker request "" w (hits, misses)
               w1 (hits ++ fetched) w' Hv Hcheck Hfetch). }
    split; [exact Hlen|]. split.
    { eapply Forall2_impl; [exact Hall|].
      intros ticker entry (now & ->). split; [eauto|].
      apply batch_entry_error. }
    split; [exact Hin|congruence].
  - intros method ticker_list Hv.
    set (body := if String.eqb method "POST" then request else empty_body)
      in *.
    destruct (indices_check_cache_calls supabase
                (get_or (rq_range body) "1d") (get_or (rq_interval body) "1d")
                ticker_list [] [] w)
      as (hits & misses & w1 & Hcheck & Hlen & Hc1 & _).
    destruct (indices_fetch_all_entries supabase yf_Ticker
                (get_or (rq_range body) "1d") (get_or (rq_interval body) "1d")
                (rq_include_history body) misses hits w1)
      as (fetched & w' & Hfetch & Hall & Hc2).
    exists hits, misses, fetched, w'. split.
    { exact (indices_handler_unfold supabase yf_Ticker method request
               ticker_list w (hits, misses) w1 (hits ++ fetched) w'
               Hv Hcheck Hfetch). }
    split; [exact Hlen|]. split; [|congruence].
    eapply Forall2_impl; [exact Hall|].
    intros ticker entry (now & ->). split; [eauto|].
    apply indices_entry_error.
  - intros include_history range_period ticker. unfold provider_failed.
    split; [|split; [|split]].
    + intros msg ->. reflexivity.
    + intros obj msg -> Hinfo. now apply (fails_when_info_raises obj _ _ msg).
    + intros obj info msg -> Hinfo Hhist.
      now apply (fails_when_history_raises obj _ info msg).
    + intros obj w0 w1 quote -> Hbody.
      now apply (normalizes_when_body_returns obj _ _ w0 w1 quote).
  - intros wm Hv.
    destruct (check_cache_mem_rows (get_or (rq_range request) "1d")
                (get_or (rq_interval request) "1d")
                (get_multiple_stocks.upper_ticker_list (rq_tickers request))
                [] [] wm)
      as (hits & misses & w1 & Hcheck & Hlen & _ & Hcold & Hall & Hhits
          & Hc1 & Hmisses).
    destruct (batch_fetch_all_entries mem_table yf_Ticker
                (get_or (rq_range request) "1d")
                (get_or (rq_interval request) "1d")
                (rq_include_history request) misses hits w1)
      as (fetched & w' & Hfetch & Hentries & Hc2).
    exists hits, misses, fetched, w'. split.
    { exact (handler_unfold mem_table yf_Ticker request "" wm (hits, misses)
               w1 (hits ++ fetched) w' Hv Hcheck Hfetch). }
    split; [exact Hlen|]. split; [exact Hcold|]. split; [exact Hall|].
    split; [exact Hhits|]. split; [|split; [congruence|exact Hmisses]].
    eapply Forall2_impl; [exact Hentries|].
    intros ticker entry (now & ->). split; [eauto|].
    apply batch_entry_error.
  - intros wm ticker_list Hv.
    destruct (indices_check_cache_mem_rows (get_or (rq_range request) "1d")
                (get_or (rq_interval request) "1d") ticker_list [] [] wm)
      as (hits & misses & w1 & Hcheck & Hlen & _ & Hcold & Hall & Hhits
          & Hc1 & Hmisses).
    destruct (indices_fetch_all_entries mem_table yf_Ticker
                (get_or (rq_range request) "1d")
                (get_or (rq_interval request) "1d")
                (rq_include_history request) misses hits w1)
      as (fetched & w' & Hfetch & Hentries & Hc2).
    exists hits, misses, fetched, w'. split.
    { exact (indices_handler_unfold mem_table yf_Ticker "POST" request
               ticker_list wm (hits, misses) w1 (hits ++ fetched) w'
               Hv Hcheck Hfetch). }
    split; [exact Hlen|]. split; [exact Hcold|]. split; [exact Hall|].
    split; [exact Hhits|]. split; [|split; [congruence|exact Hmisses]].
    eapply Forall2_impl; [exact Hentries|].
    intros ticker entry (now & ->). split; [eauto|].
    apply indices_entry_error.
Qed.
Lemma C8_batch_validation_and_isolation_witness :
  (exists msg,
      get_multiple_stocks.handler mem_table sample_provider
        (batch_of ["AAPL"; "???"]) quiet_world
      = (inr (mkResponse 400 (error_body msg) json_headers), quiet_world))
  /\ (exists now w',
         get_multiple_stocks.handler mem_table sample_provider
           (batch_of ["aapl"; "ibm"]) quiet_world
         = (inr (mkResponse 200
                   (get_multiple_stocks.batch_body
                      [ get_multiple_stocks.entry_of sample_provider "1d"
                          false "AAPL" now;
                        get_multiple_stocks.failed_entry "IBM"
                          (ProviderError "connection reset") ]
                      ["AAPL"; "IBM"])
                   json_headers), w')
         /\ has_error (get_multiple_stocks.entry_of sample_provider "1d"
                         false "AAPL" now) = false
         /\ has_error (get_multiple_stocks.failed_entry (F := Q) "IBM"
                         (ProviderError "connection reset")) = true
         /\ ticker_calls (w_trace w') = ["AAPL"; "IBM"])
  /\ (exists now w',
         get_indices.handler mem_table sample_provider "POST"
           (indices_of ["sp500"; "^vix"]) quiet_world
         = (inr (mkResponse 200
                   (get_multiple_stocks.batch_body
                      [ get_indices.entry_of sample_provider "1d"
                          false "^GSPC" now;
                        get_indices.failed_entry "^VIX"
                          (ProviderError "connection reset") ]
                      ["^GSPC"; "^VIX"])
                   json_headers), w')
         /\ has_error (get_indices.entry_of sample_provider "1d"
                         false "^GSPC" now) = false
         /\ has_error (get_indices.failed_entry (F := Q) "^VIX"
                         (ProviderError "connection reset")) = true
         /\ ticker_calls (w_trace w') = ["^GSPC"; "^VIX"])
  /\ provider_failed sample_provider false "1d" "IBM" = true
  /\ provider_failed sample_provider false "1d" "GONE" = true
  /\ provider_failed (fun _ => inr no_history_ticker) true "1d" "SLOW" = true
  /\ provider_failed sample_provider false "1d" "AAPL" = false.
Proof.
  split; [|split; [|split; [|split; [|split; [|split]]]]].
  - destruct (C8_batch_validation_and_isolation Q q_runtime _ mem_table
                sample_provider (batch_of ["AAPL"; "???"]) quiet_world)
      as (Hreject & _).
    apply (Hreject ["AAPL"; "???"]); [reflexivity|].
    apply Exists_cons_tl, Exists_cons_hd. reflexivity.
  - destruct (C8_batch_validation_and_isolation Q q_runtime _ mem_table
                sample_provider (batch_of ["aapl"; "ibm"]) quiet_world)
      as (_ & _ & _ & _ & Hmem & _).
    destruct (Hmem quiet_world eq_refl)
      as (hits & misses & fetched & w' & Hrun & _ & _ & Hcold & _
          & Hentries & Hcalls & _).
    destruct Hcold as (-> & ->).
    { apply List.Forall_forall. intros t _. apply lookup_empty. }
    change (get_multiple_stocks.upper_ticker_list
              (rq_tickers (batch_of ["aapl"; "ibm"])))
      with ["AAPL"; "IBM"] in *.
    apply Forall2_cons_inv_l in Hentries
      as (e1 & rest1 & ((now1 & He1) & Herr1) & Hentries & ->).
    apply Forall2_cons_inv_l in Hentries
      as (e2 & rest2 & ((now2 & He2) & Herr2) & Hentries & ->).
    apply Forall2_nil_inv_l in Hentries as ->.
    subst e1 e2. exists now1, w'.
    split; [exact Hrun|]. split; [|split; [reflexivity|exact Hcalls]].
    etransitivity; [exact Herr1|]. vm_compute. reflexivity.
  - destruct (C8_batch_validation_and_isolation Q q_runtime _ mem_table
                sample_provider (indices_of ["sp500"; "^vix"]) quiet_world)
      as (_ & _ & _ & _ & _ & Hmem).
    destruct (Hmem quiet_world ["^GSPC"; "^VIX"] eq_refl)
      as (hits & misses & fetched & w' & Hrun & _ & _ & Hcold & _
          & Hentries & Hcalls & _).
    destruct Hcold as (-> & ->).
    { apply List.Forall_forall. intros t _. apply lookup_empty. }
    apply Forall2_cons_inv_l in Hentries
      as (e1 & rest1 & ((now1 & He1) & Herr1) & Hentries & ->).
    apply Forall2_cons_inv_l in Hentries
      as (e2 & rest2 & ((now2 & He2) & Herr2) & Hentries & ->).
    apply Forall2_nil_inv_l in Hentries as ->.
    subst e1 e2. exists now1, w'.
    split; [exact Hrun|]. split; [|split; [reflexivity|exact Hcalls]].
    etransitivity; [exact Herr1|]. vm_compute. reflexivity.
  - destruct (C8_batch_validation_and_isolation Q q_runtime _ mem_table
                sample_provider empty_body quiet_world)
      as (_ & _ & _ & Hfail & _).
    destruct (Hfail false "1d" "IBM") as (Hdown & _).
    apply (Hdown "connection reset"). reflexivity.
  - destruct (C8_batch_validation_and_isolation Q q_runtime _ mem_table
                sample_provider empty_body quiet_world)
      as (_ & _ & _ & Hfail & _).
    destruct (Hfail false "1d" "GONE") as (_ & Hinfo & _).
    apply (Hinfo delisted_ticker "No data found, symbol may be delisted");
      reflexivity.
  - destruct (C8_batch_validation_and_isolation Q q_runtime _ mem_table
                (fun _ => inr no_history_ticker) empty_body quiet_world)
      as (_ & _ & _ & Hfail & _).
    destruct (Hfail true "1d" "SLOW") as (_ & _ & Hhistory & _).
    eapply (Hhistory no_history_ticker); reflexivity.
  - destruct (C8_batch_validation_and_isolation Q q_runtime _ mem_table
                sample_provider empty_body quiet_world)
      as (_ & _ & _ & Hfail & _).
    destruct (Hfail false "1d" "AAPL") as (_ & _ & _ & Hok).
    eapply (Hok rising_ticker quiet_world); [reflexivity|].
    vm_compute. reflexivity.
Defined.
